(** * The EPOH ledger: leader node, sequential-hash engine and chain verifier

    A shallow embedding of [GCS_LeaderNode.py] and [varify_chain.py].

    Python values are modelled as the interpreter has them:
    - [str] is a Rocq [string] whose characters are the code points
      U+0000..U+00FF (one [ascii] per code point);
    - [int] is [Z]; [float] is the kernel's binary64 [float];
    - JSON documents (requests, transactions, blocks) are values of the
      inductive type [json], a [dict] being an insertion-ordered association
      list with unique keys;
    - [hashlib.sha256(b).hexdigest()] is computed by [SHA256.hexdigest];
    - [json.dumps(v, sort_keys=True)] is computed by [Json.dumps_sorted];
    - [time.time()] reads the next value of a clock oracle;
    - a Python exception is an explicit outcome of the computation. *)

From Stdlib Require Import ZArith List String Ascii Floats Uint63 DecimalString Lia Bool.
From stdpp Require Import gmap strings.
Import ListNotations.

Set Warnings "-register-all".
Local Open Scope string_scope.
Local Open Scope Z_scope.

(** ** Python strings and integers *)

Module Py.

(** [s.encode('utf-8')] for code points below U+0100: one byte below
    U+0080, two bytes otherwise. *)
Definition utf8_char (c : ascii) : list Z :=
  let n := Z.of_nat (nat_of_ascii c) in
  if n <? 128 then [n] else [192 + n / 64; 128 + n mod 64].

Fixpoint encode_utf8 (s : string) : list Z :=
  match s with
  | EmptyString => []
  | String c rest => utf8_char c ++ encode_utf8 rest
  end.

(** [str(n)] for an [int]. *)
Definition str_of_int (n : Z) : string :=
  NilZero.string_of_int (Z.to_int n).

(** [s[:n]]: the first [n] characters (all of [s] when it is shorter). *)
Fixpoint prefix (n : nat) (s : string) : string :=
  match n, s with
  | S n', String c rest => String c (prefix n' rest)
  | _, _ => EmptyString
  end.

(** ['0' * n] *)
Fixpoint zeros (n : nat) : string :=
  match n with
  | O => EmptyString
  | S n' => String "0" (zeros n')
  end.

(** Lower-case hexadecimal digit of a value in 0..15. *)
Definition hex_digit (d : Z) : ascii :=
  if d <? 10 then ascii_of_nat (Z.to_nat (48 + d))
  else ascii_of_nat (Z.to_nat (87 + d)).

(** The [n] low hexadecimal digits of [x], most significant first. *)
Fixpoint hex_fixed (n : nat) (x : Z) : string :=
  match n with
  | O => EmptyString
  | S n' => hex_fixed n' (x / 16) ++ String (hex_digit (x mod 16)) EmptyString
  end.

(** Code-point order on strings: [a < b] and [a <= b] for two [str]. *)
Fixpoint str_ltb (a b : string) : bool :=
  match a, b with
  | EmptyString, EmptyString => false
  | EmptyString, String _ _ => true
  | String _ _, EmptyString => false
  | String x a', String y b' =>
      let nx := nat_of_ascii x in
      let ny := nat_of_ascii y in
      if (nx <? ny)%nat then true
      else if (ny <? nx)%nat then false
      else str_ltb a' b'
  end.

Definition str_leb (a b : string) : bool := negb (str_ltb b a).

End Py.

(** ** SHA-256 (FIPS 180-4), as [hashlib.sha256] computes it *)

Module SHA256.

Definition mask32 : Z := 0xFFFFFFFF.

Definition add32 (x y : Z) : Z := Z.land (x + y) mask32.

Definition rotr (n x : Z) : Z :=
  Z.lor (Z.shiftr x n) (Z.land (Z.shiftl x (32 - n)) mask32).

Definition Ch (x y z : Z) : Z :=
  Z.lxor (Z.land x y) (Z.land (Z.lxor x mask32) z).

Definition Maj (x y z : Z) : Z :=
  Z.lxor (Z.lxor (Z.land x y) (Z.land x z)) (Z.land y z).

Definition bsig0 (x : Z) : Z := Z.lxor (Z.lxor (rotr 2 x) (rotr 13 x)) (rotr 22 x).
Definition bsig1 (x : Z) : Z := Z.lxor (Z.lxor (rotr 6 x) (rotr 11 x)) (rotr 25 x).
Definition ssig0 (x : Z) : Z := Z.lxor (Z.lxor (rotr 7 x) (rotr 18 x)) (Z.shiftr x 3).
Definition ssig1 (x : Z) : Z := Z.lxor (Z.lxor (rotr 17 x) (rotr 19 x)) (Z.shiftr x 10).

(** The constants are fractional parts of roots of the first primes
    (FIPS 180-4, 4.2.2 and 5.3.3), 32 bits each. *)
Definition is_prime (n : nat) : bool :=
  (1 <? n)%nat && forallb (fun d => negb (n mod d =? 0)%nat) (seq 2 (n - 2)).

Definition primes_below (n : nat) : list Z :=
  List.map Z.of_nat (List.filter is_prime (seq 0 n)).

(** Integer cube root, one bit at a time from bit [b - 1] down. *)
Fixpoint cube_root_bits (b : nat) (n r : Z) : Z :=
  match b with
  | O => r
  | S b' =>
      let r' := r + 2 ^ Z.of_nat b' in
      cube_root_bits b' n (if r' * r' * r' <=? n then r' else r)
  end.

Definition frac_cube_root (p : Z) : Z :=
  Z.land (cube_root_bits 36 (p * 2 ^ 96) 0) mask32.

Definition frac_square_root (p : Z) : Z :=
  Z.land (Z.sqrt (p * 2 ^ 64)) mask32.

(** Cube roots of the first 64 primes (2 .. 311). *)
Definition round_constants : list Z :=
  Eval vm_compute in List.map frac_cube_root (primes_below 312).

(** The eight working words a..h, also the chaining value. *)
Record regs := Regs { ra : Z; rb : Z; rc : Z; rd : Z; re : Z; rf : Z; rg : Z; rh : Z }.

(** Square roots of the first 8 primes (2 .. 19). *)
Definition initial_regs : regs :=
  Eval vm_compute in
    match List.map frac_square_root (primes_below 20) with
    | [a; b; c; d; e; f; g; h] => Regs a b c d e f g h
    | _ => Regs 0 0 0 0 0 0 0 0
    end.

(** Padding: the byte 0x80, zero bytes up to 56 modulo 64, then the bit
    length as a 64-bit big-endian integer. *)
Fixpoint be_bytes (n : nat) (x : Z) : list Z :=
  match n with
  | O => []
  | S n' => be_bytes n' (x / 256) ++ [x mod 256]
  end.

Definition pad (msg : list Z) : list Z :=
  let len := Z.of_nat (List.length msg) in
  msg ++ [128] ++ repeat 0 (Z.to_nat ((55 - len) mod 64)) ++ be_bytes 8 (8 * len).

(** Big-endian 32-bit words of a byte sequence. *)
Fixpoint words (fuel : nat) (bs : list Z) : list Z :=
  match fuel, bs with
  | S fuel', b0 :: b1 :: b2 :: b3 :: rest =>
      (((b0 * 256 + b1) * 256 + b2) * 256 + b3) :: words fuel' rest
  | _, _ => []
  end.

(** Message schedule: the window holds W(t)..W(t+15). *)
Definition next_word (win : list Z) : Z :=
  add32 (add32 (add32 (ssig1 (nth 14 win 0)) (nth 9 win 0)) (ssig0 (nth 1 win 0)))
        (nth 0 win 0).

Fixpoint schedule (n : nat) (win : list Z) : list Z :=
  match n, win with
  | S n', w0 :: rest => w0 :: schedule n' (rest ++ [next_word win])
  | _, _ => []
  end.

Definition round (r : regs) (kw : Z * Z) : regs :=
  let t1 := add32 (add32 (add32 (add32 (rh r) (bsig1 (re r))) (Ch (re r) (rf r) (rg r)))
                         (fst kw)) (snd kw) in
  let t2 := add32 (bsig0 (ra r)) (Maj (ra r) (rb r) (rc r)) in
  Regs (add32 t1 t2) (ra r) (rb r) (rc r) (add32 (rd r) t1) (re r) (rf r) (rg r).

Definition compress (h : regs) (block : list Z) : regs :=
  let r := fold_left round (combine round_constants (schedule 64 block)) h in
  Regs (add32 (ra h) (ra r)) (add32 (rb h) (rb r)) (add32 (rc h) (rc r))
       (add32 (rd h) (rd r)) (add32 (re h) (re r)) (add32 (rf h) (rf r))
       (add32 (rg h) (rg r)) (add32 (rh h) (rh r)).

Fixpoint blocks (fuel : nat) (ws : list Z) (h : regs) : regs :=
  match fuel, ws with
  | S fuel', _ :: _ => blocks fuel' (skipn 16 ws) (compress h (firstn 16 ws))
  | _, _ => h
  end.

Definition digest (msg : list Z) : regs :=
  let padded := pad msg in
  let ws := words (List.length padded) padded in
  blocks (List.length ws) ws initial_regs.

(** [hashlib.sha256(msg).hexdigest()]: 64 lower-case hexadecimal digits. *)
Definition hexdigest (msg : list Z) : string :=
  let r := digest msg in
  Py.hex_fixed 8 (ra r) ++ Py.hex_fixed 8 (rb r) ++ Py.hex_fixed 8 (rc r) ++
  Py.hex_fixed 8 (rd r) ++ Py.hex_fixed 8 (re r) ++ Py.hex_fixed 8 (rf r) ++
  Py.hex_fixed 8 (rg r) ++ Py.hex_fixed 8 (rh r).

(** [hashlib.sha256(s.encode('utf-8')).hexdigest()] *)
Definition hex_of_str (s : string) : string := hexdigest (Py.encode_utf8 s).

End SHA256.

(** ** Python floats: [repr], [int()] and mixed comparisons *)

Module PyFloat.

(** A finite non-zero double is [m * 2^e]; the computations below compare
    decimals [d * 10^q] with binary values [x * 2^e] exactly, in [Z]. *)
Definition cmp_dec_bin (d q x e : Z) : comparison :=
  Z.compare (d * 10 ^ Z.max q 0 * 2 ^ Z.max (- e) 0)
            (x * 2 ^ Z.max e 0 * 10 ^ Z.max (- q) 0).

(** [floor (x * 2^e / 10^q)] *)
Definition floor_dec (x e q : Z) : Z :=
  (x * 2 ^ Z.max e 0 * 10 ^ Z.max (- q) 0) / (2 ^ Z.max (- e) 0 * 10 ^ Z.max q 0).

(** The least [k] with [x * 2^e < 10^k], searched upwards from [k]. *)
Fixpoint decimal_point (fuel : nat) (x e k : Z) : Z :=
  match fuel with
  | O => k
  | S fuel' =>
      match cmp_dec_bin 1 k x e with
      | Gt => k
      | _ => decimal_point fuel' x e (k + 1)
      end
  end.

(** Number of decimal digits of a positive integer. *)
Definition ndigits (d : Z) : Z := Z.of_nat (String.length (Py.str_of_int d)).

Fixpoint strip_zeros (fuel : nat) (d : Z) : Z :=
  match fuel with
  | O => d
  | S fuel' => if (0 <? d) && (d mod 10 =? 0) then strip_zeros fuel' (d / 10) else d
  end.

(** Rounding interval of [m * 2^e] in quarter units of the last place:
    the value is [4m], the upper midpoint [4m+2], the lower midpoint
    [4m-2], or [4m-1] at the bottom of a binade. *)
Definition low4 (m e : Z) : Z :=
  if (m =? 2 ^ 52) && (-1074 <? e) then 4 * m - 1 else 4 * m - 2.

Definition in_interval (m e d q : Z) : bool :=
  let even := Z.even m in
  let lo := cmp_dec_bin d q (low4 m e) (e - 2) in
  let hi := cmp_dec_bin d q (4 * m + 2) (e - 2) in
  match lo, hi with
  | Gt, Lt => true
  | Eq, Lt => even
  | Gt, Eq => even
  | _, _ => false
  end.

(** Shortest decimal that reads back as [m * 2^e], closest to it among the
    shortest: tries 1, 2, ... significant digits.  Returns the digits as
    an integer without trailing zeros and the position of the decimal
    point ([0.digits * 10^decpt]). *)
Fixpoint shortest_from (fuel : nat) (n : Z) (m e k : Z) : Z * Z :=
  let q := k - n in
  let dlo := floor_dec (4 * m) (e - 2) q in
  let exact := match cmp_dec_bin dlo q (4 * m) (e - 2) with Eq => true | _ => false end in
  let dhi := dlo + 1 in
  let oklo := in_interval m e dlo q in
  let okhi := in_interval m e dhi q in
  (* twice the value against dlo + dhi decides which candidate is closer *)
  let closer := cmp_dec_bin (dlo + dhi) q (8 * m) (e - 2) in
  let pick (d : Z) := (strip_zeros 400 d, q + ndigits d) in
  match fuel with
  | O => pick dlo
  | S fuel' =>
      if exact then pick dlo
      else if oklo && okhi then
        match closer with
        | Gt => pick dlo
        | Lt => pick dhi
        | Eq => if Z.even dlo then pick dlo else pick dhi
        end
      else if oklo then pick dlo
      else if okhi then pick dhi
      else shortest_from fuel' (n + 1) m e k
  end.

Definition shortest_digits (m e : Z) : Z * Z :=
  let k0 := (Z.log2 m + e) * 30103 / 100000 - 2 in
  let k := decimal_point 8 m e k0 in
  shortest_from 17 1 m e k.

(** Text of a finite non-zero magnitude from its digits and decimal point:
    [float_repr_style = 'short'], format code ['r']. *)
Definition format_repr (digits decpt : Z) : string :=
  let ds := Py.str_of_int digits in
  let len := Z.of_nat (String.length ds) in
  if (decpt <=? -4) || (16 <? decpt) then
    let ex := decpt - 1 in
    let mant :=
      match ds with
      | String c EmptyString => ds
      | String c rest => String c ("." ++ rest)
      | EmptyString => ds
      end in
    let exs := Py.str_of_int (Z.abs ex) in
    let exs2 := if Z.abs ex <? 10 then "0" ++ exs else exs in
    mant ++ "e" ++ (if ex <? 0 then "-" else "+") ++ exs2
  else if decpt <=? 0 then
    "0." ++ Py.zeros (Z.to_nat (- decpt)) ++ ds
  else if decpt <? len then
    Py.prefix (Z.to_nat decpt) ds ++ "." ++
    String.substring (Z.to_nat decpt) (Z.to_nat (len - decpt)) ds
  else
    ds ++ Py.zeros (Z.to_nat (decpt - len)) ++ ".0".

(** [repr(x)] *)
Definition repr (x : float) : string :=
  match Prim2SF x with
  | S754_nan => "nan"
  | S754_infinity false => "inf"
  | S754_infinity true => "-inf"
  | S754_zero false => "0.0"
  | S754_zero true => "-0.0"
  | S754_finite s m e =>
      let '(d, k) := shortest_digits (Zpos m) e in
      (if s then "-" else "") ++ format_repr d k
  end.

(** [int(x)]: truncation towards zero; [None] where Python raises
    ([ValueError] on NaN, [OverflowError] on an infinity). *)
Definition to_int (x : float) : option Z :=
  match Prim2SF x with
  | S754_nan | S754_infinity _ => None
  | S754_zero _ => Some 0
  | S754_finite s m e =>
      let a := if 0 <=? e then Zpos m * 2 ^ e else Zpos m / 2 ^ (- e) in
      Some (if s then - a else a)
  end.

(** Exact comparison of an [int] with a [float]; [None] when the float
    is NaN (every ordered comparison is then false). *)
Definition compare_int (z : Z) (x : float) : option comparison :=
  match Prim2SF x with
  | S754_nan => None
  | S754_infinity false => Some Lt
  | S754_infinity true => Some Gt
  | S754_zero _ => Some (Z.compare z 0)
  | S754_finite s m e =>
      let sm := if s then Zneg m else Zpos m in
      Some (Z.compare (z * 2 ^ Z.max (- e) 0) (sm * 2 ^ Z.max e 0))
  end.

End PyFloat.

(** ** JSON values and [json.dumps(..., sort_keys=True)] *)

Module Json.

Inductive json : Type :=
| JNull
| JBool (b : bool)
| JInt (n : Z)
| JFloat (x : float)
| JStr (s : string)
| JList (items : list json)
| JDict (entries : list (string * json)).

(** A Python [dict] with [str] keys, in insertion order. *)
Definition pydict : Type := list (string * json).

(** [d.get(k)] as an option ([None] when the key is absent). *)
Fixpoint dict_get (k : string) (d : pydict) : option json :=
  match d with
  | [] => None
  | (k', v) :: rest => if String.eqb k k' then Some v else dict_get k rest
  end.

(** [d[k] = v]: overwrites in place, or appends a new key. *)
Fixpoint dict_set (k : string) (v : json) (d : pydict) : pydict :=
  match d with
  | [] => [(k, v)]
  | (k', v') :: rest =>
      if String.eqb k k' then (k, v) :: rest else (k', v') :: dict_set k v rest
  end.

(** [del d[k]] (the caller has checked that the key is present). *)
Fixpoint dict_del (k : string) (d : pydict) : pydict :=
  match d with
  | [] => []
  | (k', v') :: rest =>
      if String.eqb k k' then rest else (k', v') :: dict_del k rest
  end.

(** [request.get(k)]: Python's [None] is JSON's [null]. *)
Definition get (k : string) (d : pydict) : json :=
  match dict_get k d with
  | Some v => v
  | None => JNull
  end.

(** [v == s] for a [str] [s]: only an equal string compares equal. *)
Definition eq_str (v : json) (s : string) : bool :=
  match v with
  | JStr t => String.eqb t s
  | _ => false
  end.

(** *** Serialization *)

Definition dquote : string := String "034"%char EmptyString.

(** [ensure_ascii=True] escaping of one character. *)
Definition escape_char (c : ascii) : string :=
  let n := Z.of_nat (nat_of_ascii c) in
  if n =? 34 then "\" ++ dquote
  else if n =? 92 then "\\"
  else if n =? 10 then "\n"
  else if n =? 13 then "\r"
  else if n =? 9 then "\t"
  else if n =? 8 then "\b"
  else if n =? 12 then "\f"
  else if (32 <=? n) && (n <=? 126) then String c EmptyString
  else "\u" ++ Py.hex_fixed 4 n.

Fixpoint escape (s : string) : string :=
  match s with
  | EmptyString => EmptyString
  | String c rest => escape_char c ++ escape rest
  end.

Definition quote (s : string) : string := dquote ++ escape s ++ dquote.

(** [float.__repr__], with the three non-finite spellings of the encoder. *)
Definition float_text (x : float) : string :=
  match Prim2SF x with
  | S754_nan => "NaN"
  | S754_infinity false => "Infinity"
  | S754_infinity true => "-Infinity"
  | _ => PyFloat.repr x
  end.

Fixpoint join (sep : string) (parts : list string) : string :=
  match parts with
  | [] => EmptyString
  | [p] => p
  | p :: rest => p ++ sep ++ join sep rest
  end.

(** [sorted(d.items())]: insertion sort on the keys, which are unique. *)
Fixpoint insert_sorted {A : Type} (kv : string * A) (l : list (string * A))
  : list (string * A) :=
  match l with
  | [] => [kv]
  | kv' :: rest =>
      if Py.str_ltb (fst kv) (fst kv') then kv :: l
      else kv' :: insert_sorted kv rest
  end.

Definition sort_items {A : Type} (l : list (string * A)) : list (string * A) :=
  fold_right insert_sorted [] l.

(** [json.dumps(v, sort_keys=True)] with the default separators. *)
Fixpoint dumps_sorted (v : json) : string :=
  match v with
  | JNull => "null"
  | JBool true => "true"
  | JBool false => "false"
  | JInt n => Py.str_of_int n
  | JFloat x => float_text x
  | JStr s => quote s
  | JList items =>
      "[" ++ join ", " (List.map dumps_sorted items) ++ "]"
  | JDict entries =>
      let rendered :=
        (fix render (es : list (string * json)) : list (string * string) :=
           match es with
           | [] => []
           | (k, x) :: rest => (k, dumps_sorted x) :: render rest
           end) entries in
      "{" ++ join ", " (List.map (fun kt => quote (fst kt) ++ ": " ++ snd kt)
                                 (sort_items rendered)) ++ "}"
  end.

(** *** Truth value, equality and order *)

(** [bool(v)] *)
Definition truthy (v : json) : bool :=
  match v with
  | JNull => false
  | JBool b => b
  | JInt n => negb (n =? 0)
  | JFloat x => negb (PrimFloat.eqb x 0%float)
  | JStr s => negb (String.eqb s EmptyString)
  | JList items => match items with [] => false | _ => true end
  | JDict entries => match entries with [] => false | _ => true end
  end.

(** Numbers: [bool] is a subclass of [int]. *)
Inductive number : Type :=
| NInt (n : Z)
| NFloat (x : float).

Definition as_number (v : json) : option number :=
  match v with
  | JBool b => Some (NInt (if b then 1 else 0))
  | JInt n => Some (NInt n)
  | JFloat x => Some (NFloat x)
  | _ => None
  end.

Definition num_le (a b : number) : bool :=
  match a, b with
  | NInt x, NInt y => x <=? y
  | NFloat x, NFloat y => PrimFloat.leb x y
  | NInt x, NFloat y =>
      match PyFloat.compare_int x y with
      | Some Lt | Some Eq => true
      | _ => false
      end
  | NFloat x, NInt y =>
      match PyFloat.compare_int y x with
      | Some Gt | Some Eq => true
      | _ => false
      end
  end.

Definition num_eq (a b : number) : bool :=
  match a, b with
  | NInt x, NInt y => x =? y
  | NFloat x, NFloat y => PrimFloat.eqb x y
  | NInt x, NFloat y | NFloat y, NInt x =>
      match PyFloat.compare_int x y with
      | Some Eq => true
      | _ => false
      end
  end.

Definition is_nan (v : json) : bool :=
  match v with
  | JFloat x => match Prim2SF x with S754_nan => true | _ => false end
  | _ => false
  end.

(** Equality as containers test it on their items: the identity short-cut
    comes first, and the decoder hands out one shared NaN object, so two
    decoded NaN items count as equal; otherwise it is [==]. *)
Fixpoint item_eq (a b : json) {struct a} : bool :=
  match a, b with
  | JNull, JNull => true
  | JStr s, JStr t => String.eqb s t
  | JList xs, JList ys =>
      (fix all2 (xs : list json) (ys : list json) : bool :=
         match xs, ys with
         | [], [] => true
         | x :: xs', y :: ys' => item_eq x y && all2 xs' ys'
         | _, _ => false
         end) xs ys
  | JDict xs, JDict ys =>
      (List.length xs =? List.length ys)%nat &&
      (fix sub (xs : list (string * json)) : bool :=
         match xs with
         | [] => true
         | (k, x) :: xs' =>
             match dict_get k ys with
             | Some y => item_eq x y && sub xs'
             | None => false
             end
         end) xs
  | _, _ =>
      match as_number a, as_number b with
      | Some x, Some y => (is_nan a && is_nan b) || num_eq x y
      | _, _ => false
      end
  end.

(** [a <= b]; [None] where Python raises [TypeError]. *)
Fixpoint le (a b : json) {struct a} : option bool :=
  match a, b with
  | JStr s, JStr t => Some (Py.str_leb s t)
  | JList xs, JList ys =>
      (fix lex (xs : list json) (ys : list json) : option bool :=
         match xs, ys with
         | [], _ => Some true
         | _ :: _, [] => Some false
         | x :: xs', y :: ys' => if item_eq x y then lex xs' ys' else le x y
         end) xs ys
  | _, _ =>
      match as_number a, as_number b with
      | Some x, Some y => Some (num_le x y)
      | _, _ => None
      end
  end.

End Json.

(** ** Computations with state and exceptions *)

Inductive exn : Type :=
| KeyError
| TypeError
| IndexError
| ValueError
| OverflowError
| AttributeError
| UnicodeDecodeError.

Inductive outcome (A : Type) : Type :=
| Ok (a : A)
| Raise (e : exn).

Arguments Ok {A} a.
Arguments Raise {A} e.

(** A computation over a state [S]: its outcome and the state it leaves,
    which on an exception is the state at the point of the [raise]. *)
Definition Comp (S A : Type) : Type := S -> outcome A * S.

Definition ret {S A : Type} (a : A) : Comp S A := fun s => (Ok a, s).

Definition bind {S A B : Type} (c : Comp S A) (k : A -> Comp S B) : Comp S B :=
  fun s =>
    match c s with
    | (Ok a, s') => k a s'
    | (Raise e, s') => (Raise e, s')
    end.

Definition raise {S A : Type} (e : exn) : Comp S A := fun s => (Raise e, s).

Definition gets {S A : Type} (f : S -> A) : Comp S A := fun s => (Ok (f s), s).

Definition modify {S : Type} (f : S -> S) : Comp S unit := fun s => (Ok tt, f s).

Definition lift_outcome {S A : Type} (o : outcome A) : Comp S A := fun s => (o, s).

Notation "'let*' x ':=' c1 'in' c2" := (bind c1 (fun x => c2))
  (at level 10, x name, c1 at level 100, c2 at level 200).

(** The ledger file [epoh_ledger.json] as a reader finds it: absent; bytes
    that are not text in the encoding of [open(..., 'r')], on which
    [json.load] raises [UnicodeDecodeError]; text that is not a JSON
    document, on which it raises [json.JSONDecodeError]; or a document. *)
Inductive ledger_file : Type :=
| NoFile
| NotText
| Undecodable
| Stored (v : Json.json).

(** ** The leader node: [GCS_LeaderNode.py] *)

Module Leader.

Import Json.

(** Simulated pre-registered database (UAV id: long-term key). *)
Definition UAV_DB : gmap string string :=
  list_to_map [("UAV_A1", "K_LongTerm_A1"); ("UAV_B2", "K_LongTerm_B2")].

(** The sequential-hash engine's attributes. *)
Record EPOH_Core : Type := {
  difficulty : nat;
  latest_hash : json;
  sequence_count : Z;
  epoh_chain : list json
}.

(** An entry of [pending_auth_challenges]. *)
Record challenge : Type := {
  xres_star : string;
  ktx_sim : string;
  rand : Z;
  timestamp : float
}.

Record LeaderNode : Type := {
  chain : list json;
  transaction_pool : list pydict;
  pending_auth_challenges : gmap string challenge;
  epoh : EPOH_Core
}.

(** The node together with what it reads and writes: the ledger file and
    the wall clock, whose [n]-th reading is [clock n]. *)
Record world : Type := {
  node : LeaderNode;
  ledger : ledger_file;
  clock : nat -> float;
  ticks : nat
}.

Definition M (A : Type) : Type := Comp world A.

(** Attribute assignments, as functions on the world. *)
Definition with_node (f : LeaderNode -> LeaderNode) (w : world) : world :=
  {| node := f (node w); ledger := ledger w; clock := clock w; ticks := ticks w |}.

Definition with_epoh (f : EPOH_Core -> EPOH_Core) : world -> world :=
  with_node (fun n => {| chain := chain n; transaction_pool := transaction_pool n;
                         pending_auth_challenges := pending_auth_challenges n;
                         epoh := f (epoh n) |}).

Definition with_chain (c : list json) : world -> world :=
  with_node (fun n => {| chain := c; transaction_pool := transaction_pool n;
                         pending_auth_challenges := pending_auth_challenges n;
                         epoh := epoh n |}).

Definition with_pool (p : list pydict) : world -> world :=
  with_node (fun n => {| chain := chain n; transaction_pool := p;
                         pending_auth_challenges := pending_auth_challenges n;
                         epoh := epoh n |}).

Definition with_pending (p : gmap string challenge) : world -> world :=
  with_node (fun n => {| chain := chain n; transaction_pool := transaction_pool n;
                         pending_auth_challenges := p;
                         epoh := epoh n |}).

Definition with_latest_hash (h : json) : world -> world :=
  with_epoh (fun e => {| difficulty := difficulty e; latest_hash := h;
                         sequence_count := sequence_count e;
                         epoh_chain := epoh_chain e |}).

Definition with_sequence_count (c : Z) : world -> world :=
  with_epoh (fun e => {| difficulty := difficulty e; latest_hash := latest_hash e;
                         sequence_count := c;
                         epoh_chain := epoh_chain e |}).

Definition with_ledger (f : ledger_file) (w : world) : world :=
  {| node := node w; ledger := f; clock := clock w; ticks := ticks w |}.

Definition tick (w : world) : world :=
  {| node := node w; ledger := ledger w; clock := clock w; ticks := S (ticks w) |}.

Definition set_node (f : LeaderNode -> LeaderNode) : M unit := modify (with_node f).
Definition set_chain (c : list json) : M unit := modify (with_chain c).
Definition set_pool (p : list pydict) : M unit := modify (with_pool p).
Definition set_pending (p : gmap string challenge) : M unit := modify (with_pending p).
Definition set_latest_hash (h : json) : M unit := modify (with_latest_hash h).
Definition set_sequence_count (c : Z) : M unit := modify (with_sequence_count c).

(** [time.time()] *)
Definition time_time : M float :=
  fun w => (Ok (clock w (ticks w)), tick w).

(** [int(x)] for a float. *)
Definition int_of_float (x : float) : M Z :=
  match PyFloat.to_int x with
  | Some n => ret n
  | None =>
      match Prim2SF x with
      | S754_nan => raise ValueError
      | _ => raise OverflowError
      end
  end.

(** [v.encode('utf-8')]: only a [str] has the method. *)
Definition encode (v : json) : M (list Z) :=
  match v with
  | JStr s => ret (Py.encode_utf8 s)
  | _ => raise AttributeError
  end.

(** [v + s] for a [str] [s]. *)
Definition concat_str (v : json) (s : string) : M string :=
  match v with
  | JStr t => ret (t ++ s)
  | _ => raise TypeError
  end.

(** [v[:n]] *)
Definition slice_to (n : nat) (v : json) : M json :=
  match v with
  | JStr s => ret (JStr (Py.prefix n s))
  | JList items => ret (JList (firstn n items))
  | _ => raise TypeError
  end.

(** [self.chain[-1]['current_hash']] *)
Definition last_current_hash : M json :=
  let* c := gets (fun w => chain (node w)) in
  match last c with
  | None => raise IndexError
  | Some (JDict b) =>
      match dict_get "current_hash" b with
      | Some h => ret h
      | None => raise KeyError
      end
  | Some _ => raise TypeError
  end.

(** *** Derivation functions *)

Definition calculate_session_key_simulated (long_term_key : string) (rand : Z) : string :=
  Py.prefix 16 (SHA256.hex_of_str (long_term_key ++ Py.str_of_int rand)).

(** [RES*] as [UAV_Client.py] computes it; the server derives its expected
    response [XRES*] by the same expression. *)
Definition calculate_res_star_simulated (long_term_key : string) (rand : Z) : string :=
  Py.prefix 10 (SHA256.hex_of_str (long_term_key ++ Py.str_of_int rand ++ "Expected")).

Definition generate_auth_vector_simulated (uav_supi long_term_key : string)
  : M (Z * string * string * string) :=
  let* t := time_time in
  let* rand := int_of_float (PrimFloat.mul t 1000) in
  let autn := SHA256.hex_of_str (long_term_key ++ uav_supi ++ Py.str_of_int rand) in
  let xres_star := calculate_res_star_simulated long_term_key rand in
  ret (rand, autn, xres_star, calculate_session_key_simulated long_term_key rand).

(** *** EPOH_Core *)

Definition EPOH_Core_init (difficulty : nat) : EPOH_Core :=
  {| difficulty := difficulty; latest_hash := JStr (Py.zeros 64);
     sequence_count := 0; epoh_chain := [] |}.

Definition generate_sequential_hash : M string :=
  let* h := gets (fun w => latest_hash (epoh (node w))) in
  let* data := encode h in
  let new_hash := SHA256.hexdigest data in
  let* _ := set_latest_hash (JStr new_hash) in
  let* n := gets (fun w => sequence_count (epoh (node w))) in
  let* _ := set_sequence_count (n + 1) in
  ret new_hash.

Definition embed_transaction (data_payload : pydict) : M (float * json) :=
  let data_string := dumps_sorted (JDict data_payload) in
  let* h := gets (fun w => latest_hash (epoh (node w))) in
  let* combined := concat_str h data_string in
  let* _ := set_latest_hash (JStr (SHA256.hex_of_str combined)) in
  let* n := gets (fun w => sequence_count (epoh (node w))) in
  let* _ := set_sequence_count (n + 1) in
  let* t := time_time in
  let* h' := gets (fun w => latest_hash (epoh (node w))) in
  ret (t, h').

(** [for _ in range(n): c] *)
Fixpoint repeat_m {A : Type} (n : nat) (c : M A) : M unit :=
  match n with
  | O => ret tt
  | S n' => let* _ := c in repeat_m n' c
  end.

(** The body of [for tx in transactions], accumulating [event_log]. *)
Fixpoint embed_all (transactions : list pydict) (event_log : list json) : M (list json) :=
  match transactions with
  | [] => ret event_log
  | tx :: rest =>
      let* d := gets (fun w => difficulty (epoh (node w))) in
      let* _ := repeat_m d generate_sequential_hash in
      let* th := embed_transaction tx in
      embed_all rest
        (event_log ++
           [JDict [("event_type", JStr "TRANSACTION_EMBEDDED");
                   ("timestamp", JFloat (fst th));
                   ("hash_at_event", snd th);
                   ("tx_id", get "tx_id" tx)]])
  end.

Definition create_block (transactions : list pydict) (previous_hash : json)
           (current_chain_length : Z) : M pydict :=
  let* _ := set_latest_hash previous_hash in
  let* _ := set_sequence_count 0 in
  let* event_log := embed_all transactions [] in
  let* t := time_time in
  let* h := gets (fun w => latest_hash (epoh (node w))) in
  ret [("index", JInt (current_chain_length + 1));
       ("timestamp", JFloat t);
       ("previous_hash", previous_hash);
       ("event_log", JList event_log);
       ("transactions", JList (List.map JDict transactions));
       ("current_hash", h)].

(** *** LeaderNode *)

(** [try: c except (json.JSONDecodeError, IndexError): h]; a
    [JSONDecodeError] is the [Undecodable] ledger, so only [IndexError] is
    an exception to catch here.  Every other exception passes through,
    the [UnicodeDecodeError] of a file that is not text among them. *)
Definition except_index {A : Type} (c : M A) (h : M A) : M A :=
  fun w =>
    match c w with
    | (Raise IndexError, w') => h w'
    | r => r
    end.

(** [self.chain = json.load(f)] followed by [self.chain[-1]['current_hash']].
    When the decoded document is not a list the subscript raises before
    the constructor returns; no node exists then and [chain] is left as
    it was. *)
Definition adopt (v : json) : M json :=
  match v with
  | JList items => let* _ := set_chain items in last_current_hash
  | JStr s => if String.eqb s EmptyString then raise IndexError else raise TypeError
  | JDict _ => raise KeyError
  | _ => raise TypeError
  end.

Definition load_chain : M unit :=
  except_index
    (let* f := gets ledger in
     match f with
     | Stored v =>
         let* h := adopt v in
         set_latest_hash h
     | NotText => raise UnicodeDecodeError
     | Undecodable => set_chain []
     | NoFile => set_chain []
     end)
    (set_chain []).

Definition save_chain : M unit :=
  modify (fun w => with_ledger (Stored (JList (chain (node w)))) w).

Definition create_genesis_block : M unit :=
  let* t := time_time in
  let genesis_block :=
    [("index", JInt 0);
     ("timestamp", JFloat t);
     ("previous_hash", JStr "0");
     ("event_log", JList [JDict [("event_type", JStr "CHAIN_START")]]);
     ("transactions",
      JList [JDict [("tx_id", JStr "GENESIS_TX"); ("data", JStr "System Initialized")]])] in
  let* h := generate_sequential_hash in
  let* _ := set_latest_hash (JStr h) in
  let* h' := gets (fun w => latest_hash (epoh (node w))) in
  let genesis_block := dict_set "current_hash" h' genesis_block in
  let* c := gets (fun w => chain (node w)) in
  let* _ := set_chain (c ++ [JDict genesis_block]) in
  save_chain.

(** [LeaderNode.__init__] *)
Definition init : M unit :=
  let* _ := set_node (fun _ =>
              {| chain := []; transaction_pool := [];
                 pending_auth_challenges := ∅;
                 epoh := EPOH_Core_init 2 |}) in
  let* _ := load_chain in
  let* c := gets (fun w => chain (node w)) in
  match c with
  | [] => create_genesis_block
  | _ => ret tt
  end.

Definition mine_block : M unit :=
  let* pool := gets (fun w => transaction_pool (node w)) in
  match pool with
  | [] => ret tt
  | _ =>
      let* last_hash := last_current_hash in
      let* c := gets (fun w => chain (node w)) in
      let* new_block := create_block pool last_hash (Z.of_nat (List.length c)) in
      let* c := gets (fun w => chain (node w)) in
      let* _ := set_chain (c ++ [JDict new_block]) in
      let* _ := save_chain in
      set_pool []
  end.

(** [uav_supi not in UAV_DB], then [UAV_DB[uav_supi]]: a list or a dict
    is unhashable, any other non-string is simply absent. *)
Definition lookup_key (uav_supi : json) : M (option (string * string)) :=
  match uav_supi with
  | JStr s =>
      match UAV_DB !! s with
      | Some k => ret (Some (s, k))
      | None => ret None
      end
  | JList _ | JDict _ => raise TypeError
  | _ => ret None
  end.

Definition handle_uav_request (request : pydict) : M pydict :=
  let request_type := get "type" request in
  let uav_supi := get "uav_supi" request in
  let* entry := lookup_key uav_supi in
  match entry with
  | None =>
      ret [("status", JStr "AUTH_FAILURE"); ("reason", JStr "Unknown SUPI/UAV ID")]
  | Some (uav_supi, long_term_key) =>
      if eq_str request_type "AUTH_REQUEST_1" then
        let* av := generate_auth_vector_simulated uav_supi long_term_key in
        let '(rand, autn, xres_star, ktx) := av in
        let* t := time_time in
        let* pending := gets (fun w => pending_auth_challenges (node w)) in
        let* _ := set_pending
                    (<[uav_supi := {| xres_star := xres_star; ktx_sim := ktx;
                                      rand := rand; timestamp := t |}]> pending) in
        ret [("status", JStr "CHALLENGE_ISSUED");
             ("rand", JInt rand);
             ("autn", JStr autn);
             ("pk_node", JStr "NodePubKey_Sim")]
      else if eq_str request_type "AUTH_RESPONSE_2" then
        let res_star_received := get "res_star" request in
        let* pending := gets (fun w => pending_auth_challenges (node w)) in
        match pending !! uav_supi with
        | Some pending_challenge =>
            if eq_str res_star_received (xres_star pending_challenge) then
              let session_key := ktx_sim pending_challenge in
              let* t := time_time in
              let* secs := int_of_float t in
              let success_tx :=
                [("tx_id", JStr ("AUTH_SUCCESS_" ++ uav_supi ++ "_" ++ Py.str_of_int secs));
                 ("uav_supi", JStr uav_supi);
                 ("status", JStr "AUTHENTICATED");
                 ("session_key_sim", JStr session_key);
                 ("auth_rand", JInt (rand pending_challenge))] in
              let* pool := gets (fun w => transaction_pool (node w)) in
              let* _ := set_pool (pool ++ [success_tx]) in
              let* pending := gets (fun w => pending_auth_challenges (node w)) in
              let* _ := set_pending (delete uav_supi pending) in
              let* _ := mine_block in
              ret [("status", JStr "AUTH_SUCCESS"); ("session_key", JStr session_key)]
            else
              ret [("status", JStr "AUTH_FAILURE");
                   ("reason", JStr "RES* mismatch or no pending challenge")]
        | None =>
            ret [("status", JStr "AUTH_FAILURE");
                 ("reason", JStr "RES* mismatch or no pending challenge")]
        end
      else if eq_str request_type "TELEMETRY_TX" then
        let telemetry_data := get "data" request in
        let* t := time_time in
        let* secs := int_of_float t in
        let* pool := gets (fun w => transaction_pool (node w)) in
        let* _ := set_pool
                    (pool ++
                       [[("tx_id", JStr ("TELEMETRY_" ++ uav_supi ++ "_" ++ Py.str_of_int secs));
                         ("uav_supi", JStr uav_supi);
                         ("data", telemetry_data)]]) in
        let* pool := gets (fun w => transaction_pool (node w)) in
        if (3 <=? List.length pool)%nat then
          let* _ := mine_block in
          let* h := last_current_hash in
          let* h10 := slice_to 10 h in
          let* h' := last_current_hash in
          ret [("status", JStr "TX_BLOCK_ACK"); ("hash", h10); ("next_hash", h')]
        else
          let* seed := gets (fun w => latest_hash (epoh (node w))) in
          let* seed10 := slice_to 10 seed in
          ret [("status", JStr "TX_RECEIVED"); ("hash_seed", seed10)]
      else
        ret [("status", JStr "ERROR"); ("reason", JStr "Invalid Request Type")]
  end.

(** The node as [start_leader_node] builds it: the constructor run
    against a ledger file and a clock. *)
Definition blank : LeaderNode :=
  {| chain := []; transaction_pool := []; pending_auth_challenges := ∅;
     epoh := EPOH_Core_init 2 |}.

Definition boot (f : ledger_file) (clk : nat -> float) : outcome unit * world :=
  init {| node := blank; ledger := f; clock := clk; ticks := 0 |}.

End Leader.

(** ** The chain verifier: [varify_chain.py] *)

Module Verifier.

Import Json.

(** [hash_block] on a block of the ledger: the dict without its
    ['current_hash'], serialized with sorted keys, then SHA-256. *)
Definition canonical_hash (block : pydict) : string :=
  let temp_block :=
    match dict_get "current_hash" block with
    | Some _ => dict_del "current_hash" block
    | None => block
    end in
  SHA256.hex_of_str (dumps_sorted (JDict temp_block)).

(** [hash_block(block)] on whatever the ledger holds at that position: a
    list also has [copy()], and [in] on it is a membership test. *)
Definition hash_block (block : json) : outcome string :=
  match block with
  | JDict d => Ok (canonical_hash d)
  | JList items =>
      if existsb (fun x => eq_str x "current_hash") items then Raise TypeError
      else Ok (SHA256.hex_of_str (dumps_sorted block))
  | _ => Raise AttributeError
  end.

(** [v[k]] for a [str] key. *)
Definition subscript (v : json) (k : string) : outcome json :=
  match v with
  | JDict d =>
      match dict_get k d with
      | Some x => Ok x
      | None => Raise KeyError
      end
  | _ => Raise TypeError
  end.

(** [a <= b] *)
Definition le (a b : json) : outcome bool :=
  match Json.le a b with
  | Some r => Ok r
  | None => Raise TypeError
  end.

(** A line written by [print]: plain text, or text followed by [str(v)]
    of a value taken from the ledger. *)
Inductive console : Type :=
| Print (text : string)
| PrintValue (text : string) (v : json).

Definition num (i : nat) : string := Py.str_of_int (Z.of_nat i).

Definition newline : string := String "010"%char EmptyString.

Definition verdict : Type := (bool * string)%type.

(** One iteration of the loop at index [i]: what it prints, and the
    value it returns if it returns. *)
Definition check_block (chain : list json) (i : nat)
  : list console * outcome (option verdict) :=
  match nth_error chain i, nth_error chain (i - 1) with
  | Some current_block, Some previous_block =>
      match hash_block previous_block with
      | Raise e => ([], Raise e)
      | Ok recalculated_hash =>
          match subscript current_block "previous_hash" with
          | Raise e => ([], Raise e)
          | Ok expected =>
              if negb (eq_str expected recalculated_hash) then
                ([Print ("FAILED AT BLOCK #" ++ num i ++ ": Corrupted Linkage Detected.");
                  PrintValue ("  Expected Hash of #" ++ num (i - 1) ++ ": ") expected;
                  Print ("  Actual Recalculated Hash: " ++ recalculated_hash)],
                 Ok (Some (false,
                           "Integrity Failure: Block #" ++ num i ++
                           " links to tampered block #" ++ num (i - 1) ++ ".")))
              else
                match subscript current_block "timestamp" with
                | Raise e => ([], Raise e)
                | Ok t =>
                    match subscript previous_block "timestamp" with
                    | Raise e => ([], Raise e)
                    | Ok t' =>
                        match le t t' with
                        | Raise e => ([], Raise e)
                        | Ok true =>
                            ([], Ok (Some (false,
                               "PoH Chronology Failure: Block #" ++ num i ++
                               " timestamp is not strictly greater than block #" ++
                               num (i - 1) ++ ".")))
                        | Ok false => ([], Ok None)
                        end
                    end
                end
          end
      end
  | _, _ => ([], Raise IndexError)
  end.

(** [for i in range(1, len(chain))], then the final [return]. *)
Fixpoint check_from (chain : list json) (indices : list nat)
  : list console * outcome verdict :=
  match indices with
  | [] => ([], Ok (true, "Chain is fully valid."))
  | i :: rest =>
      match check_block chain i with
      | (out, Raise e) => (out, Raise e)
      | (out, Ok (Some v)) => (out, Ok v)
      | (out, Ok None) =>
          let '(out', r) := check_from chain rest in ((out ++ out')%list, r)
      end
  end.

(** [is_valid_chain()], run where the ledger's absolute path is [path]. *)
Definition is_valid_chain (path : string) (f : ledger_file)
  : list console * outcome verdict :=
  let header := Print (newline ++ "--- Verifying EPOH Ledger: " ++ path ++ " ---") in
  match f with
  | NoFile | Undecodable =>
      ([header], Ok (false, "Ledger file missing or corrupted (JSON Syntax Error)."))
  | NotText => ([header], Raise UnicodeDecodeError)
  | Stored chain =>
      if negb (truthy chain) then ([header], Ok (false, "Chain is empty."))
      else
        match chain with
        | JList (first :: rest) =>
            match subscript first "previous_hash" with
            | Raise e => ([header], Raise e)
            | Ok p =>
                if negb (eq_str p "0") then
                  ([header],
                   Ok (false, "Genesis Block (Index 0) has an invalid previous_hash."))
                else
                  let '(out, r) :=
                    check_from (first :: rest) (seq 1 (List.length rest)) in
                  (header :: out, r)
            end
        | JDict _ => ([header], Raise KeyError)
        | _ => ([header], Raise TypeError)
        end
  end.

End Verifier.

(** ** Sample runs

    A clock that reads 1700000000.5 and then advances by one second at each
    call, and the requests a well-behaved UAV sends. *)

Module Scenario.

Import Json Leader.

Definition wall_clock (n : nat) : float :=
  PrimFloat.add 1700000000.5 (PrimFloat.of_uint63 (Uint63.of_Z (Z.of_nat n))).

(** The node right after [LeaderNode()] with no ledger file. *)
Definition fresh : world := snd (boot NoFile wall_clock).

Definition auth_request_1 (uav : string) : pydict :=
  [("type", JStr "AUTH_REQUEST_1"); ("uav_supi", JStr uav)].

Definition auth_response_2 (uav res_star : string) : pydict :=
  [("type", JStr "AUTH_RESPONSE_2"); ("uav_supi", JStr uav); ("res_star", JStr res_star)].

Definition telemetry_tx (uav : string) (session_key data : json) : pydict :=
  [("type", JStr "TELEMETRY_TX"); ("uav_supi", JStr uav);
   ("session_key", session_key); ("data", data)].

(** State after a request, whatever its outcome. *)
Definition after (request : pydict) (w : world) : world :=
  snd (handle_uav_request request w).

(** [UAV_A1] has asked for a challenge: it is 1700000001500. *)
Definition challenged : world := after (auth_request_1 "UAV_A1") fresh.

(** ... and has answered it as [UAV_Client.py] does. *)
Definition authenticated : world :=
  after (auth_response_2 "UAV_A1" (calculate_res_star_simulated "K_LongTerm_A1" 1700000001500))
        challenged.

Definition position (x : Z) : json :=
  JDict [("x_pos", JFloat 1.5); ("y_pos", JFloat (-2.25)); ("z_alt", JInt x);
         ("vel_mag", JFloat 0.5)].

(** ... and has sent one telemetry record, which waits in the pool. *)
Definition buffering : world :=
  after (telemetry_tx "UAV_A1" (JStr "f51c4e0959891777") (position 1)) authenticated.

(** Field [k] of the block at position [i] of a chain. *)
Definition block_field (c : list json) (i : nat) (k : string) : option json :=
  match c !! i with
  | Some (JDict d) => dict_get k d
  | _ => None
  end.

End Scenario.

(** * Properties *)

(** ** The sequential hash engine *)

Module EngineFacts.

Import Json Leader.

(** The digest after one [advance()], after [d] of them, and after
    embedding one transaction. *)
Definition advance (h : string) : string := SHA256.hex_of_str h.

Definition serialize (tx : pydict) : string := dumps_sorted (JDict tx).

Definition embed (h : string) (payload : string) : string :=
  SHA256.hex_of_str (h ++ payload).

(** The digest reached from [h] by [d] advances and one embedding for
    each serialized transaction, in order. *)
Definition poh (d : nat) (h : string) (payloads : list string) : string :=
  fold_left (fun acc p => embed (Nat.iter d advance acc) p) payloads h.

(** The resulting hash of a block as a function of the previous hash,
    the serialized transactions and the difficulty alone; the engine
    fails on a previous hash that is not a string as soon as it has a
    transaction to embed. *)
Definition resulting_hash (d : nat) (previous_hash : json) (payloads : list string)
  : outcome json :=
  match payloads, previous_hash with
  | [], _ => Ok previous_hash
  | _ :: _, JStr h => Ok (JStr (poh d h payloads))
  | _ :: _, _ => Raise (match d with O => TypeError | S _ => AttributeError end)
  end.

Definition current_hash_of (r : outcome pydict) : outcome json :=
  match r with
  | Ok block => Ok (get "current_hash" block)
  | Raise e => Raise e
  end.

Definition engine_difficulty (w : world) : nat := difficulty (epoh (node w)).
Definition engine_hash (w : world) : json := latest_hash (epoh (node w)).

Lemma generate_sequential_hash_str (w : world) (s : string) :
  engine_hash w = JStr s ->
  generate_sequential_hash w =
    (Ok (advance s),
     with_sequence_count (sequence_count (epoh (node w)) + 1)
       (with_latest_hash (JStr (advance s)) w)).
Proof.
  unfold engine_hash, generate_sequential_hash, bind, gets. intros ->. reflexivity.
Qed.

Lemma generate_sequential_hash_other (w : world) :
  (forall s, engine_hash w <> JStr s) ->
  generate_sequential_hash w = (Raise AttributeError, w).
Proof.
  unfold engine_hash, generate_sequential_hash, bind, gets. intros H.
  destruct (latest_hash (epoh (node w))) eqn:E; try reflexivity.
  exfalso. eapply H. reflexivity.
Qed.

(** [d] advances from a string digest: the digest is iterated, the
    counter grows by [d], nothing else moves. *)
Lemma repeat_advance (d : nat) (w : world) (s : string) :
  engine_hash w = JStr s ->
  repeat_m d generate_sequential_hash w =
    (Ok tt,
     with_sequence_count (sequence_count (epoh (node w)) + Z.of_nat d)
       (with_latest_hash (JStr (Nat.iter d advance s)) w)).
Proof.
  revert w s. induction d as [|d IH]; intros w s Hs.
  - destruct w as [[c p pe [df lh sc ec]] l clk t].
    unfold engine_hash in Hs. cbn in Hs. subst lh.
    cbn. unfold ret, with_sequence_count, with_latest_hash, with_epoh, with_node. cbn.
    rewrite Z.add_0_r. reflexivity.
  - cbn [repeat_m]. unfold bind at 1.
    rewrite (generate_sequential_hash_str w s Hs).
    erewrite (IH _ (advance s)) by reflexivity.
    rewrite Nat.iter_succ_r.
    unfold with_sequence_count, with_latest_hash, with_epoh, with_node.
    cbn -[Nat.iter Z.add Z.of_nat].
    replace (sequence_count (epoh (node w)) + 1 + Z.of_nat d)
      with (sequence_count (epoh (node w)) + Z.of_nat (S d)) by lia.
    reflexivity.
Qed.

(** What the engine never touches. *)
Definition same_store (w w' : world) : Prop :=
  chain (node w') = chain (node w) /\
  transaction_pool (node w') = transaction_pool (node w) /\
  pending_auth_challenges (node w') = pending_auth_challenges (node w) /\
  ledger w' = ledger w /\
  clock w' = clock w /\
  engine_difficulty w' = engine_difficulty w.

Lemma same_store_refl (w : world) : same_store w w.
Proof. repeat split. Qed.

Lemma same_store_trans (w1 w2 w3 : world) :
  same_store w1 w2 -> same_store w2 w3 -> same_store w1 w3.
Proof.
  unfold same_store. intros (a1 & a2 & a3 & a4 & a5 & a6) (b1 & b2 & b3 & b4 & b5 & b6).
  repeat split; congruence.
Qed.

Lemma embed_transaction_str (tx : pydict) (w : world) (s : string) :
  engine_hash w = JStr s ->
  embed_transaction tx w =
    (Ok (clock w (ticks w), JStr (embed s (serialize tx))),
     tick (with_sequence_count (sequence_count (epoh (node w)) + 1)
             (with_latest_hash (JStr (embed s (serialize tx))) w))).
Proof.
  unfold engine_hash, embed_transaction, bind, gets. intros ->. reflexivity.
Qed.

(** The loop of [create_block] from a string digest: it cannot fail,
    logs one event per transaction, reads the clock once for each, and
    leaves the digest [poh]. *)
Lemma embed_all_str (txs : list pydict) :
  forall (log : list json) (w : world) (s : string),
    engine_hash w = JStr s ->
    exists (log' : list json) (w' : world),
      embed_all txs log w = (Ok (log ++ log')%list, w') /\
      List.length log' = List.length txs /\
      engine_hash w' = JStr (poh (engine_difficulty w) s (List.map serialize txs)) /\
      same_store w w' /\
      ticks w' = (ticks w + List.length txs)%nat.
Proof.
  induction txs as [|tx rest IH]; intros log w s Hs.
  - exists [], w. cbn. rewrite app_nil_r.
    repeat split; auto.
  - cbn [embed_all]. unfold bind at 1. unfold gets at 1.
    unfold bind at 1.
    rewrite (repeat_advance _ w s Hs).
    set (w1 := with_sequence_count _ (with_latest_hash _ w)).
    unfold bind at 1.
    rewrite (embed_transaction_str tx w1 (Nat.iter (difficulty (epoh (node w))) advance s))
      by reflexivity.
    set (w2 := tick _).
    destruct (IH (log ++
                    [JDict [("event_type", JStr "TRANSACTION_EMBEDDED");
                            ("timestamp", JFloat (clock w1 (ticks w1)));
                            ("hash_at_event",
                             JStr (embed (Nat.iter (difficulty (epoh (node w))) advance s)
                                         (serialize tx)));
                            ("tx_id", get "tx_id" tx)]])%list
                 w2 (embed (Nat.iter (difficulty (epoh (node w))) advance s) (serialize tx))
                 eq_refl)
      as (log' & w' & Hrun & Hlen & Hhash & Hsame & Hticks).
    eexists (_ :: log'), w'.
    cbn [fst snd]. rewrite Hrun. rewrite <- app_assoc. cbn [app].
    split; [reflexivity|].
    split; [cbn; congruence|].
    split; [exact Hhash|].
    split; [exact Hsame|].
    rewrite Hticks. cbn. lia.
Qed.

(** With a digest that is not a string the first transaction already
    fails: in [advance()] when there is one, in the embedding otherwise. *)
Lemma embed_all_other (tx : pydict) (rest : list pydict) (log : list json) (w : world) :
  (forall s, engine_hash w <> JStr s) ->
  fst (embed_all (tx :: rest) log w) =
    Raise (match engine_difficulty w with O => TypeError | S _ => AttributeError end).
Proof.
  intros Hns. cbn [embed_all]. unfold bind at 1. unfold gets at 1.
  unfold engine_difficulty.
  destruct (difficulty (epoh (node w))) as [|d] eqn:Hd.
  - cbn [repeat_m]. unfold bind, ret, embed_transaction, bind, gets.
    destruct (latest_hash (epoh (node w))) eqn:E; try reflexivity.
    exfalso. eapply Hns. exact E.
  - cbn [repeat_m]. unfold bind.
    rewrite (generate_sequential_hash_other w Hns). reflexivity.
Qed.

(** [create_block] from a string previous hash, in full. *)
Lemma create_block_str (txs : list pydict) (h : string) (n : Z) (w : world) :
  exists (log : list json) (w' : world),
    create_block txs (JStr h) n w =
      (Ok [("index", JInt (n + 1));
           ("timestamp", JFloat (clock w (ticks w + List.length txs)%nat));
           ("previous_hash", JStr h);
           ("event_log", JList log);
           ("transactions", JList (List.map JDict txs));
           ("current_hash", JStr (poh (engine_difficulty w) h (List.map serialize txs)))],
       w') /\
    List.length log = List.length txs /\
    engine_hash w' = JStr (poh (engine_difficulty w) h (List.map serialize txs)) /\
    same_store w w' /\
    ticks w' = S (ticks w + List.length txs)%nat.
Proof.
  unfold create_block. unfold bind at 1. unfold set_latest_hash at 1, modify at 1.
  unfold bind at 1. unfold set_sequence_count at 1, modify at 1.
  set (w1 := with_sequence_count 0 (with_latest_hash (JStr h) w)).
  destruct (embed_all_str txs [] w1 h eq_refl)
    as (log & w2 & Hrun & Hlen & Hhash & Hsame & Hticks).
  exists log, (tick w2).
  unfold bind at 1. rewrite Hrun. cbn [app].
  unfold bind, time_time, gets. cbn [fst snd].
  destruct Hsame as (a1 & a2 & a3 & a4 & a5 & a6).
  unfold engine_hash in Hhash.
  replace (latest_hash (epoh (node (tick w2)))) with (latest_hash (epoh (node w2)))
    by reflexivity.
  rewrite Hhash, a5, Hticks.
  split; [reflexivity|].
  split; [exact Hlen|].
  split; [exact Hhash|].
  split; [repeat split; assumption|].
  cbn. rewrite Hticks. reflexivity.
Qed.

Lemma create_block_other (tx : pydict) (rest : list pydict) (prev : json) (n : Z)
      (w : world) :
  (forall s, prev <> JStr s) ->
  fst (create_block (tx :: rest) prev n w) =
    Raise (match engine_difficulty w with O => TypeError | S _ => AttributeError end).
Proof.
  intros Hns.
  unfold create_block, bind at 1, set_latest_hash at 1, modify at 1.
  unfold bind at 1, set_sequence_count at 1, modify at 1.
  unfold bind at 1.
  pose proof (embed_all_other tx rest [] (with_sequence_count 0 (with_latest_hash prev w)))
    as Hf.
  specialize (Hf (fun s Hs => Hns s Hs)).
  destruct (embed_all (tx :: rest) [] (with_sequence_count 0 (with_latest_hash prev w)))
    as [[log|e] w1]; cbn [fst] in Hf |- *.
  - discriminate Hf.
  - injection Hf as ->. reflexivity.
Qed.

(** The resulting hash of the block that [create_block] returns. *)
Lemma create_block_current_hash (txs : list pydict) (prev : json) (n : Z) (w : world) :
  current_hash_of (fst (create_block txs prev n w)) =
    resulting_hash (engine_difficulty w) prev (List.map serialize txs).
Proof.
  destruct txs as [|tx rest].
  - reflexivity.
  - destruct prev as [| b | z | x | h | l | d];
      try (rewrite create_block_other by (intros s; discriminate); reflexivity).
    destruct (create_block_str (tx :: rest) h n w) as (log & w' & Hrun & _).
    rewrite Hrun. reflexivity.
Qed.

(** C8. Two calls of [create_block] with the same previous hash, the same
    difficulty and transaction lists that serialize alike (sorted keys, in
    arrival order) return blocks with the same [current_hash], whatever the
    two clocks read, whatever the engine held before and whatever index is
    asked for; that hash is [resulting_hash], a function of the previous
    hash, the serialized transactions and the difficulty only. *)
Theorem C8_resulting_hash_deterministic
        (w1 w2 : world) (txs1 txs2 : list pydict) (prev : json) (n1 n2 : Z) :
  engine_difficulty w1 = engine_difficulty w2 ->
  List.map serialize txs1 = List.map serialize txs2 ->
  current_hash_of (fst (create_block txs1 prev n1 w1)) =
    current_hash_of (fst (create_block txs2 prev n2 w2)) /\
  current_hash_of (fst (create_block txs1 prev n1 w1)) =
    resulting_hash (engine_difficulty w1) prev (List.map serialize txs1).
Proof.
  intros Hd Htx.
  rewrite !create_block_current_hash.
  rewrite Hd, Htx. split; reflexivity.
Qed.

Lemma C8_witness :
  let w1 := Scenario.fresh in
  let w2 := tick (tick Scenario.authenticated) in
  let txs1 := [[("tx_id", JStr "T1"); ("data", JInt 7)]; [("tx_id", JStr "T2")]] in
  let txs2 := [[("data", JInt 7); ("tx_id", JStr "T1")]; [("tx_id", JStr "T2")]] in
  let prev := JStr "60e05bd1b195af2f94112fa7197a5c88289058840ce7c6df9693756bc6250f55" in
  (engine_difficulty w1 = engine_difficulty w2 /\
   List.map serialize txs1 = List.map serialize txs2) /\
  (current_hash_of (fst (create_block txs1 prev 1 w1)) =
     current_hash_of (fst (create_block txs2 prev 9 w2)) /\
   current_hash_of (fst (create_block txs1 prev 1 w1)) =
     resulting_hash (engine_difficulty w1) prev (List.map serialize txs1)).
Proof.
  intros w1 w2 txs1 txs2 prev.
  split.
  - split; vm_compute; reflexivity.
  - apply (C8_resulting_hash_deterministic w1 w2 txs1 txs2 prev 1 9);
      vm_compute; reflexivity.
Defined.

End EngineFacts.

(** ** The leader node *)

Module NodeFacts.

Import Json Leader EngineFacts.

(** The last block of the chain is a dict whose ['current_hash'] is the
    string [h]. *)
Definition tip (w : world) (h : string) : Prop :=
  exists b, last (chain (node w)) = Some (JDict b) /\
            dict_get "current_hash" b = Some (JStr h).

(** What every state of a running node satisfies: the chain ends in a
    hashed block and the engine holds a string digest. *)
Definition sound (w : world) : Prop :=
  (exists h, tip w h) /\ (exists s, engine_hash w = JStr s).

Lemma last_current_hash_tip (w : world) (h : string) :
  tip w h -> last_current_hash w = (Ok (JStr h), w).
Proof.
  intros (b & Hlast & Hget).
  unfold last_current_hash, bind, gets. rewrite Hlast, Hget. reflexivity.
Qed.

(** The block that [mine_block] appends in state [w] on top of hash [h]. *)
Definition mined_block (w : world) (h : string) (log : list json) : pydict :=
  let pool := transaction_pool (node w) in
  [("index", JInt (Z.of_nat (List.length (chain (node w))) + 1));
   ("timestamp", JFloat (clock w (ticks w + List.length pool)%nat));
   ("previous_hash", JStr h);
   ("event_log", JList log);
   ("transactions", JList (List.map JDict pool));
   ("current_hash", JStr (poh (engine_difficulty w) h (List.map serialize pool)))].

(** [mine_block] with a non-empty pool on a chain that ends in [h]. *)
Lemma mine_block_mines (w : world) (h : string) :
  tip w h ->
  transaction_pool (node w) <> [] ->
  exists (log : list json) (w' : world),
    mine_block w = (Ok tt, w') /\
    chain (node w') = (chain (node w) ++ [JDict (mined_block w h log)])%list /\
    transaction_pool (node w') = [] /\
    pending_auth_challenges (node w') = pending_auth_challenges (node w) /\
    ledger w' = Stored (JList (chain (node w'))) /\
    clock w' = clock w /\
    ticks w' = S (ticks w + List.length (transaction_pool (node w)))%nat /\
    engine_hash w' =
      JStr (poh (engine_difficulty w) h (List.map serialize (transaction_pool (node w)))) /\
    engine_difficulty w' = engine_difficulty w /\
    List.length log = List.length (transaction_pool (node w)).
Proof.
  intros Htip Hpool.
  unfold mine_block, mined_block. unfold bind at 1, gets at 1.
  destruct (transaction_pool (node w)) as [|tx rest] eqn:Epool; [contradiction|].
  unfold bind at 1. rewrite (last_current_hash_tip w h Htip).
  unfold bind at 1, gets at 1. unfold bind at 1.
  destruct (create_block_str (tx :: rest) h (Z.of_nat (List.length (chain (node w)))) w)
    as (log & w1 & Hrun & Hlen & Hhash & Hsame & Hticks).
  rewrite Hrun.
  destruct Hsame as (a1 & a2 & a3 & a4 & a5 & a6).
  exists log. eexists. split; [reflexivity|].
  unfold engine_hash, engine_difficulty in *. cbn.
  rewrite a1, a3, a5, Hticks.
  repeat split; try assumption; reflexivity.
Qed.

(** *** The request handler, branch by branch *)

(** The request names a registered UAV and has the given type. *)
Definition request_of (request : pydict) (type uav : string) : Prop :=
  get "type" request = JStr type /\ get "uav_supi" request = JStr uav.

Ltac enter_handler Hreq Hreg :=
  let Ht := fresh "Htype" in
  let Hu := fresh "Huav" in
  destruct Hreq as [Ht Hu];
  unfold handle_uav_request;
  rewrite Ht, Hu;
  unfold bind at 1, lookup_key; rewrite Hreg; unfold ret at 1;
  cbn [eq_str String.eqb Ascii.eqb Bool.eqb].

(** The transaction that a [TELEMETRY_TX] request puts in the pool. *)
Definition telemetry_record (uav : string) (secs : Z) (data : json) : pydict :=
  [("tx_id", JStr ("TELEMETRY_" ++ uav ++ "_" ++ Py.str_of_int secs));
   ("uav_supi", JStr uav);
   ("data", data)].

(** The transaction that a successful authentication puts in the pool. *)
Definition success_record (uav : string) (secs : Z) (c : challenge) : pydict :=
  [("tx_id", JStr ("AUTH_SUCCESS_" ++ uav ++ "_" ++ Py.str_of_int secs));
   ("uav_supi", JStr uav);
   ("status", JStr "AUTHENTICATED");
   ("session_key_sim", JStr (ktx_sim c));
   ("auth_rand", JInt (rand c))].

Definition reading (w : world) : float := clock w (ticks w).

Lemma int_of_float_some (x : float) (n : Z) (w : world) :
  PyFloat.to_int x = Some n -> int_of_float x w = (Ok n, w).
Proof. unfold int_of_float. intros ->. reflexivity. Qed.

(** An identity that is not a registered string is turned away before the
    request type is looked at. *)
Lemma unknown_identity (request : pydict) (w : world) :
  (forall uav, get "uav_supi" request = JStr uav -> UAV_DB !! uav = None) ->
  (forall l, get "uav_supi" request <> JList l) ->
  (forall d, get "uav_supi" request <> JDict d) ->
  handle_uav_request request w =
    (Ok [("status", JStr "AUTH_FAILURE"); ("reason", JStr "Unknown SUPI/UAV ID")], w).
Proof.
  intros Hstr Hl Hd. unfold handle_uav_request, bind, lookup_key.
  destruct (get "uav_supi" request) as [| b | z | x | s | l | d] eqn:E;
    try reflexivity.
  - rewrite (Hstr s eq_refl). reflexivity.
  - exfalso. exact (Hl l eq_refl).
  - exfalso. exact (Hd d eq_refl).
Qed.

(** Telemetry below the batch size: the record joins the pool, the
    acknowledgement carries the first ten characters of the engine digest. *)
Lemma telemetry_buffered (request : pydict) (uav key : string) (secs : Z)
      (s : string) (w : world) :
  request_of request "TELEMETRY_TX" uav ->
  UAV_DB !! uav = Some key ->
  PyFloat.to_int (reading w) = Some secs ->
  engine_hash w = JStr s ->
  (List.length (transaction_pool (node w)) < 2)%nat ->
  handle_uav_request request w =
    (Ok [("status", JStr "TX_RECEIVED"); ("hash_seed", JStr (Py.prefix 10 s))],
     with_pool (transaction_pool (node w) ++
                  [telemetry_record uav secs (get "data" request)])%list
               (tick w)).
Proof.
  intros Hreq Hreg Hsecs Hs Hlen.
  enter_handler Hreq Hreg.
  unfold bind at 1, time_time. unfold bind at 1.
  rewrite (int_of_float_some _ secs) by exact Hsecs.
  unfold bind at 1, gets at 1. unfold bind at 1, set_pool at 1, modify at 1.
  unfold bind at 1, gets at 1.
  replace (3 <=? _)%nat with false.
  2:{ symmetry. apply Nat.leb_gt. cbn. rewrite length_app. cbn. lia. }
  unfold bind at 1, gets at 1.
  unfold engine_hash in Hs.
  replace (latest_hash _) with (JStr s) by (rewrite <- Hs; reflexivity).
  reflexivity.
Qed.

Lemma tip_of_chain (w w' : world) (h : string) :
  chain (node w') = chain (node w) -> tip w h -> tip w' h.
Proof. unfold tip. intros ->. auto. Qed.

Lemma tip_after_mining (w w' : world) (h : string) (log : list json) :
  chain (node w') = (chain (node w) ++ [JDict (mined_block w h log)])%list ->
  tip w' (poh (engine_difficulty w) h (List.map serialize (transaction_pool (node w)))).
Proof.
  intros Hc. unfold tip. rewrite Hc, last_snoc.
  eexists. split; reflexivity.
Qed.

(** What a request that mines leaves behind: one more block on top of
    [h], built from the pool [pool] at clock position [t]. *)
Definition mined (w w' : world) (h : string) (pool : list pydict) (t : nat) : Prop :=
  exists log : list json,
    chain (node w') =
      (chain (node w) ++
         [JDict [("index", JInt (Z.of_nat (List.length (chain (node w))) + 1));
                 ("timestamp", JFloat (clock w (t + List.length pool)%nat));
                 ("previous_hash", JStr h);
                 ("event_log", JList log);
                 ("transactions", JList (List.map JDict pool));
                 ("current_hash",
                  JStr (poh (engine_difficulty w) h (List.map serialize pool)))]])%list /\
    List.length log = List.length pool /\
    transaction_pool (node w') = [] /\
    ledger w' = Stored (JList (chain (node w'))) /\
    clock w' = clock w /\
    ticks w' = S (t + List.length pool)%nat /\
    engine_hash w' = JStr (poh (engine_difficulty w) h (List.map serialize pool)) /\
    engine_difficulty w' = engine_difficulty w.

(** Telemetry that fills the batch: the pool and the new record are mined
    into one block, whose hash is acknowledged. *)
Lemma telemetry_mined (request : pydict) (uav key : string) (secs : Z)
      (h : string) (w : world) :
  request_of request "TELEMETRY_TX" uav ->
  UAV_DB !! uav = Some key ->
  PyFloat.to_int (reading w) = Some secs ->
  tip w h ->
  (2 <= List.length (transaction_pool (node w)))%nat ->
  let pool := (transaction_pool (node w) ++
                 [telemetry_record uav secs (get "data" request)])%list in
  let h' := poh (engine_difficulty w) h (List.map serialize pool) in
  exists w' : world,
    handle_uav_request request w =
      (Ok [("status", JStr "TX_BLOCK_ACK"); ("hash", JStr (Py.prefix 10 h'));
           ("next_hash", JStr h')], w') /\
    mined w w' h pool (S (ticks w)) /\
    pending_auth_challenges (node w') = pending_auth_challenges (node w).
Proof.
  intros Hreq Hreg Hsecs Htip Hlen pool h'.
  enter_handler Hreq Hreg.
  unfold bind at 1, time_time. unfold bind at 1.
  rewrite (int_of_float_some _ secs) by exact Hsecs.
  unfold bind at 1, gets at 1. unfold bind at 1, set_pool at 1, modify at 1.
  unfold bind at 1, gets at 1.
  set (w1 := with_pool _ (tick w)).
  replace (3 <=? _)%nat with true.
  2:{ symmetry. apply Nat.leb_le. cbn. rewrite length_app. cbn. lia. }
  assert (Htip1 : tip w1 h) by (apply (tip_of_chain w); [reflexivity | exact Htip]).
  assert (Hne : transaction_pool (node w1) <> []).
  { cbn. intros Habs. apply (f_equal (@List.length _)) in Habs.
    rewrite length_app in Habs. cbn in Habs. lia. }
  destruct (mine_block_mines w1 h Htip1 Hne)
    as (log & w' & Hrun & Hchain & Hpool & Hpend & Hled & Hclk & Hticks & Hhash & Hdiff & Hlog).
  unfold bind at 1. rewrite Hrun.
  pose proof (tip_after_mining w1 w' h log Hchain) as Htip'.
  unfold bind at 1. rewrite (last_current_hash_tip w' _ Htip').
  unfold bind at 1, slice_to at 1, ret at 1.
  unfold bind at 1. rewrite (last_current_hash_tip w' _ Htip').
  exists w'. split; [reflexivity|]. split; [|exact Hpend].
  exists log. unfold mined_block in Hchain.
  repeat split; assumption.
Qed.

(** A response that does not match the pending challenge, or that finds
    none: refused, and nothing at all changes. *)
Lemma response_refused (request : pydict) (uav key : string) (w : world) :
  request_of request "AUTH_RESPONSE_2" uav ->
  UAV_DB !! uav = Some key ->
  match pending_auth_challenges (node w) !! uav with
  | Some c => eq_str (get "res_star" request) (xres_star c) = false
  | None => True
  end ->
  handle_uav_request request w =
    (Ok [("status", JStr "AUTH_FAILURE");
         ("reason", JStr "RES* mismatch or no pending challenge")], w).
Proof.
  intros Hreq Hreg Hbad.
  enter_handler Hreq Hreg.
  unfold bind at 1, gets at 1.
  destruct (pending_auth_challenges (node w) !! uav) as [c|]; [|reflexivity].
  rewrite Hbad. reflexivity.
Qed.

(** A response equal to the expected value of the pending challenge:
    accepted, the challenge is deleted, and the pool with the success
    record is mined at once. *)
Lemma response_accepted (request : pydict) (uav key : string) (c : challenge)
      (secs : Z) (h : string) (w : world) :
  request_of request "AUTH_RESPONSE_2" uav ->
  UAV_DB !! uav = Some key ->
  pending_auth_challenges (node w) !! uav = Some c ->
  eq_str (get "res_star" request) (xres_star c) = true ->
  PyFloat.to_int (reading w) = Some secs ->
  tip w h ->
  let pool := (transaction_pool (node w) ++ [success_record uav secs c])%list in
  exists w' : world,
    handle_uav_request request w =
      (Ok [("status", JStr "AUTH_SUCCESS"); ("session_key", JStr (ktx_sim c))], w') /\
    mined w w' h pool (S (ticks w)) /\
    pending_auth_challenges (node w') = delete uav (pending_auth_challenges (node w)).
Proof.
  intros Hreq Hreg Hpend Hmatch Hsecs Htip pool.
  enter_handler Hreq Hreg.
  unfold bind at 1, gets at 1. rewrite Hpend, Hmatch.
  unfold bind at 1, time_time. unfold bind at 1.
  rewrite (int_of_float_some _ secs) by exact Hsecs.
  unfold bind at 1, gets at 1. unfold bind at 1, set_pool at 1, modify at 1.
  unfold bind at 1, gets at 1. unfold bind at 1, set_pending at 1, modify at 1.
  set (w1 := with_pending _ (with_pool _ (tick w))).
  assert (Htip1 : tip w1 h) by (apply (tip_of_chain w); [reflexivity | exact Htip]).
  assert (Hne : transaction_pool (node w1) <> []).
  { cbn. intros Habs. apply (f_equal (@List.length _)) in Habs.
    rewrite length_app in Habs. cbn in Habs. lia. }
  destruct (mine_block_mines w1 h Htip1 Hne)
    as (log & w' & Hrun & Hchain & Hpool & Hpd & Hled & Hclk & Hticks & Hhash & Hdiff & Hlog).
  unfold bind at 1. rewrite Hrun.
  exists w'. split; [reflexivity|]. split; [|exact Hpd].
  exists log. unfold mined_block in Hchain.
  repeat split; assumption.
Qed.

(** The pending challenge that [AUTH_REQUEST_1] stores for a key and a
    challenge value. *)
Definition issued_challenge (key : string) (r : Z) (t : float) : challenge :=
  {| xres_star := calculate_res_star_simulated key r;
     ktx_sim := calculate_session_key_simulated key r;
     rand := r;
     timestamp := t |}.

(** A challenge request: the challenge is the clock in milliseconds, the
    pending entry of the identity is stored or overwritten, and neither
    the pool nor the chain is touched. *)
Lemma challenge_issued (request : pydict) (uav key : string) (r : Z) (w : world) :
  request_of request "AUTH_REQUEST_1" uav ->
  UAV_DB !! uav = Some key ->
  PyFloat.to_int (PrimFloat.mul (reading w) 1000) = Some r ->
  handle_uav_request request w =
    (Ok [("status", JStr "CHALLENGE_ISSUED");
         ("rand", JInt r);
         ("autn", JStr (SHA256.hex_of_str (key ++ uav ++ Py.str_of_int r)));
         ("pk_node", JStr "NodePubKey_Sim")],
     with_pending (<[uav := issued_challenge key r (clock w (S (ticks w)))]>
                     (pending_auth_challenges (node w)))
                  (tick (tick w))).
Proof.
  intros Hreq Hreg Hr.
  enter_handler Hreq Hreg.
  unfold bind at 1, generate_auth_vector_simulated.
  unfold bind at 1, time_time at 1. unfold bind at 1.
  rewrite (int_of_float_some _ r) by exact Hr.
  reflexivity.
Qed.

Lemma int_of_float_none (x : float) (w : world) :
  PyFloat.to_int x = None -> exists e, int_of_float x w = (Raise e, w).
Proof.
  unfold int_of_float. intros ->.
  destruct (Prim2SF x); eexists; reflexivity.
Qed.

Lemma eq_str_true (v : json) (s : string) : eq_str v s = true -> v = JStr s.
Proof.
  destruct v; cbn; try discriminate.
  intros H. apply String.eqb_eq in H. congruence.
Qed.

(** *** One request as a transition of the node *)

(** Every way in which a request can change a sound node.  An exception
    leaves the state it was raised in, like any other outcome. *)
Inductive transition (request : pydict) (w w' : world) : Prop :=
| unchanged :
    w' = w -> transition request w w'
| clock_read :
    w' = tick w -> transition request w w'
| issued (uav key : string) (r : Z) :
    request_of request "AUTH_REQUEST_1" uav ->
    UAV_DB !! uav = Some key ->
    w' = with_pending (<[uav := issued_challenge key r (clock w (S (ticks w)))]>
                         (pending_auth_challenges (node w)))
                      (tick (tick w)) ->
    transition request w w'
| accepted (uav key : string) (c : challenge) (secs : Z) (h : string) :
    request_of request "AUTH_RESPONSE_2" uav ->
    UAV_DB !! uav = Some key ->
    pending_auth_challenges (node w) !! uav = Some c ->
    eq_str (get "res_star" request) (xres_star c) = true ->
    tip w h ->
    mined w w' h (transaction_pool (node w) ++ [success_record uav secs c])%list
          (S (ticks w)) ->
    pending_auth_challenges (node w') = delete uav (pending_auth_challenges (node w)) ->
    transition request w w'
| buffered (uav key : string) (secs : Z) :
    request_of request "TELEMETRY_TX" uav ->
    UAV_DB !! uav = Some key ->
    (List.length (transaction_pool (node w)) < 2)%nat ->
    w' = with_pool (transaction_pool (node w) ++
                      [telemetry_record uav secs (get "data" request)])%list
                   (tick w) ->
    transition request w w'
| batched (uav key : string) (secs : Z) (h : string) :
    request_of request "TELEMETRY_TX" uav ->
    UAV_DB !! uav = Some key ->
    (2 <= List.length (transaction_pool (node w)))%nat ->
    tip w h ->
    mined w w' h (transaction_pool (node w) ++
                    [telemetry_record uav secs (get "data" request)])%list
          (S (ticks w)) ->
    pending_auth_challenges (node w') = pending_auth_challenges (node w) ->
    transition request w w'.

Lemma handle_transition (request : pydict) (w : world) :
  sound w -> transition request w (snd (handle_uav_request request w)).
Proof.
  intros [[h Htip] [s Hs]].
  destruct (get "uav_supi" request) as [| b | z | x | uav | l | d] eqn:Euav;
    try (apply unchanged; unfold handle_uav_request, bind, lookup_key;
         rewrite Euav; reflexivity).
  destruct (UAV_DB !! uav) as [key|] eqn:Ereg.
  2:{ apply unchanged. unfold handle_uav_request, bind, lookup_key.
      rewrite Euav, Ereg. reflexivity. }
  destruct (eq_str (get "type" request) "AUTH_REQUEST_1") eqn:E1.
  { apply eq_str_true in E1.
    assert (Hreq : request_of request "AUTH_REQUEST_1" uav) by (split; assumption).
    destruct (PyFloat.to_int (PrimFloat.mul (reading w) 1000)) as [r|] eqn:Er.
    - rewrite (challenge_issued request uav key r w Hreq Ereg Er).
      eapply issued; eauto.
    - apply clock_read.
      destruct (int_of_float_none _ (tick w) Er) as [e He].
      unfold handle_uav_request. rewrite E1, Euav.
      unfold bind at 1, lookup_key. rewrite Ereg. unfold ret at 1.
      cbn [eq_str String.eqb Ascii.eqb Bool.eqb].
      unfold bind at 1, generate_auth_vector_simulated.
      unfold bind at 1, time_time at 1. unfold bind at 1.
      unfold reading in He. rewrite He. reflexivity. }
  destruct (eq_str (get "type" request) "AUTH_RESPONSE_2") eqn:E2.
  { apply eq_str_true in E2.
    assert (Hreq : request_of request "AUTH_RESPONSE_2" uav) by (split; assumption).
    destruct (pending_auth_challenges (node w) !! uav) as [c|] eqn:Ep.
    2:{ apply unchanged. rewrite (response_refused request uav key w Hreq Ereg).
        - reflexivity.
        - rewrite Ep. exact I. }
    destruct (eq_str (get "res_star" request) (xres_star c)) eqn:Em.
    2:{ apply unchanged. rewrite (response_refused request uav key w Hreq Ereg).
        - reflexivity.
        - rewrite Ep. exact Em. }
    destruct (PyFloat.to_int (reading w)) as [secs|] eqn:Es.
    - destruct (response_accepted request uav key c secs h w Hreq Ereg Ep Em Es Htip)
        as (w' & Hrun & Hmined & Hpend).
      rewrite Hrun. eapply accepted; eauto.
    - apply clock_read.
      destruct (int_of_float_none _ (tick w) Es) as [e He].
      unfold handle_uav_request. rewrite E2, Euav.
      unfold bind at 1, lookup_key. rewrite Ereg. unfold ret at 1.
      cbn [eq_str String.eqb Ascii.eqb Bool.eqb].
      unfold bind at 1, gets at 1. rewrite Ep, Em.
      unfold bind at 1, time_time at 1. unfold bind at 1.
      unfold reading in He. rewrite He. reflexivity. }
  destruct (eq_str (get "type" request) "TELEMETRY_TX") eqn:E3.
  { apply eq_str_true in E3.
    assert (Hreq : request_of request "TELEMETRY_TX" uav) by (split; assumption).
    destruct (PyFloat.to_int (reading w)) as [secs|] eqn:Es.
    - destruct (Nat.lt_ge_cases (List.length (transaction_pool (node w))) 2) as [Hlt|Hge].
      + rewrite (telemetry_buffered request uav key secs s w Hreq Ereg Es Hs Hlt).
        eapply buffered; eauto.
      + destruct (telemetry_mined request uav key secs h w Hreq Ereg Es Htip Hge)
          as (w' & Hrun & Hmined & Hpend).
        rewrite Hrun. eapply batched; eauto.
    - apply clock_read.
      destruct (int_of_float_none _ (tick w) Es) as [e He].
      unfold handle_uav_request. rewrite E3, Euav.
      unfold bind at 1, lookup_key. rewrite Ereg. unfold ret at 1.
      cbn [eq_str String.eqb Ascii.eqb Bool.eqb].
      unfold bind at 1, time_time at 1. unfold bind at 1.
      unfold reading in He. rewrite He. reflexivity. }
  apply unchanged.
  unfold handle_uav_request, bind, lookup_key. rewrite Euav, Ereg.
  unfold ret at 1. rewrite E1, E2, E3. reflexivity.
Qed.

(** *** Initialization *)

(** The genesis block written at clock reading [t]. *)
Definition genesis (t : float) : pydict :=
  [("index", JInt 0);
   ("timestamp", JFloat t);
   ("previous_hash", JStr "0");
   ("event_log", JList [JDict [("event_type", JStr "CHAIN_START")]]);
   ("transactions",
    JList [JDict [("tx_id", JStr "GENESIS_TX"); ("data", JStr "System Initialized")]]);
   ("current_hash", JStr (advance (Py.zeros 64)))].

Lemma boot_without_ledger (clk : nat -> float) :
  boot NoFile clk =
    (Ok tt,
     {| node := {| chain := [JDict (genesis (clk 0%nat))];
                   transaction_pool := [];
                   pending_auth_challenges := ∅;
                   epoh := {| difficulty := 2;
                              latest_hash := JStr (advance (Py.zeros 64));
                              sequence_count := 1;
                              epoh_chain := [] |} |};
        ledger := Stored (JList [JDict (genesis (clk 0%nat))]);
        clock := clk;
        ticks := 1 |}).
Proof. reflexivity. Qed.

(** *** Reachable states *)

(** The states of a node started without a ledger file, as the script
    does, and then serving any requests under any clock. *)
Inductive reachable : world -> Prop :=
| reach_boot (clk : nat -> float) :
    reachable (snd (boot NoFile clk))
| reach_step (w : world) (request : pydict) :
    reachable w -> reachable (snd (handle_uav_request request w)).

Lemma mined_sound (w w' : world) (h : string) (pool : list pydict) (t : nat) :
  mined w w' h pool t -> sound w'.
Proof.
  intros (log & Hc & _ & _ & _ & _ & _ & Hh & _).
  split.
  - eexists. unfold tip. rewrite Hc, last_snoc. eexists. split; reflexivity.
  - eexists. exact Hh.
Qed.

Lemma transition_sound (request : pydict) (w w' : world) :
  sound w -> transition request w w' -> sound w'.
Proof.
  intros Hs [-> | -> | uav key r _ _ -> | uav key c secs h _ _ _ _ _ Hm _
             | uav key secs _ _ _ -> | uav key secs h _ _ _ _ Hm _];
    try exact Hs; try (eapply mined_sound; exact Hm).
Qed.

Lemma reachable_sound (w : world) : reachable w -> sound w.
Proof.
  induction 1 as [clk | w request Hr IH].
  - rewrite boot_without_ledger. cbn [snd]. split.
    + eexists. eexists. split; reflexivity.
    + eexists. reflexivity.
  - eapply transition_sound; [exact IH | apply handle_transition; exact IH].
Qed.

(** A request either leaves the chain alone or mines one block on its tip. *)
Lemma transition_chain (request : pydict) (w w' : world) :
  transition request w w' ->
  chain (node w') = chain (node w) \/
  exists h pool t, tip w h /\ mined w w' h pool t.
Proof.
  intros [-> | -> | uav key r _ _ -> | uav key c secs h _ _ _ _ Ht Hm _
          | uav key secs _ _ _ -> | uav key secs h _ _ _ Ht Hm _];
    try (left; reflexivity); right; eauto.
Qed.

(** C9. A node initialized without a ledger file holds exactly one block:
    index 0, previous hash ['0'], the single marker transaction
    [GENESIS_TX] / ['System Initialized'], and as resulting hash the output
    of one [generate_sequential_hash()] from the initial all-zero digest,
    that is SHA-256 of sixty-four ['0'] characters; the block is also what
    the ledger file then holds. *)
Theorem C9_genesis_block (clk : nat -> float) :
  exists w : world,
    boot NoFile clk = (Ok tt, w) /\
    chain (node w) =
      [JDict [("index", JInt 0);
              ("timestamp", JFloat (clk 0%nat));
              ("previous_hash", JStr "0");
              ("event_log", JList [JDict [("event_type", JStr "CHAIN_START")]]);
              ("transactions",
               JList [JDict [("tx_id", JStr "GENESIS_TX");
                             ("data", JStr "System Initialized")]]);
              ("current_hash", JStr (SHA256.hex_of_str (Py.zeros 64)))]] /\
    ledger w = Stored (JList (chain (node w))) /\
    fst (generate_sequential_hash
           {| node := blank; ledger := NoFile; clock := clk; ticks := 0 |}) =
      Ok (SHA256.hex_of_str (Py.zeros 64)) /\
    latest_hash (EPOH_Core_init 2) = JStr (Py.zeros 64) /\
    SHA256.hex_of_str (Py.zeros 64) =
      "60e05bd1b195af2f94112fa7197a5c88289058840ce7c6df9693756bc6250f55".
Proof.
  eexists. split; [apply boot_without_ledger|].
  cbn [node chain ledger].
  split; [reflexivity|].
  split; [reflexivity|].
  split; [reflexivity|].
  split; [reflexivity|].
  vm_compute. reflexivity.
Qed.

(** *** Block indices *)

(** The index the node gives to the block at position [i]. *)
Definition index_at (i : nat) : Z :=
  match i with
  | O => 0
  | S _ => Z.of_nat i + 1
  end.

Definition indexed (c : list json) : Prop :=
  forall (i : nat) (b : json),
    c !! i = Some b ->
    exists d, b = JDict d /\ dict_get "index" d = Some (JInt (index_at i)).

Lemma indexed_snoc (c : list json) (d : pydict) :
  indexed c ->
  c <> [] ->
  dict_get "index" d = Some (JInt (Z.of_nat (List.length c) + 1)) ->
  indexed (c ++ [JDict d]).
Proof.
  intros Hc Hne Hd i b Hi.
  apply lookup_app_Some in Hi as [Hi | [Hle Hi]].
  - exact (Hc i b Hi).
  - destruct (i - List.length c)%nat as [|k] eqn:Ek; [|destruct k; discriminate Hi].
    injection Hi as <-. exists d. split; [reflexivity|].
    assert (i = List.length c) as -> by lia.
    destruct c as [|x c']; [contradiction|]. exact Hd.
Qed.

Lemma sound_chain_nonempty (w : world) : sound w -> chain (node w) <> [].
Proof.
  intros [[h (b & Hl & _)] _] Hnil. rewrite Hnil in Hl. discriminate Hl.
Qed.

Lemma reachable_indexed (w : world) : reachable w -> indexed (chain (node w)).
Proof.
  induction 1 as [clk | w request Hr IH].
  - rewrite boot_without_ledger. cbn [snd node chain].
    intros [|i] b Hi; [|destruct i; discriminate Hi].
    injection Hi as <-. eexists. split; reflexivity.
  - pose proof (reachable_sound w Hr) as Hs.
    destruct (transition_chain request w _ (handle_transition request w Hs))
      as [-> | (h & pool & t & Ht & (log & Hc & _))]; [exact IH|].
    rewrite Hc. apply indexed_snoc; [exact IH | | reflexivity].
    apply sound_chain_nonempty. exact Hs.
Qed.

(** C2, as the code has it. The block that [mine_block] appends carries
    the chain length at the moment of mining plus one; so in every chain
    the node builds the genesis block has index 0 and the block at position
    [i >= 1] has index [i + 1]: index 1 is never used. *)
Theorem C2_index_is_length_plus_one (w : world) :
  reachable w ->
  (forall (i : nat) (b : json),
     chain (node w) !! i = Some b ->
     exists d, b = JDict d /\
               dict_get "index" d =
                 Some (JInt (match i with O => 0 | S _ => Z.of_nat i + 1 end))) /\
  (transaction_pool (node w) <> [] ->
   exists d,
     chain (node (snd (mine_block w))) = (chain (node w) ++ [JDict d])%list /\
     dict_get "index" d = Some (JInt (Z.of_nat (List.length (chain (node w))) + 1))).
Proof.
  intros Hr. split.
  - exact (reachable_indexed w Hr).
  - intros Hne.
    destruct (reachable_sound w Hr) as [[h Ht] _].
    destruct (mine_block_mines w h Ht Hne) as (log & w' & Hrun & Hc & _).
    rewrite Hrun. cbn [snd]. eexists. split; [exact Hc | reflexivity].
Qed.

Lemma reachable_fresh : reachable Scenario.fresh.
Proof. apply reach_boot. Qed.

Lemma reachable_challenged : reachable Scenario.challenged.
Proof. apply reach_step, reachable_fresh. Qed.

Lemma reachable_authenticated : reachable Scenario.authenticated.
Proof. apply reach_step, reachable_challenged. Qed.

Lemma reachable_buffering : reachable Scenario.buffering.
Proof. apply reach_step, reachable_authenticated. Qed.

Lemma C2_witness :
  reachable Scenario.buffering /\
  ((forall (i : nat) (b : json),
      chain (node Scenario.buffering) !! i = Some b ->
      exists d, b = JDict d /\
                dict_get "index" d =
                  Some (JInt (match i with O => 0 | S _ => Z.of_nat i + 1 end))) /\
   (transaction_pool (node Scenario.buffering) <> [] ->
    exists d,
      chain (node (snd (mine_block Scenario.buffering))) =
        (chain (node Scenario.buffering) ++ [JDict d])%list /\
      dict_get "index" d =
        Some (JInt (Z.of_nat (List.length (chain (node Scenario.buffering))) + 1)))).
Proof.
  split.
  - exact reachable_buffering.
  - apply (C2_index_is_length_plus_one Scenario.buffering). exact reachable_buffering.
Defined.

(** C2 as stated fails on the chain of a node that has authenticated one
    UAV: the block at position 1 has index 2. *)
Lemma C2_counterexample :
  reachable Scenario.authenticated /\
  Scenario.block_field (chain (node Scenario.authenticated)) 1 "index" = Some (JInt 2) /\
  Scenario.block_field (chain (node Scenario.authenticated)) 1 "index" <> Some (JInt 1).
Proof.
  split; [exact reachable_authenticated|].
  assert (H : Scenario.block_field (chain (node Scenario.authenticated)) 1 "index"
              = Some (JInt 2)) by (vm_compute; reflexivity).
  split; [exact H|]. rewrite H. discriminate.
Qed.

(** *** Pending challenges *)

(** A pending entry of [uav] holds the values derived from the key of
    [uav] and the challenge it records. *)
Definition well_issued (uav : string) (c : challenge) : Prop :=
  exists key,
    UAV_DB !! uav = Some key /\
    xres_star c = calculate_res_star_simulated key (rand c) /\
    ktx_sim c = calculate_session_key_simulated key (rand c).

Lemma reachable_pending (w : world) :
  reachable w ->
  forall uav c, pending_auth_challenges (node w) !! uav = Some c -> well_issued uav c.
Proof.
  induction 1 as [clk | w request Hr IH]; intros uav c Hc.
  - rewrite boot_without_ledger in Hc. cbn in Hc. rewrite lookup_empty in Hc. discriminate.
  - pose proof (handle_transition request w (reachable_sound w Hr)) as Ht.
    destruct Ht as [E | E | uav0 key r _ Hreg E | uav0 key c0 secs h _ _ _ _ _ _ Hp
                    | uav0 key secs _ _ _ E | uav0 key secs h _ _ _ _ _ Hp].
    + rewrite E in Hc. eauto.
    + rewrite E in Hc. eauto.
    + rewrite E in Hc. cbn in Hc.
      destruct (decide (uav0 = uav)) as [->|Hne].
      * rewrite lookup_insert_eq in Hc. injection Hc as <-.
        exists key. repeat split. exact Hreg.
      * rewrite lookup_insert_ne in Hc by exact Hne. eauto.
    + rewrite Hp in Hc. apply lookup_delete_Some in Hc as [_ Hc]. eauto.
    + rewrite E in Hc. eauto.
    + rewrite Hp in Hc. eauto.
Qed.

Lemma matches_expected (request : pydict) (key : string) (c : challenge) :
  xres_star c = calculate_res_star_simulated key (rand c) ->
  get "res_star" request = JStr (calculate_res_star_simulated key (rand c)) ->
  eq_str (get "res_star" request) (xres_star c) = true.
Proof. intros -> ->. cbn. apply String.eqb_refl. Qed.

Lemma differs_from_expected (request : pydict) (key other : string) (c : challenge) :
  xres_star c = calculate_res_star_simulated key (rand c) ->
  get "res_star" request = JStr (calculate_res_star_simulated other (rand c)) ->
  calculate_res_star_simulated other (rand c) <> calculate_res_star_simulated key (rand c) ->
  eq_str (get "res_star" request) (xres_star c) = false.
Proof. intros -> -> Hne. cbn. apply String.eqb_neq. exact Hne. Qed.

Lemma issued_for_key (w : world) (uav key : string) (c : challenge) :
  reachable w ->
  UAV_DB !! uav = Some key ->
  pending_auth_challenges (node w) !! uav = Some c ->
  xres_star c = calculate_res_star_simulated key (rand c) /\
  ktx_sim c = calculate_session_key_simulated key (rand c).
Proof.
  intros Hr Hreg Hp.
  destruct (reachable_pending w Hr uav c Hp) as (key' & Hreg' & Hx & Hk).
  rewrite Hreg in Hreg'. injection Hreg' as <-. split; assumption.
Qed.

(** C3. From a state with a pending challenge for a registered identity,
    an [AUTH_RESPONSE_2] whose [res_star] is derived from the identity's
    key and the issued challenge (the first ten hexadecimal digits of
    SHA-256 of key, challenge and ['Expected']) is answered [AUTH_SUCCESS]
    with the session key derived from the same key and challenge; the
    pending challenge is deleted and exactly one block, holding the pool
    and the success record, is appended.  A [res_star] derived in the same
    way from another key is answered [AUTH_FAILURE] and changes nothing,
    no block is appended, exactly when the derived value differs from the
    expected one; when the two keys agree on those ten digits it is
    accepted as the identity's own response is. *)
Theorem C3_authentication
        (w : world) (uav key other : string) (c : challenge) (secs : Z)
        (good bad : pydict) :
  reachable w ->
  UAV_DB !! uav = Some key ->
  pending_auth_challenges (node w) !! uav = Some c ->
  PyFloat.to_int (reading w) = Some secs ->
  request_of good "AUTH_RESPONSE_2" uav ->
  get "res_star" good = JStr (calculate_res_star_simulated key (rand c)) ->
  request_of bad "AUTH_RESPONSE_2" uav ->
  get "res_star" bad = JStr (calculate_res_star_simulated other (rand c)) ->
  (exists (w' : world) (block : pydict),
     handle_uav_request good w =
       (Ok [("status", JStr "AUTH_SUCCESS");
            ("session_key", JStr (calculate_session_key_simulated key (rand c)))],
        w') /\
     pending_auth_challenges (node w') !! uav = None /\
     chain (node w') = (chain (node w) ++ [JDict block])%list /\
     dict_get "transactions" block =
       Some (JList (List.map JDict
                      (transaction_pool (node w) ++ [success_record uav secs c])))) /\
  (calculate_res_star_simulated other (rand c) <> calculate_res_star_simulated key (rand c) ->
   handle_uav_request bad w =
     (Ok [("status", JStr "AUTH_FAILURE");
          ("reason", JStr "RES* mismatch or no pending challenge")],
      w)) /\
  (calculate_res_star_simulated other (rand c) = calculate_res_star_simulated key (rand c) ->
   exists (w' : world) (block : pydict),
     handle_uav_request bad w =
       (Ok [("status", JStr "AUTH_SUCCESS");
            ("session_key", JStr (calculate_session_key_simulated key (rand c)))],
        w') /\
     pending_auth_challenges (node w') !! uav = None /\
     chain (node w') = (chain (node w) ++ [JDict block])%list /\
     dict_get "transactions" block =
       Some (JList (List.map JDict
                      (transaction_pool (node w) ++ [success_record uav secs c])))).
Proof.
  intros Hr Hreg Hp Hsecs Hgood Hres Hbad Hres'.
  destruct (issued_for_key w uav key c Hr Hreg Hp) as [Hx Hk].
  destruct (reachable_sound w Hr) as [[h Htip] _].
  assert (Haccept : forall request : pydict,
            request_of request "AUTH_RESPONSE_2" uav ->
            get "res_star" request = JStr (calculate_res_star_simulated key (rand c)) ->
            exists (w' : world) (block : pydict),
              handle_uav_request request w =
                (Ok [("status", JStr "AUTH_SUCCESS");
                     ("session_key", JStr (calculate_session_key_simulated key (rand c)))],
                 w') /\
              pending_auth_challenges (node w') !! uav = None /\
              chain (node w') = (chain (node w) ++ [JDict block])%list /\
              dict_get "transactions" block =
                Some (JList (List.map JDict
                               (transaction_pool (node w) ++ [success_record uav secs c])))).
  { intros request Hreq Hval.
    destruct (response_accepted request uav key c secs h w Hreq Hreg Hp
                (matches_expected request key c Hx Hval) Hsecs Htip)
      as (w' & Hrun & (log & Hc & _) & Hpend).
    exists w'. eexists. rewrite Hrun, Hk.
    split; [reflexivity|].
    split; [rewrite Hpend; apply lookup_delete_eq|].
    split; [exact Hc | reflexivity]. }
  split; [exact (Haccept good Hgood Hres)|]. split.
  - intros Hne. apply (response_refused bad uav key w Hbad Hreg).
    rewrite Hp. exact (differs_from_expected bad key other c Hx Hres' Hne).
  - intros Heq. apply (Haccept bad Hbad). rewrite Hres', Heq. reflexivity.
Qed.

Lemma C3_witness :
  let w := Scenario.challenged in
  let c := issued_challenge "K_LongTerm_A1" 1700000001500 (Scenario.wall_clock 2) in
  let good := Scenario.auth_response_2 "UAV_A1"
                (calculate_res_star_simulated "K_LongTerm_A1" 1700000001500) in
  let bad := Scenario.auth_response_2 "UAV_A1"
               (calculate_res_star_simulated "K_LongTerm_B2" 1700000001500) in
  (exists (w' : world) (block : pydict),
     handle_uav_request good w =
       (Ok [("status", JStr "AUTH_SUCCESS");
            ("session_key",
             JStr (calculate_session_key_simulated "K_LongTerm_A1" (rand c)))],
        w') /\
     pending_auth_challenges (node w') !! "UAV_A1" = None /\
     chain (node w') = (chain (node w) ++ [JDict block])%list /\
     dict_get "transactions" block =
       Some (JList (List.map JDict
                      (transaction_pool (node w) ++
                         [success_record "UAV_A1" 1700000003 c])))) /\
  handle_uav_request bad w =
    (Ok [("status", JStr "AUTH_FAILURE");
         ("reason", JStr "RES* mismatch or no pending challenge")],
     w).
Proof.
  intros w c good bad.
  destruct (C3_authentication w "UAV_A1" "K_LongTerm_A1" "K_LongTerm_B2" c 1700000003
                              good bad) as (Hgood & Hbad & _).
  - exact reachable_challenged.
  - vm_compute. reflexivity.
  - vm_compute. reflexivity.
  - vm_compute. reflexivity.
  - split; reflexivity.
  - reflexivity.
  - split; reflexivity.
  - reflexivity.
  - split; [exact Hgood|]. apply Hbad. vm_compute. discriminate.
Defined.

(** C3 as stated fails: the expected response keeps ten hexadecimal digits
    of the digest, and the key [K_EO4ZGWGSAAA], which is not the key of
    [UAV_A1], derives the same ten digits from the challenge 1700000001500
    as [K_LongTerm_A1] does.  The response derived from it is answered
    [AUTH_SUCCESS], with the session key of [UAV_A1], and a block is
    appended. *)
Lemma C3_counterexample :
  let w := Scenario.challenged in
  let other := "K_EO4ZGWGSAAA" in
  let bad := Scenario.auth_response_2 "UAV_A1"
               (calculate_res_star_simulated other 1700000001500) in
  UAV_DB !! "UAV_A1" = Some "K_LongTerm_A1" /\
  other <> "K_LongTerm_A1" /\
  option_map rand (pending_auth_challenges (node w) !! "UAV_A1") = Some 1700000001500 /\
  calculate_res_star_simulated "K_LongTerm_A1" 1700000001500 = "1682d5fcb7" /\
  calculate_res_star_simulated other 1700000001500 = "1682d5fcb7" /\
  fst (handle_uav_request bad w) =
    Ok [("status", JStr "AUTH_SUCCESS"); ("session_key", JStr "f51c4e0959891777")] /\
  List.length (chain (node (snd (handle_uav_request bad w)))) =
    S (List.length (chain (node w))).
Proof.
  cbv zeta.
  split; [vm_compute; reflexivity|].
  split; [discriminate|].
  split; [vm_compute; reflexivity|].
  split; [vm_compute; reflexivity|].
  split; [vm_compute; reflexivity|].
  split; vm_compute; reflexivity.
Qed.

(** A request changes the pending challenge of [uav] only by issuing a new
    one for [uav] or by accepting a matching response of [uav]. *)
Lemma pending_changes (request : pydict) (w w' : world) (uav : string) :
  transition request w w' ->
  pending_auth_challenges (node w') !! uav <> pending_auth_challenges (node w) !! uav ->
  request_of request "AUTH_REQUEST_1" uav \/
  (request_of request "AUTH_RESPONSE_2" uav /\
   exists c, pending_auth_challenges (node w) !! uav = Some c /\
             eq_str (get "res_star" request) (xres_star c) = true /\
             pending_auth_challenges (node w') !! uav = None).
Proof.
  intros [E | E | uav0 key r Hreq _ E | uav0 key c secs h Hreq _ Hc Hm _ _ Hp
          | uav0 key secs _ _ _ E | uav0 key secs h _ _ _ _ _ Hp] Hdiff.
  - rewrite E in Hdiff. contradiction.
  - rewrite E in Hdiff. contradiction.
  - destruct (decide (uav0 = uav)) as [<-|Hne]; [left; exact Hreq|].
    rewrite E in Hdiff. cbn in Hdiff.
    rewrite lookup_insert_ne in Hdiff by exact Hne. contradiction.
  - destruct (decide (uav0 = uav)) as [<-|Hne].
    + right. split; [exact Hreq|]. exists c.
      rewrite Hp, lookup_delete_eq. auto.
    + rewrite Hp, lookup_delete_ne in Hdiff by exact Hne. contradiction.
  - rewrite E in Hdiff. contradiction.
  - rewrite Hp in Hdiff. contradiction.
Qed.

(** C5. A mismatched [AUTH_RESPONSE_2] is answered [AUTH_FAILURE] and
    leaves the pending challenge of the identity, the pool and the chain as
    they were, so the correctly derived response sent next against the same
    challenge is still answered [AUTH_SUCCESS]; and whatever the request,
    the pending challenge of an identity changes only when a new challenge
    is issued for it or when a matching response deletes it. *)
Theorem C5_challenge_persistence
        (w : world) (uav key : string) (c : challenge) (secs : Z)
        (bad good : pydict) :
  reachable w ->
  UAV_DB !! uav = Some key ->
  pending_auth_challenges (node w) !! uav = Some c ->
  PyFloat.to_int (reading w) = Some secs ->
  request_of bad "AUTH_RESPONSE_2" uav ->
  eq_str (get "res_star" bad) (xres_star c) = false ->
  request_of good "AUTH_RESPONSE_2" uav ->
  get "res_star" good = JStr (calculate_res_star_simulated key (rand c)) ->
  let w1 := snd (handle_uav_request bad w) in
  (fst (handle_uav_request bad w) =
     Ok [("status", JStr "AUTH_FAILURE");
         ("reason", JStr "RES* mismatch or no pending challenge")] /\
   pending_auth_challenges (node w1) !! uav = Some c /\
   transaction_pool (node w1) = transaction_pool (node w) /\
   chain (node w1) = chain (node w)) /\
  (fst (handle_uav_request good w1) =
     Ok [("status", JStr "AUTH_SUCCESS");
         ("session_key", JStr (calculate_session_key_simulated key (rand c)))] /\
   pending_auth_challenges (node (snd (handle_uav_request good w1))) !! uav = None) /\
  (forall (request : pydict) (uav' : string),
     pending_auth_challenges (node (snd (handle_uav_request request w))) !! uav' <>
       pending_auth_challenges (node w) !! uav' ->
     request_of request "AUTH_REQUEST_1" uav' \/
     (request_of request "AUTH_RESPONSE_2" uav' /\
      exists c', pending_auth_challenges (node w) !! uav' = Some c' /\
                 eq_str (get "res_star" request) (xres_star c') = true /\
                 pending_auth_challenges
                   (node (snd (handle_uav_request request w))) !! uav' = None)).
Proof.
  intros Hr Hreg Hp Hsecs Hbad Hmis Hgood Hres w1.
  assert (Hrun : handle_uav_request bad w =
                   (Ok [("status", JStr "AUTH_FAILURE");
                        ("reason", JStr "RES* mismatch or no pending challenge")], w)).
  { apply (response_refused bad uav key w Hbad Hreg). rewrite Hp. exact Hmis. }
  subst w1. rewrite Hrun. cbn [fst snd].
  split; [repeat split; exact Hp|].
  destruct (issued_for_key w uav key c Hr Hreg Hp) as [Hx Hk].
  destruct (reachable_sound w Hr) as [[h Htip] _].
  split.
  - destruct (response_accepted good uav key c secs h w Hgood Hreg Hp
                (matches_expected good key c Hx Hres) Hsecs Htip)
      as (w' & Hrun' & _ & Hpend).
    rewrite Hrun', Hk. cbn [fst snd].
    split; [reflexivity|]. rewrite Hpend. apply lookup_delete_eq.
  - intros request uav' Hdiff.
    eapply pending_changes; [|exact Hdiff].
    apply handle_transition, reachable_sound, Hr.
Qed.

Lemma C5_witness :
  let w := Scenario.challenged in
  let c := issued_challenge "K_LongTerm_A1" 1700000001500 (Scenario.wall_clock 2) in
  let bad := Scenario.auth_response_2 "UAV_A1" "0000000000" in
  let good := Scenario.auth_response_2 "UAV_A1"
                (calculate_res_star_simulated "K_LongTerm_A1" 1700000001500) in
  let w1 := snd (handle_uav_request bad w) in
  (fst (handle_uav_request bad w) =
     Ok [("status", JStr "AUTH_FAILURE");
         ("reason", JStr "RES* mismatch or no pending challenge")] /\
   pending_auth_challenges (node w1) !! "UAV_A1" = Some c /\
   transaction_pool (node w1) = transaction_pool (node w) /\
   chain (node w1) = chain (node w)) /\
  (fst (handle_uav_request good w1) =
     Ok [("status", JStr "AUTH_SUCCESS");
         ("session_key",
          JStr (calculate_session_key_simulated "K_LongTerm_A1" (rand c)))] /\
   pending_auth_challenges (node (snd (handle_uav_request good w1))) !! "UAV_A1" = None) /\
  (forall (request : pydict) (uav' : string),
     pending_auth_challenges (node (snd (handle_uav_request request w))) !! uav' <>
       pending_auth_challenges (node w) !! uav' ->
     request_of request "AUTH_REQUEST_1" uav' \/
     (request_of request "AUTH_RESPONSE_2" uav' /\
      exists c', pending_auth_challenges (node w) !! uav' = Some c' /\
                 eq_str (get "res_star" request) (xres_star c') = true /\
                 pending_auth_challenges
                   (node (snd (handle_uav_request request w))) !! uav' = None)).
Proof.
  intros w c bad good.
  apply (C5_challenge_persistence w "UAV_A1" "K_LongTerm_A1" c 1700000003 bad good).
  - exact reachable_challenged.
  - vm_compute. reflexivity.
  - vm_compute. reflexivity.
  - vm_compute. reflexivity.
  - split; reflexivity.
  - vm_compute. reflexivity.
  - split; reflexivity.
  - reflexivity.
Defined.

(** *** Telemetry *)

(** C4, as the code has it. A [TELEMETRY_TX] request that names a
    registered identity is answered [TX_RECEIVED] with the first ten
    characters of the engine digest while the pool stays below three
    records, and [TX_BLOCK_ACK] with the hash of the block just mined when
    its record is the third; a [TELEMETRY_TX] request that names an
    identity absent from the registry is answered [AUTH_FAILURE]
    (['Unknown SUPI/UAV ID']) and changes nothing. *)
Theorem C4_telemetry_responses (w : world) (request : pydict) (uav : string) :
  reachable w ->
  request_of request "TELEMETRY_TX" uav ->
  (UAV_DB !! uav = None ->
   handle_uav_request request w =
     (Ok [("status", JStr "AUTH_FAILURE"); ("reason", JStr "Unknown SUPI/UAV ID")], w)) /\
  (forall (key : string) (secs : Z),
     UAV_DB !! uav = Some key ->
     PyFloat.to_int (reading w) = Some secs ->
     exists w' : world,
       ((List.length (transaction_pool (node w)) < 2)%nat /\
        exists s, engine_hash w = JStr s /\
                  handle_uav_request request w =
                    (Ok [("status", JStr "TX_RECEIVED");
                         ("hash_seed", JStr (Py.prefix 10 s))], w') /\
                  chain (node w') = chain (node w)) \/
       ((2 <= List.length (transaction_pool (node w)))%nat /\
        exists (h' : string) (block : pydict),
          handle_uav_request request w =
            (Ok [("status", JStr "TX_BLOCK_ACK"); ("hash", JStr (Py.prefix 10 h'));
                 ("next_hash", JStr h')], w') /\
          chain (node w') = (chain (node w) ++ [JDict block])%list /\
          dict_get "current_hash" block = Some (JStr h'))).
Proof.
  intros Hr Hreq. split.
  - intros Hnone. apply unknown_identity.
    + intros u Hu. destruct Hreq as [_ Hq]. rewrite Hq in Hu. injection Hu as <-.
      exact Hnone.
    + intros l Hl. destruct Hreq as [_ Hq]. rewrite Hq in Hl. discriminate Hl.
    + intros d Hd. destruct Hreq as [_ Hq]. rewrite Hq in Hd. discriminate Hd.
  - intros key secs Hreg Hsecs.
    destruct (reachable_sound w Hr) as [[h Htip] [s Hs]].
    destruct (Nat.lt_ge_cases (List.length (transaction_pool (node w))) 2) as [Hlt|Hge].
    + eexists. left. split; [exact Hlt|]. exists s. split; [exact Hs|].
      split; [exact (telemetry_buffered request uav key secs s w Hreq Hreg Hsecs Hs Hlt)|].
      reflexivity.
    + destruct (telemetry_mined request uav key secs h w Hreq Hreg Hsecs Htip Hge)
        as (w' & Hrun & (log & Hc & _) & _).
      exists w'. right. split; [exact Hge|].
      eexists. eexists. split; [exact Hrun|]. split; [exact Hc | reflexivity].
Qed.

Lemma C4_witness :
  let w := Scenario.buffering in
  let request := Scenario.telemetry_tx "UAV_A1" (JStr "f51c4e0959891777")
                   (Scenario.position 2) in
  let uav := "UAV_A1" in
  (UAV_DB !! uav = None ->
   handle_uav_request request w =
     (Ok [("status", JStr "AUTH_FAILURE"); ("reason", JStr "Unknown SUPI/UAV ID")], w)) /\
  (forall (key : string) (secs : Z),
     UAV_DB !! uav = Some key ->
     PyFloat.to_int (reading w) = Some secs ->
     exists w' : world,
       ((List.length (transaction_pool (node w)) < 2)%nat /\
        exists s, engine_hash w = JStr s /\
                  handle_uav_request request w =
                    (Ok [("status", JStr "TX_RECEIVED");
                         ("hash_seed", JStr (Py.prefix 10 s))], w') /\
                  chain (node w') = chain (node w)) \/
       ((2 <= List.length (transaction_pool (node w)))%nat /\
        exists (h' : string) (block : pydict),
          handle_uav_request request w =
            (Ok [("status", JStr "TX_BLOCK_ACK"); ("hash", JStr (Py.prefix 10 h'));
                 ("next_hash", JStr h')], w') /\
          chain (node w') = (chain (node w) ++ [JDict block])%list /\
          dict_get "current_hash" block = Some (JStr h'))).
Proof.
  intros w request uav.
  apply (C4_telemetry_responses w request uav).
  - exact reachable_buffering.
  - split; reflexivity.
Defined.

(** C4 as stated fails: on the freshly started node a [TELEMETRY_TX]
    request that names the unregistered identity [UAV_X9] receives the
    failure response [AUTH_FAILURE]. *)
Lemma C4_counterexample :
  let request := Scenario.telemetry_tx "UAV_X9" JNull (Scenario.position 1) in
  get "type" request = JStr "TELEMETRY_TX" /\
  fst (handle_uav_request request Scenario.fresh) =
    Ok [("status", JStr "AUTH_FAILURE"); ("reason", JStr "Unknown SUPI/UAV ID")].
Proof. split; vm_compute; reflexivity. Qed.

(** C6. From an empty pool, two [TELEMETRY_TX] requests of a registered
    identity are each answered [TX_RECEIVED] and append no block; the third
    is answered [TX_BLOCK_ACK] and appends exactly one block, whose
    transactions are the three telemetry records in order of arrival, and
    the pool is empty again. *)
Theorem C6_batching
        (w : world) (uav key : string) (r1 r2 r3 : pydict) (s1 s2 s3 : Z) :
  reachable w ->
  transaction_pool (node w) = [] ->
  UAV_DB !! uav = Some key ->
  request_of r1 "TELEMETRY_TX" uav ->
  request_of r2 "TELEMETRY_TX" uav ->
  request_of r3 "TELEMETRY_TX" uav ->
  PyFloat.to_int (clock w (ticks w)) = Some s1 ->
  PyFloat.to_int (clock w (S (ticks w))) = Some s2 ->
  PyFloat.to_int (clock w (S (S (ticks w)))) = Some s3 ->
  exists (a1 a2 a3 block : pydict) (w1 w2 w3 : world),
    handle_uav_request r1 w = (Ok a1, w1) /\
    get "status" a1 = JStr "TX_RECEIVED" /\
    chain (node w1) = chain (node w) /\
    handle_uav_request r2 w1 = (Ok a2, w2) /\
    get "status" a2 = JStr "TX_RECEIVED" /\
    chain (node w2) = chain (node w) /\
    handle_uav_request r3 w2 = (Ok a3, w3) /\
    get "status" a3 = JStr "TX_BLOCK_ACK" /\
    chain (node w3) = (chain (node w) ++ [JDict block])%list /\
    dict_get "transactions" block =
      Some (JList [JDict (telemetry_record uav s1 (get "data" r1));
                   JDict (telemetry_record uav s2 (get "data" r2));
                   JDict (telemetry_record uav s3 (get "data" r3))]) /\
    transaction_pool (node w3) = [].
Proof.
  intros Hr Hpool Hreg H1 H2 H3 Hs1 Hs2 Hs3.
  destruct (reachable_sound w Hr) as [[h Htip] [s Hs]].
  pose proof (telemetry_buffered r1 uav key s1 s w H1 Hreg Hs1 Hs) as Hrun1.
  rewrite Hpool in Hrun1. specialize (Hrun1 ltac:(cbn; lia)). cbn [app] in Hrun1.
  set (w1 := with_pool [telemetry_record uav s1 (get "data" r1)] (tick w)) in *.
  pose proof (telemetry_buffered r2 uav key s2 s w1 H2 Hreg Hs2 Hs) as Hrun2.
  specialize (Hrun2 ltac:(cbn; lia)). cbn [app transaction_pool node w1 with_pool with_node]
    in Hrun2.
  set (w2 := with_pool _ (tick w1)) in *.
  assert (Htip2 : tip w2 h) by (apply (tip_of_chain w); [reflexivity | exact Htip]).
  destruct (telemetry_mined r3 uav key s3 h w2 H3 Hreg Hs3 Htip2 ltac:(cbn; lia))
    as (w3 & Hrun3 & (log & Hc & _ & Hp3 & _) & _).
  do 4 eexists. exists w1, w2, w3.
  split; [exact Hrun1|]. split; [reflexivity|]. split; [reflexivity|].
  split; [exact Hrun2|]. split; [reflexivity|]. split; [reflexivity|].
  split; [exact Hrun3|]. split; [reflexivity|].
  split; [exact Hc|]. split; [reflexivity | exact Hp3].
Qed.

Lemma C6_witness :
  let w := Scenario.authenticated in
  let key := JStr "f51c4e0959891777" in
  let r1 := Scenario.telemetry_tx "UAV_A1" key (Scenario.position 1) in
  let r2 := Scenario.telemetry_tx "UAV_A1" key (Scenario.position 2) in
  let r3 := Scenario.telemetry_tx "UAV_A1" key (Scenario.position 3) in
  exists (a1 a2 a3 block : pydict) (w1 w2 w3 : world),
    handle_uav_request r1 w = (Ok a1, w1) /\
    get "status" a1 = JStr "TX_RECEIVED" /\
    chain (node w1) = chain (node w) /\
    handle_uav_request r2 w1 = (Ok a2, w2) /\
    get "status" a2 = JStr "TX_RECEIVED" /\
    chain (node w2) = chain (node w) /\
    handle_uav_request r3 w2 = (Ok a3, w3) /\
    get "status" a3 = JStr "TX_BLOCK_ACK" /\
    chain (node w3) = (chain (node w) ++ [JDict block])%list /\
    dict_get "transactions" block =
      Some (JList [JDict (telemetry_record "UAV_A1" 1700000006 (get "data" r1));
                   JDict (telemetry_record "UAV_A1" 1700000007 (get "data" r2));
                   JDict (telemetry_record "UAV_A1" 1700000008 (get "data" r3))]) /\
    transaction_pool (node w3) = [].
Proof.
  intros w key r1 r2 r3.
  apply (C6_batching w "UAV_A1" "K_LongTerm_A1" r1 r2 r3
                     1700000006 1700000007 1700000008).
  - exact reachable_authenticated.
  - vm_compute. reflexivity.
  - vm_compute. reflexivity.
  - split; reflexivity.
  - split; reflexivity.
  - split; reflexivity.
  - vm_compute. reflexivity.
  - vm_compute. reflexivity.
  - vm_compute. reflexivity.
Defined.

(** The handler reads a telemetry request through its type, its identity
    and its data only. *)
Lemma telemetry_fields (request request' : pydict) (uav : string) (w : world) :
  request_of request "TELEMETRY_TX" uav ->
  request_of request' "TELEMETRY_TX" uav ->
  get "data" request' = get "data" request ->
  handle_uav_request request' w = handle_uav_request request w.
Proof.
  intros [Ht Hu] [Ht' Hu'] Hd.
  unfold handle_uav_request. rewrite Ht, Hu, Ht', Hu', Hd.
  cbn [eq_str String.eqb Ascii.eqb Bool.eqb]. reflexivity.
Qed.

(** The answer to a telemetry request does not depend on the table of
    pending challenges, the only place where the node keeps the session
    keys it has derived. *)
Lemma telemetry_ignores_pending (request : pydict) (uav key : string) (secs : Z)
      (w : world) (p : gmap string challenge) :
  sound w ->
  request_of request "TELEMETRY_TX" uav ->
  UAV_DB !! uav = Some key ->
  PyFloat.to_int (reading w) = Some secs ->
  fst (handle_uav_request request (with_pending p w)) =
    fst (handle_uav_request request w).
Proof.
  intros [[h Htip] [s Hs]] Hreq Hreg Hsecs.
  assert (Htip' : tip (with_pending p w) h)
    by (apply (tip_of_chain w); [reflexivity | exact Htip]).
  destruct (Nat.lt_ge_cases (List.length (transaction_pool (node w))) 2) as [Hlt|Hge].
  - rewrite (telemetry_buffered request uav key secs s w Hreq Hreg Hsecs Hs Hlt).
    rewrite (telemetry_buffered request uav key secs s (with_pending p w)
               Hreq Hreg Hsecs Hs Hlt).
    reflexivity.
  - destruct (telemetry_mined request uav key secs h w Hreq Hreg Hsecs Htip Hge)
      as (w1 & Hrun1 & _).
    destruct (telemetry_mined request uav key secs h (with_pending p w)
                Hreq Hreg Hsecs Htip' Hge) as (w2 & Hrun2 & _).
    rewrite Hrun1, Hrun2. reflexivity.
Qed.

(** C10. A [TELEMETRY_TX] request that names a registered identity is
    accepted in every state of the node, authenticated or not: its record
    joins the pool (or the block mined from the pool when it is the third)
    and the request is acknowledged.  The outcome is the same for any two
    requests with the same identity and data, whatever their
    ['session_key'] field holds and whether they have one, and the answer is
    the same whatever the table of pending challenges holds. *)
Theorem C10_telemetry_accepted_without_session_check
        (w : world) (uav key : string) (secs : Z) (request request' : pydict)
        (p : gmap string challenge) :
  reachable w ->
  UAV_DB !! uav = Some key ->
  PyFloat.to_int (reading w) = Some secs ->
  request_of request "TELEMETRY_TX" uav ->
  request_of request' "TELEMETRY_TX" uav ->
  get "data" request' = get "data" request ->
  let record := telemetry_record uav secs (get "data" request) in
  let pool := (transaction_pool (node w) ++ [record])%list in
  handle_uav_request request' w = handle_uav_request request w /\
  fst (handle_uav_request request (with_pending p w)) =
    fst (handle_uav_request request w) /\
  exists (answer : pydict) (w' : world),
    handle_uav_request request w = (Ok answer, w') /\
    ((get "status" answer = JStr "TX_RECEIVED" /\
      transaction_pool (node w') = pool /\
      chain (node w') = chain (node w)) \/
     (get "status" answer = JStr "TX_BLOCK_ACK" /\
      exists block : pydict,
        chain (node w') = (chain (node w) ++ [JDict block])%list /\
        dict_get "transactions" block = Some (JList (List.map JDict pool)))).
Proof.
  intros Hr Hreg Hsecs Hreq Hreq' Hd record pool.
  pose proof (reachable_sound w Hr) as Hsound.
  split; [exact (telemetry_fields request request' uav w Hreq Hreq' Hd)|].
  split; [exact (telemetry_ignores_pending request uav key secs w p Hsound Hreq Hreg Hsecs)|].
  destruct Hsound as [[h Htip] [s Hs]].
  destruct (Nat.lt_ge_cases (List.length (transaction_pool (node w))) 2) as [Hlt|Hge].
  - do 2 eexists.
    split; [exact (telemetry_buffered request uav key secs s w Hreq Hreg Hsecs Hs Hlt)|].
    left. repeat split.
  - destruct (telemetry_mined request uav key secs h w Hreq Hreg Hsecs Htip Hge)
      as (w' & Hrun & (log & Hc & _) & _).
    do 2 eexists. split; [exact Hrun|].
    right. split; [reflexivity|]. eexists. split; [exact Hc | reflexivity].
Qed.

Lemma C10_witness :
  let w := Scenario.fresh in
  let request := Scenario.telemetry_tx "UAV_B2" (JStr "not-a-session-key")
                   (Scenario.position 4) in
  let request' := [("type", JStr "TELEMETRY_TX"); ("uav_supi", JStr "UAV_B2");
                   ("data", Scenario.position 4)] in
  let p := {["UAV_B2" := issued_challenge "K_LongTerm_B2" 42 0%float]} in
  let record := telemetry_record "UAV_B2" 1700000001 (get "data" request) in
  let pool := (transaction_pool (node w) ++ [record])%list in
  handle_uav_request request' w = handle_uav_request request w /\
  fst (handle_uav_request request (with_pending p w)) =
    fst (handle_uav_request request w) /\
  exists (answer : pydict) (w' : world),
    handle_uav_request request w = (Ok answer, w') /\
    ((get "status" answer = JStr "TX_RECEIVED" /\
      transaction_pool (node w') = pool /\
      chain (node w') = chain (node w)) \/
     (get "status" answer = JStr "TX_BLOCK_ACK" /\
      exists block : pydict,
        chain (node w') = (chain (node w) ++ [JDict block])%list /\
        dict_get "transactions" block = Some (JList (List.map JDict pool)))).
Proof.
  intros w request request' p.
  apply (C10_telemetry_accepted_without_session_check
           w "UAV_B2" "K_LongTerm_B2" 1700000001 request request' p).
  - exact reachable_fresh.
  - vm_compute. reflexivity.
  - vm_compute. reflexivity.
  - split; reflexivity.
  - split; reflexivity.
  - reflexivity.
Defined.

(** *** Linkage of the blocks the node builds *)

(** Consecutive blocks of the chain: the later one's ['previous_hash'] is
    the earlier one's ['current_hash']. *)
Definition linked (c : list json) : Prop :=
  forall (i : nat) (b b' : json),
    c !! i = Some b -> c !! S i = Some b' ->
    exists d d' h,
      b = JDict d /\ b' = JDict d' /\
      dict_get "current_hash" d = Some (JStr h) /\
      dict_get "previous_hash" d' = Some (JStr h).

Lemma linked_snoc (c : list json) (d d' : pydict) (h : string) :
  linked c ->
  last c = Some (JDict d) ->
  dict_get "current_hash" d = Some (JStr h) ->
  dict_get "previous_hash" d' = Some (JStr h) ->
  linked (c ++ [JDict d']).
Proof.
  intros Hc Hlast Hd Hd' i b b' Hi Hi'.
  apply lookup_app_Some in Hi' as [Hi' | [Hle Hi']].
  - apply lookup_app_Some in Hi as [Hi | [Hle Hi]].
    + exact (Hc i b b' Hi Hi').
    + apply lookup_lt_Some in Hi'. lia.
  - destruct (S i - List.length c)%nat as [|k] eqn:Ek; [|destruct k; discriminate Hi'].
    injection Hi' as <-.
    assert (Hlen : List.length c = S i) by lia.
    rewrite lookup_app_l in Hi by lia.
    rewrite last_lookup, Hlen in Hlast. cbn in Hlast.
    rewrite Hlast in Hi. injection Hi as <-.
    exists d, d', h. repeat split; assumption.
Qed.

(** What the node actually maintains between neighbours. *)
Lemma reachable_linked (w : world) : reachable w -> linked (chain (node w)).
Proof.
  induction 1 as [clk | w request Hr IH].
  - rewrite boot_without_ledger. cbn [snd node chain].
    intros i b b' _ Hi'. discriminate Hi'.
  - pose proof (reachable_sound w Hr) as Hs.
    destruct (transition_chain request w _ (handle_transition request w Hs))
      as [-> | (h & pool & t & (d & Hl & Hd) & (log & Hc & _))]; [exact IH|].
    rewrite Hc. eapply linked_snoc; [exact IH | exact Hl | exact Hd | reflexivity].
Qed.

End NodeFacts.

(** ** The chain verifier *)

Module VerifierFacts.

Import Json Verifier.

(** A block as the verifier needs it: a dict with a ['previous_hash'] and
    a numeric ['timestamp']. *)
Definition block_ok (b : json) : Prop :=
  exists d p t n,
    b = JDict d /\
    dict_get "previous_hash" d = Some p /\
    dict_get "timestamp" d = Some t /\
    as_number t = Some n.

(** The conditions of the specification, on the block at position [i] and
    its predecessor. *)
Definition field (k : string) (b : json) : json :=
  match b with
  | JDict d => get k d
  | _ => JNull
  end.

Definition CanonicalHash (b : json) : string :=
  match b with
  | JDict d => canonical_hash d
  | _ => EmptyString
  end.

(** [chain[i].previous_hash] differs from [CanonicalHash(chain[i-1])]. *)
Definition broken (chain : list json) (i : nat) : bool :=
  negb (eq_str (field "previous_hash" (nth i chain JNull))
               (CanonicalHash (nth (i - 1) chain JNull))).

(** [chain[i].timestamp <= chain[i-1].timestamp]. *)
Definition stale (chain : list json) (i : nat) : bool :=
  match Json.le (field "timestamp" (nth i chain JNull))
                (field "timestamp" (nth (i - 1) chain JNull)) with
  | Some true => true
  | _ => false
  end.

Definition offends (chain : list json) (i : nat) : bool :=
  broken chain i || stale chain i.

(** The genesis block's previous hash differs from the sentinel. *)
Definition genesis_bad (chain : list json) : bool :=
  negb (eq_str (field "previous_hash" (nth 0 chain JNull)) "0").

Definition header (path : string) : console :=
  Print (newline ++ "--- Verifying EPOH Ledger: " ++ path ++ " ---").

Definition linkage_report (chain : list json) (i : nat) : list console :=
  [Print ("FAILED AT BLOCK #" ++ num i ++ ": Corrupted Linkage Detected.");
   PrintValue ("  Expected Hash of #" ++ num (i - 1) ++ ": ")
              (field "previous_hash" (nth i chain JNull));
   Print ("  Actual Recalculated Hash: " ++ CanonicalHash (nth (i - 1) chain JNull))].

Definition integrity_failure (i : nat) : verdict :=
  (false, "Integrity Failure: Block #" ++ num i ++
          " links to tampered block #" ++ num (i - 1) ++ ".").

Definition chronology_failure (i : nat) : verdict :=
  (false, "PoH Chronology Failure: Block #" ++ num i ++
          " timestamp is not strictly greater than block #" ++ num (i - 1) ++ ".").

Lemma block_ok_at (chain : list json) (i : nat) :
  Forall block_ok chain ->
  (i < List.length chain)%nat ->
  nth_error chain i = Some (nth i chain JNull) /\ block_ok (nth i chain JNull).
Proof.
  intros Hall Hi. split.
  - apply nth_error_nth'. exact Hi.
  - rewrite List.Forall_forall in Hall. apply Hall. apply nth_In. exact Hi.
Qed.

(** One iteration of the loop on well-formed blocks. *)
Lemma check_block_ok (chain : list json) (i : nat) :
  Forall block_ok chain ->
  (1 <= i < List.length chain)%nat ->
  check_block chain i =
    if broken chain i then (linkage_report chain i, Ok (Some (integrity_failure i)))
    else if stale chain i then ([], Ok (Some (chronology_failure i)))
    else ([], Ok None).
Proof.
  intros Hall [Hlo Hhi].
  destruct (block_ok_at chain i Hall Hhi) as [Hc (dc & pc & tc & nc & Ec & Hpc & Htc & Hnc)].
  destruct (block_ok_at chain (i - 1) Hall ltac:(lia))
    as [Hp (dp & pp & tp & np & Ep & Hpp & Htp & Hnp)].
  unfold check_block, broken, stale, linkage_report.
  rewrite Hc, Hp, Ec, Ep.
  cbn [hash_block subscript field CanonicalHash]. unfold get.
  rewrite Hpc, Htc, Htp.
  destruct (negb (eq_str pc (canonical_hash dp))); [reflexivity|].
  unfold le.
  destruct (Json.le tc tp) as [[|]|] eqn:Ele; try reflexivity.
  exfalso.
  destruct tc; try discriminate Hnc; destruct tp; try discriminate Hnp;
    cbn in Ele; discriminate Ele.
Qed.

(** The loop returns at the first index that offends. *)
Lemma check_from_ok (chain : list json) (idxs : list nat) :
  Forall block_ok chain ->
  (forall i, In i idxs -> (1 <= i < List.length chain)%nat) ->
  check_from chain idxs =
    match List.find (offends chain) idxs with
    | None => ([], Ok (true, "Chain is fully valid."))
    | Some i =>
        if broken chain i then (linkage_report chain i, Ok (integrity_failure i))
        else ([], Ok (chronology_failure i))
    end.
Proof.
  intros Hall. induction idxs as [|i rest IH]; intros Hin; [reflexivity|].
  cbn [check_from List.find].
  rewrite (check_block_ok chain i Hall (Hin i (or_introl eq_refl))).
  unfold offends at 1.
  destruct (broken chain i) eqn:Eb; [cbn [orb]; rewrite Eb; reflexivity|].
  destruct (stale chain i) eqn:Es; [cbn [orb]; rewrite Eb; reflexivity|].
  cbn [orb]. rewrite IH by (intros j Hj; apply Hin; right; exact Hj).
  destruct (List.find _ rest) as [j|]; [|reflexivity].
  destruct (broken chain j); reflexivity.
Qed.

(** [find] on a range returns its least element that satisfies the test. *)
Lemma find_seq_least (f : nat -> bool) (n a i : nat) :
  List.find f (seq a n) = Some i <->
  (a <= i < a + n)%nat /\ f i = true /\ (forall j, (a <= j < i)%nat -> f j = false).
Proof.
  revert a. induction n as [|n IH]; intros a; cbn [seq List.find].
  - split; [discriminate | intros [H _]; lia].
  - destruct (f a) eqn:Ea.
    + split.
      * intros [= <-]. repeat split; [lia | lia | exact Ea | intros j Hj; lia].
      * intros (Hr & Hi & Hleast).
        destruct (Nat.eq_dec a i) as [->|Hne]; [reflexivity|].
        rewrite (Hleast a) in Ea by lia. discriminate Ea.
    + rewrite IH. split.
      * intros (Hr & Hi & Hleast). repeat split; [lia | lia | exact Hi |].
        intros j Hj. destruct (Nat.eq_dec j a) as [->|Hne]; [exact Ea|].
        apply Hleast. lia.
      * intros (Hr & Hi & Hleast).
        assert (a <> i) by (intros ->; rewrite Hi in Ea; discriminate Ea).
        repeat split; [lia | lia | exact Hi | intros j Hj; apply Hleast; lia].
Qed.

Lemma find_seq_none (f : nat -> bool) (n a : nat) :
  List.find f (seq a n) = None <-> (forall i, (a <= i < a + n)%nat -> f i = false).
Proof.
  revert a. induction n as [|n IH]; intros a; cbn [seq List.find].
  - split; [intros _ i Hi; lia | reflexivity].
  - destruct (f a) eqn:Ea.
    + split; [discriminate|]. intros H. rewrite (H a) in Ea by lia. discriminate Ea.
    + rewrite IH. split.
      * intros H i Hi. destruct (Nat.eq_dec i a) as [->|Hne]; [exact Ea|].
        apply H. lia.
      * intros H i Hi. apply H. lia.
Qed.

(** [is_valid_chain] on a ledger that holds a list of well-formed blocks. *)
Lemma is_valid_chain_ok (path : string) (chain : list json) :
  Forall block_ok chain ->
  is_valid_chain path (Stored (JList chain)) =
    match chain with
    | [] => ([header path], Ok (false, "Chain is empty."))
    | _ :: _ =>
        if genesis_bad chain then
          ([header path],
           Ok (false, "Genesis Block (Index 0) has an invalid previous_hash."))
        else
          match List.find (offends chain) (seq 1 (List.length chain - 1)) with
          | None => ([header path], Ok (true, "Chain is fully valid."))
          | Some i =>
              if broken chain i
              then (header path :: linkage_report chain i, Ok (integrity_failure i))
              else ([header path], Ok (chronology_failure i))
          end
    end.
Proof.
  intros Hall. destruct chain as [|first rest]; [reflexivity|].
  unfold is_valid_chain. cbn [truthy negb].
  pose proof (proj2 (block_ok_at (first :: rest) 0 Hall ltac:(cbn; lia)))
    as (d & p & t & n & Ed & Hp & Ht & Hn).
  cbn [nth] in Ed. subst first.
  unfold genesis_bad. cbn [nth field subscript]. unfold get. rewrite Hp.
  destruct (negb (eq_str p "0")); [reflexivity|].
  rewrite check_from_ok.
  - replace (List.length (JDict d :: rest) - 1)%nat with (List.length rest)
      by (cbn [List.length]; lia).
    destruct (List.find _ _) as [i|]; [|reflexivity].
    destruct (broken _ i); reflexivity.
  - exact Hall.
  - intros i Hi. apply in_seq in Hi. cbn [List.length]. lia.
Qed.

(** The same condition on blocks, as a test. *)
Definition well_formed (b : json) : bool :=
  match b with
  | JDict d =>
      match dict_get "previous_hash" d, dict_get "timestamp" d with
      | Some _, Some t =>
          match as_number t with
          | Some _ => true
          | None => false
          end
      | _, _ => false
      end
  | _ => false
  end.

Lemma well_formed_ok (chain : list json) :
  forallb well_formed chain = true -> Forall block_ok chain.
Proof.
  intros H. apply List.Forall_forall. intros b Hb.
  rewrite forallb_forall in H. specialize (H b Hb).
  unfold well_formed in H. destruct b as [| | | | | |d]; try discriminate H.
  destruct (dict_get "previous_hash" d) as [p|] eqn:Ep; [|discriminate H].
  destruct (dict_get "timestamp" d) as [t|] eqn:Et; [|discriminate H].
  destruct (as_number t) as [n|] eqn:En; [|discriminate H].
  exists d, p, t, n. repeat split; assumption.
Qed.

(** C7. On a ledger that holds a list of blocks, each a dict with a
    ['previous_hash'] and a numeric ['timestamp'], [is_valid_chain] returns
    a verdict, and the verdict is a failure exactly when the chain is
    empty, or the first block's previous hash is not ['0'], or at some
    index [i >= 1] the previous hash differs from [hash_block] of block
    [i-1] or the timestamp is not greater than that of block [i-1].  It
    stops at the first such index: a broken link is reported with the
    index and, on the console, the expected and the recalculated hash; a
    timestamp failure with the index.  A pass is [(True, 'Chain is fully
    valid.')] with nothing more printed. *)
Theorem C7_verify_fails_exactly_when (path : string) (chain : list json) :
  forallb well_formed chain = true ->
  exists (out : list console) (v : verdict),
    is_valid_chain path (Stored (JList chain)) = (header path :: out, Ok v) /\
    (fst v = false <->
       chain = [] \/ genesis_bad chain = true \/
       exists i, (1 <= i < List.length chain)%nat /\
                 (broken chain i = true \/ stale chain i = true)) /\
    (fst v = true -> v = (true, "Chain is fully valid.") /\ out = []) /\
    (chain = [] -> v = (false, "Chain is empty.") /\ out = []) /\
    (chain <> [] -> genesis_bad chain = true ->
     v = (false, "Genesis Block (Index 0) has an invalid previous_hash.") /\ out = []) /\
    (chain <> [] -> genesis_bad chain = false ->
     forall i,
       (1 <= i < List.length chain)%nat ->
       offends chain i = true ->
       (forall j, (1 <= j < i)%nat -> offends chain j = false) ->
       if broken chain i
       then v = integrity_failure i /\ out = linkage_report chain i
       else v = chronology_failure i /\ out = []).
Proof.
  intros Hwf. rewrite (is_valid_chain_ok path chain (well_formed_ok chain Hwf)).
  destruct chain as [|first rest].
  { do 2 eexists. split; [reflexivity|]. cbn [fst].
    split; [split; auto|]. split; [discriminate|]. split; [auto|].
    split; intros H; contradiction. }
  set (chain := first :: rest) in *.
  assert (Hlen : (List.length chain - 1)%nat = List.length rest)
    by (cbn [chain List.length]; lia).
  destruct (genesis_bad chain) eqn:Eg.
  { do 2 eexists. split; [reflexivity|]. cbn [fst].
    split; [split; auto|]. split; [discriminate|]. split; [discriminate|].
    split; [auto | discriminate]. }
  destruct (List.find (offends chain) (seq 1 (List.length chain - 1))) as [i|] eqn:Ef.
  - apply find_seq_least in Ef as (Hr & Hi & Hleast).
    assert (Hfirst : forall k, (1 <= k < List.length chain)%nat ->
                               offends chain k = true ->
                               (forall j, (1 <= j < k)%nat -> offends chain j = false) ->
                               k = i).
    { intros k Hk Hok Hkl.
      destruct (Nat.lt_trichotomy k i) as [Hlt | [Heq | Hgt]]; [|exact Heq|].
      - rewrite (Hleast k) in Hok by lia. discriminate Hok.
      - rewrite (Hkl i) in Hi by lia. discriminate Hi. }
    destruct (broken chain i) eqn:Eb.
    + do 2 eexists. split; [reflexivity|]. cbn [fst integrity_failure].
      split.
      { split; [|reflexivity]. intros _. right. right. exists i. split; [lia | auto]. }
      split; [discriminate|]. split; [discriminate|]. split; [discriminate|].
      intros _ _ k Hk Hok Hkl. rewrite (Hfirst k Hk Hok Hkl), Eb. split; reflexivity.
    + do 2 eexists. split; [reflexivity|]. cbn [fst chronology_failure].
      split.
      { split; [|reflexivity]. intros _. right. right. exists i. split; [lia|].
        right. unfold offends in Hi. rewrite Eb in Hi. exact Hi. }
      split; [discriminate|]. split; [discriminate|]. split; [discriminate|].
      intros _ _ k Hk Hok Hkl. rewrite (Hfirst k Hk Hok Hkl), Eb. split; reflexivity.
  - pose proof (proj1 (find_seq_none _ _ _) Ef) as Hnone.
    do 2 eexists. split; [reflexivity|]. cbn [fst].
    split.
    { split; [discriminate|].
      intros [Hnil | [Hg | (i & Hi & Ho)]]; [discriminate Hnil | discriminate Hg |].
      assert (Hoff : offends chain i = false) by (apply Hnone; lia).
      unfold offends in Hoff. apply orb_false_elim in Hoff as [Hb Hs].
      destruct Ho as [Ho | Ho]; congruence. }
    split; [auto|]. split; [discriminate|]. split; [discriminate|].
    intros _ _ k Hk Hok _. rewrite (Hnone k) in Hok by lia. discriminate Hok.
Qed.

End VerifierFacts.

(** ** The node's ledger under the verifier *)

Module LedgerFacts.

Import Json Leader Verifier VerifierFacts.

Lemma C7_witness :
  let chain := chain (node Scenario.authenticated) in
  forallb well_formed chain = true /\
  exists (out : list console) (v : verdict),
    is_valid_chain "/srv/epoh_ledger.json" (Stored (JList chain)) =
      (header "/srv/epoh_ledger.json" :: out, Ok v) /\
    (fst v = false <->
       chain = [] \/ genesis_bad chain = true \/
       exists i, (1 <= i < List.length chain)%nat /\
                 (broken chain i = true \/ stale chain i = true)) /\
    (fst v = true -> v = (true, "Chain is fully valid.") /\ out = []) /\
    (chain = [] -> v = (false, "Chain is empty.") /\ out = []) /\
    (chain <> [] -> genesis_bad chain = true ->
     v = (false, "Genesis Block (Index 0) has an invalid previous_hash.") /\ out = []) /\
    (chain <> [] -> genesis_bad chain = false ->
     forall i,
       (1 <= i < List.length chain)%nat ->
       offends chain i = true ->
       (forall j, (1 <= j < i)%nat -> offends chain j = false) ->
       if broken chain i
       then v = integrity_failure i /\ out = linkage_report chain i
       else v = chronology_failure i /\ out = []).
Proof.
  intros chain. split.
  - vm_compute. reflexivity.
  - apply (C7_verify_fails_exactly_when "/srv/epoh_ledger.json" chain).
    vm_compute. reflexivity.
Defined.

(** C1 fails on the code. The node started without a ledger, after one
    successful authentication, holds two blocks; block 1 carries as
    previous hash the ['current_hash'] of the genesis block, which is the
    engine digest and not [hash_block] of the genesis block, and
    [is_valid_chain] on the ledger the node has just written reports an
    integrity failure at block 1. *)
Theorem C1_honest_ledger_fails_verification :
  let w := Scenario.authenticated in
  NodeFacts.reachable w /\
  ledger w = Stored (JList (chain (node w))) /\
  List.length (chain (node w)) = 2%nat /\
  Scenario.block_field (chain (node w)) 1 "previous_hash" =
    Scenario.block_field (chain (node w)) 0 "current_hash" /\
  Scenario.block_field (chain (node w)) 1 "previous_hash" =
    Some (JStr "60e05bd1b195af2f94112fa7197a5c88289058840ce7c6df9693756bc6250f55") /\
  hash_block (nth 0 (chain (node w)) JNull) =
    Ok "15b8cce9aafd72e02b1141d8753f487ac384f334526e807916b85d1d23ec5eeb" /\
  is_valid_chain "/srv/epoh_ledger.json" (ledger w) =
    ([header "/srv/epoh_ledger.json";
      Print "FAILED AT BLOCK #1: Corrupted Linkage Detected.";
      PrintValue "  Expected Hash of #0: "
        (JStr "60e05bd1b195af2f94112fa7197a5c88289058840ce7c6df9693756bc6250f55");
      Print ("  Actual Recalculated Hash: " ++
             "15b8cce9aafd72e02b1141d8753f487ac384f334526e807916b85d1d23ec5eeb")],
     Ok (false, "Integrity Failure: Block #1 links to tampered block #0.")).
Proof.
  intros w. split; [exact NodeFacts.reachable_authenticated|].
  vm_compute. repeat split.
Qed.

End LedgerFacts.


(** * The rest of the leader node and its peers *)

(** ** The accept loop of [start_leader_node] *)

Module Server.

Import Json Leader.

(** A non-empty chunk returned by [conn.recv(4096)], as
    [json.loads(data.decode('utf-8'))] finds it: not decodable, or a
    document.  An empty chunk ends the list. *)
Inductive received : Type :=
| Garbled
| Document (v : json).

(** [request.get]: only a dict has the method. *)
Definition as_request (v : json) : M pydict :=
  match v with
  | JDict d => ret d
  | _ => raise AttributeError
  end.

(** One pass of the inner [while True] body for a decoded chunk. *)
Definition answer (v : json) : M pydict :=
  let* request := as_request v in
  handle_uav_request request.

(** One connection: the inner loop under [except Exception: pass].  The
    result lists the responses handed to [conn.sendall]; an exception ends
    the connection and is swallowed.  Failures of the socket itself are
    outside the model. *)
Fixpoint serve_connection (chunks : list received) (w : world)
  : list pydict * world :=
  match chunks with
  | [] => ([], w)
  | Garbled :: _ => ([], w)
  | Document v :: rest =>
      match answer v w with
      | (Ok response, w') =>
          let '(sent, w'') := serve_connection rest w' in
          (response :: sent, w'')
      | (Raise _, w') => ([], w')
      end
  end.

(** The outer loop over the connections accepted so far. *)
Fixpoint accept_loop (connections : list (list received)) (w : world)
  : list (list pydict) * world :=
  match connections with
  | [] => ([], w)
  | chunks :: rest =>
      let '(sent, w') := serve_connection chunks w in
      let '(more, w'') := accept_loop rest w' in
      (sent :: more, w'')
  end.

(** [start_leader_node()]: the constructor, whose exception is not caught,
    then the loop. *)
Definition start_leader_node (f : ledger_file) (clk : nat -> float)
           (connections : list (list received))
  : outcome (list (list pydict)) * world :=
  match boot f clk with
  | (Ok _, w) =>
      let '(sent, w') := accept_loop connections w in (Ok sent, w')
  | (Raise e, w) => (Raise e, w)
  end.

(** The script: [os.remove(LEDGER_FILE)] when it exists, then the server. *)
Definition main (f : ledger_file) (clk : nat -> float)
           (connections : list (list received))
  : outcome (list (list pydict)) * world :=
  start_leader_node NoFile clk connections.

End Server.

(** ** The UAV's side of the handshake: [UAV_Client.py] *)

Module Client.

Definition UAV_SUPI : string := "UAV_A1".
Definition LONG_TERM_KEY : string := "K_LongTerm_A1".

Definition calculate_session_key_simulated (long_term_key : string) (rand : Z) : string :=
  Py.prefix 16 (SHA256.hex_of_str (long_term_key ++ Py.str_of_int rand)).

Definition calculate_res_star_simulated (long_term_key : string) (rand : Z) : string :=
  Py.prefix 10 (SHA256.hex_of_str (long_term_key ++ Py.str_of_int rand ++ "Expected")).

(** The two messages of [run_uav_client], the second for the challenge
    [rand] read from the first response. *)
Definition auth_request_1 : Json.pydict :=
  [("type", Json.JStr "AUTH_REQUEST_1"); ("uav_supi", Json.JStr UAV_SUPI)].

Definition auth_response_2 (rand : Z) : Json.pydict :=
  [("type", Json.JStr "AUTH_RESPONSE_2"); ("uav_supi", Json.JStr UAV_SUPI);
   ("res_star", Json.JStr (calculate_res_star_simulated LONG_TERM_KEY rand))].

(** A telemetry message as the flight loop builds it. *)
Definition telemetry_tx (session_key : string) (telemetry_data : Json.json) : Json.pydict :=
  [("type", Json.JStr "TELEMETRY_TX"); ("uav_supi", Json.JStr UAV_SUPI);
   ("session_key", Json.JStr session_key); ("data", telemetry_data)].

End Client.

(** ** Invariants of the running node *)

Module RunFacts.

Import Json Leader EngineFacts NodeFacts.

Ltac cases_of Ht :=
  destruct Ht as [E | E | uav key r Hreq Hreg E
                  | uav key c secs h Hreq Hreg Hpend Hmatch Htip Hmined Hdel
                  | uav key secs Hreq Hreg Hlen E
                  | uav key secs h Hreq Hreg Hlen Htip Hmined Hsame].

Lemma step_transition (w : world) (request : pydict) :
  reachable w -> transition request w (snd (handle_uav_request request w)).
Proof. intros Hr. apply handle_transition, reachable_sound, Hr. Qed.

Lemma reachable_persisted (w : world) :
  reachable w -> ledger w = Stored (JList (chain (node w))).
Proof.
  induction 1 as [clk | w request Hr IH].
  - rewrite boot_without_ledger. reflexivity.
  - pose proof (step_transition w request Hr) as Ht. cases_of Ht.
    + rewrite E. exact IH.
    + rewrite E. exact IH.
    + rewrite E. exact IH.
    + destruct Hmined as (log & _ & _ & _ & Hl & _). exact Hl.
    + rewrite E. exact IH.
    + destruct Hmined as (log & _ & _ & _ & Hl & _). exact Hl.
Qed.

(** X1. The ledger file always holds exactly the chain the node has in
    memory, which is never empty: every append is followed by a save. *)
Theorem ledger_mirrors_chain (w : world) :
  reachable w ->
  ledger w = Stored (JList (chain (node w))) /\ chain (node w) <> [].
Proof.
  intros Hr. split; [exact (reachable_persisted w Hr)|].
  apply sound_chain_nonempty, reachable_sound, Hr.
Qed.

Lemma ledger_mirrors_chain_witness :
  reachable Scenario.buffering /\
  (ledger Scenario.buffering = Stored (JList (chain (node Scenario.buffering))) /\
   chain (node Scenario.buffering) <> []).
Proof.
  split; [exact reachable_buffering|].
  apply (ledger_mirrors_chain Scenario.buffering). exact reachable_buffering.
Defined.

(** The engine digest is the ['current_hash'] of the last block. *)
Definition engine_at_tip (w : world) : Prop :=
  exists h, tip w h /\ engine_hash w = JStr h.

Lemma reachable_engine_at_tip (w : world) : reachable w -> engine_at_tip w.
Proof.
  induction 1 as [clk | w request Hr IH].
  - rewrite boot_without_ledger. eexists. split; [|reflexivity].
    eexists. split; reflexivity.
  - pose proof (step_transition w request Hr) as Ht.
    destruct IH as (h0 & Ht0 & He0). cases_of Ht.
    + rewrite E. exists h0. auto.
    + rewrite E. exists h0. auto.
    + rewrite E. exists h0. auto.
    + destruct Hmined as (log & Hc & _ & _ & _ & _ & _ & Hh & _).
      eexists. split; [|exact Hh]. unfold tip. rewrite Hc, last_snoc.
      eexists. split; reflexivity.
    + rewrite E. exists h0. auto.
    + destruct Hmined as (log & Hc & _ & _ & _ & _ & _ & Hh & _).
      eexists. split; [|exact Hh]. unfold tip. rewrite Hc, last_snoc.
      eexists. split; reflexivity.
Qed.

(** X2. Between blocks the engine rests on the hash of the last block, so
    the ['hash_seed'] of a [TX_RECEIVED] answer is the first ten characters
    of the last block's ['current_hash']. *)
Theorem hash_seed_is_tip_prefix
        (w : world) (request : pydict) (uav key : string) (secs : Z) :
  reachable w ->
  request_of request "TELEMETRY_TX" uav ->
  UAV_DB !! uav = Some key ->
  PyFloat.to_int (reading w) = Some secs ->
  (List.length (transaction_pool (node w)) < 2)%nat ->
  exists (block : pydict) (h : string),
    last (chain (node w)) = Some (JDict block) /\
    dict_get "current_hash" block = Some (JStr h) /\
    latest_hash (epoh (node w)) = JStr h /\
    fst (handle_uav_request request w) =
      Ok [("status", JStr "TX_RECEIVED"); ("hash_seed", JStr (Py.prefix 10 h))].
Proof.
  intros Hr Hreq Hreg Hsecs Hlen.
  destruct (reachable_engine_at_tip w Hr) as (h & (b & Hl & Hb) & He).
  exists b, h. split; [exact Hl|]. split; [exact Hb|]. split; [exact He|].
  rewrite (telemetry_buffered request uav key secs h w Hreq Hreg Hsecs He Hlen).
  reflexivity.
Qed.

Lemma hash_seed_is_tip_prefix_witness :
  let w := Scenario.buffering in
  let request := Client.telemetry_tx "f51c4e0959891777" (Scenario.position 2) in
  exists (block : pydict) (h : string),
    last (chain (node w)) = Some (JDict block) /\
    dict_get "current_hash" block = Some (JStr h) /\
    latest_hash (epoh (node w)) = JStr h /\
    fst (handle_uav_request request w) =
      Ok [("status", JStr "TX_RECEIVED"); ("hash_seed", JStr (Py.prefix 10 h))].
Proof.
  intros w request.
  apply (hash_seed_is_tip_prefix w request "UAV_A1" "K_LongTerm_A1" 1700000007).
  - exact reachable_buffering.
  - split; reflexivity.
  - vm_compute. reflexivity.
  - vm_compute. reflexivity.
  - vm_compute. lia.
Defined.

(** A record of the pool: telemetry of a registered identity. *)
Definition telemetry_of_registered (tx : pydict) : Prop :=
  exists uav key secs data,
    UAV_DB !! uav = Some key /\ tx = telemetry_record uav secs data.

(** X3. The pool never holds more than two records, and what waits in it
    is telemetry of registered identities only: an authentication record
    is mined by the request that creates it, never left waiting. *)
Theorem pool_waits_for_third_record (w : world) :
  reachable w ->
  (List.length (transaction_pool (node w)) <= 2)%nat /\
  Forall telemetry_of_registered (transaction_pool (node w)).
Proof.
  induction 1 as [clk | w request Hr IH].
  - rewrite boot_without_ledger. cbn. split; [lia | constructor].
  - pose proof (step_transition w request Hr) as Ht.
    destruct IH as [IHl IHf]. cases_of Ht.
    + rewrite E. auto.
    + rewrite E. auto.
    + rewrite E. auto.
    + destruct Hmined as (log & _ & _ & Hp & _). rewrite Hp. cbn. split; [lia | constructor].
    + rewrite E. cbn. split.
      * rewrite length_app. cbn. lia.
      * apply Forall_app. split; [exact IHf|]. constructor; [|constructor].
        exists uav, key, secs, (get "data" request). auto.
    + destruct Hmined as (log & _ & _ & Hp & _). rewrite Hp. cbn. split; [lia | constructor].
Qed.

Lemma pool_waits_for_third_record_witness :
  reachable Scenario.buffering /\
  ((List.length (transaction_pool (node Scenario.buffering)) <= 2)%nat /\
   Forall telemetry_of_registered (transaction_pool (node Scenario.buffering))).
Proof.
  split; [exact reachable_buffering|].
  apply (pool_waits_for_third_record Scenario.buffering). exact reachable_buffering.
Defined.

(** X4. In every chain the node builds, each block's ['previous_hash'] is
    the ['current_hash'] of the block before it, both strings. *)
Theorem blocks_link_by_current_hash (w : world) (i : nat) (b b' : json) :
  reachable w ->
  chain (node w) !! i = Some b ->
  chain (node w) !! S i = Some b' ->
  exists (d d' : pydict) (h : string),
    b = JDict d /\ b' = JDict d' /\
    dict_get "current_hash" d = Some (JStr h) /\
    dict_get "previous_hash" d' = Some (JStr h).
Proof. intros Hr. exact (reachable_linked w Hr i b b'). Qed.

Lemma blocks_link_by_current_hash_witness :
  let w := Scenario.authenticated in
  exists (b b' : json),
    chain (node w) !! 0%nat = Some b /\ chain (node w) !! 1%nat = Some b' /\
    exists (d d' : pydict) (h : string),
      b = JDict d /\ b' = JDict d' /\
      dict_get "current_hash" d = Some (JStr h) /\
      dict_get "previous_hash" d' = Some (JStr h).
Proof.
  intros w.
  destruct (chain (node w) !! 0%nat) as [b|] eqn:E0; [|vm_compute in E0; discriminate E0].
  destruct (chain (node w) !! 1%nat) as [b'|] eqn:E1; [|vm_compute in E1; discriminate E1].
  exists b, b'. split; [reflexivity|]. split; [reflexivity|].
  apply (blocks_link_by_current_hash w 0 b b'); [exact reachable_authenticated | exact E0 | exact E1].
Defined.

(** *** The accept loop *)

Lemma transition_prefix (request : pydict) (w w' : world) :
  transition request w w' -> chain (node w) `prefix_of` chain (node w').
Proof.
  intros Ht. destruct (transition_chain request w w' Ht)
    as [-> | (h & pool & t & _ & (log & Hc & _))].
  - reflexivity.
  - rewrite Hc. apply prefix_app_r. reflexivity.
Qed.

Lemma answer_step (v : json) (w : world) :
  reachable w ->
  reachable (snd (Server.answer v w)) /\
  chain (node w) `prefix_of` chain (node (snd (Server.answer v w))).
Proof.
  intros Hr. unfold Server.answer, bind, Server.as_request.
  destruct v as [| b | z | x | s | l | d]; try (split; [exact Hr | reflexivity]).
  unfold ret. split.
  - apply reach_step. exact Hr.
  - apply (transition_prefix d). apply step_transition. exact Hr.
Qed.

Lemma serve_connection_step (chunks : list Server.received) :
  forall w : world,
    reachable w ->
    reachable (snd (Server.serve_connection chunks w)) /\
    chain (node w) `prefix_of` chain (node (snd (Server.serve_connection chunks w))).
Proof.
  induction chunks as [|c rest IH]; intros w Hr; cbn [Server.serve_connection].
  - split; [exact Hr | reflexivity].
  - destruct c as [|v]; [split; [exact Hr | reflexivity]|].
    destruct (answer_step v w Hr) as [Hr' Hp'].
    destruct (Server.answer v w) as [[response|e] w'] eqn:Ea; cbn [snd] in Hr', Hp'.
    + destruct (IH w' Hr') as [Hr'' Hp''].
      destruct (Server.serve_connection rest w') as [sent w'']. cbn [snd] in *.
      split; [exact Hr'' | etrans; eassumption].
    + split; assumption.
Qed.

(** X5. Whatever arrives on whatever connections (undecodable bytes,
    documents that are not objects, requests that raise), the node the loop
    is left with is a state of the running node, so every invariant of the
    node holds on; and the chain it had is a prefix of the chain it has:
    blocks are only ever appended. *)
Theorem accept_loop_only_appends (connections : list (list Server.received)) :
  forall w : world,
    reachable w ->
    reachable (snd (Server.accept_loop connections w)) /\
    chain (node w) `prefix_of` chain (node (snd (Server.accept_loop connections w))).
Proof.
  induction connections as [|chunks rest IH]; intros w Hr; cbn [Server.accept_loop].
  - split; [exact Hr | reflexivity].
  - destruct (serve_connection_step chunks w Hr) as [Hr' Hp'].
    destruct (Server.serve_connection chunks w) as [sent w']. cbn [snd] in Hr', Hp'.
    destruct (IH w' Hr') as [Hr'' Hp''].
    destruct (Server.accept_loop rest w') as [more w'']. cbn [snd] in *.
    split; [exact Hr'' | etrans; eassumption].
Qed.

Lemma accept_loop_only_appends_witness :
  let connections :=
    [[Server.Document (JDict Client.auth_request_1); Server.Garbled;
      Server.Document (JDict (Client.auth_response_2 1700000001500))];
     [Server.Document (JList []);
      Server.Document (JDict (Client.auth_response_2 1700000001500))];
     [Server.Document (JDict (Client.auth_response_2 1700000001500))]] in
  reachable Scenario.fresh /\
  (reachable (snd (Server.accept_loop connections Scenario.fresh)) /\
   chain (node Scenario.fresh) `prefix_of`
     chain (node (snd (Server.accept_loop connections Scenario.fresh)))).
Proof.
  intros connections. split; [exact reachable_fresh|].
  apply (accept_loop_only_appends connections Scenario.fresh). exact reachable_fresh.
Defined.

(** A chunk that ends its connection in any state: undecodable bytes, a
    document that is not an object, or an object whose identity is a list
    or an object. *)
Definition malformed (c : Server.received) : bool :=
  match c with
  | Server.Garbled => true
  | Server.Document (JDict d) =>
      match get "uav_supi" d with
      | JList _ | JDict _ => true
      | _ => false
      end
  | Server.Document _ => true
  end.

(** X6. A malformed chunk is answered with nothing at all and ends the
    connection: the chunks that follow it on that connection are never
    handled, the node is as the chunks before it left it, and no [ERROR]
    response is sent. *)
Theorem malformed_chunk_ends_connection
        (before after : list Server.received) (bad : Server.received) (w : world) :
  malformed bad = true ->
  Server.serve_connection (before ++ bad :: after) w = Server.serve_connection before w.
Proof.
  intros Hbad. revert w. induction before as [|c rest IH]; intros w.
  - cbn [app Server.serve_connection].
    destruct bad as [|v]; [reflexivity|].
    destruct v as [| b | z | x | s | l | d]; try reflexivity.
    unfold Server.answer, bind, Server.as_request, ret, handle_uav_request, bind, lookup_key.
    cbn [malformed] in Hbad.
    destruct (get "uav_supi" d); try discriminate Hbad; reflexivity.
  - cbn [app Server.serve_connection].
    destruct c as [|v]; [reflexivity|].
    destruct (Server.answer v w) as [[response|e] w']; [|reflexivity].
    rewrite IH. reflexivity.
Qed.

Lemma malformed_chunk_ends_connection_witness :
  let before := [Server.Document (JDict Client.auth_request_1)] in
  let after := [Server.Document (JDict (Client.auth_response_2 1700000001500))] in
  let bad := Server.Document (JDict [("type", JStr "TELEMETRY_TX");
                                    ("uav_supi", JList [JStr "UAV_A1"])]) in
  malformed bad = true /\
  Server.serve_connection (before ++ bad :: after) Scenario.fresh =
    Server.serve_connection before Scenario.fresh.
Proof.
  intros before after bad. split; [reflexivity|].
  apply (malformed_chunk_ends_connection before after bad Scenario.fresh). reflexivity.
Defined.

(** *** Starting from a ledger file *)

(** The node that [LeaderNode()] builds from a stored list whose last
    element has a ['current_hash']: the list as it is, and the engine set
    to that value.  Nothing is checked and nothing is written. *)
Definition adopted (items : list json) (h : json) (clk : nat -> float) : world :=
  {| node := {| chain := items;
                transaction_pool := [];
                pending_auth_challenges := ∅;
                epoh := {| difficulty := 2; latest_hash := h;
                           sequence_count := 0; epoh_chain := [] |} |};
     ledger := Stored (JList items);
     clock := clk;
     ticks := 0 |}.

Lemma boot_adopts (items : list json) (b : pydict) (h : json) (clk : nat -> float) :
  last items = Some (JDict b) ->
  dict_get "current_hash" b = Some h ->
  boot (Stored (JList items)) clk = (Ok tt, adopted items h clk).
Proof.
  intros Hl Hb.
  unfold boot, init. unfold bind at 1, set_node at 1, modify at 1.
  unfold bind at 1, load_chain, except_index.
  unfold bind at 1, gets at 1. cbn [ledger with_node].
  unfold bind at 1, adopt. unfold bind at 1, set_chain at 1, modify at 1.
  unfold last_current_hash, bind at 1, gets at 1.
  cbn [node chain with_chain with_node]. rewrite Hl, Hb.
  unfold ret at 1, set_latest_hash, modify.
  unfold bind at 1, gets at 1.
  cbn [node chain with_latest_hash with_epoh with_chain with_node].
  destruct items as [|x rest]; [discriminate Hl|]. reflexivity.
Qed.

(** X7. Restarting on the ledger the node has written (the constructor
    alone, without the script's [os.remove]) restores the chain block for
    block and resumes the engine at the hash of the last block; the pool
    and the pending challenges of the old process are gone, the file is
    left as it is and the clock is not read. *)
Theorem restart_restores_chain (w : world) (clk : nat -> float) :
  reachable w ->
  exists (w' : world) (block : pydict) (h : string),
    boot (ledger w) clk = (Ok tt, w') /\
    chain (node w') = chain (node w) /\
    last (chain (node w)) = Some (JDict block) /\
    dict_get "current_hash" block = Some (JStr h) /\
    latest_hash (epoh (node w')) = JStr h /\
    transaction_pool (node w') = [] /\
    pending_auth_challenges (node w') = ∅ /\
    ledger w' = ledger w /\
    ticks w' = 0%nat.
Proof.
  intros Hr.
  destruct (reachable_sound w Hr) as [[h (b & Hl & Hb)] _].
  pose proof (reachable_persisted w Hr) as Hfile.
  exists (adopted (chain (node w)) (JStr h) clk), b, h.
  rewrite Hfile.
  split; [exact (boot_adopts _ b (JStr h) clk Hl Hb)|].
  repeat split; assumption.
Qed.

Lemma restart_restores_chain_witness :
  let w := Scenario.buffering in
  reachable w /\
  exists (w' : world) (block : pydict) (h : string),
    boot (ledger w) Scenario.wall_clock = (Ok tt, w') /\
    chain (node w') = chain (node w) /\
    last (chain (node w)) = Some (JDict block) /\
    dict_get "current_hash" block = Some (JStr h) /\
    latest_hash (epoh (node w')) = JStr h /\
    transaction_pool (node w') = [] /\
    pending_auth_challenges (node w') = ∅ /\
    ledger w' = ledger w /\
    ticks w' = 0%nat.
Proof.
  intros w. split; [exact reachable_buffering|].
  apply (restart_restores_chain w Scenario.wall_clock). exact reachable_buffering.
Defined.

(** X8. A ledger file whose text is not a JSON document
    ([json.JSONDecodeError]), or that holds an empty list or an empty
    string ([IndexError]), is abandoned without notice: the constructor
    builds the same node as with no file at all, a fresh genesis block
    that overwrites the file.  A file that is not text is another matter:
    [json.load] raises [UnicodeDecodeError], which [load_chain] does not
    catch, so the constructor and with it [start_leader_node] raise,
    whatever connections wait, and the file is left as it is. *)
Theorem undecodable_ledger_starts_afresh
        (f : ledger_file) (clk : nat -> float)
        (connections : list (list Server.received)) :
  f = Undecodable \/ f = Stored (JList []) \/ f = Stored (JStr EmptyString) ->
  (boot f clk = boot NoFile clk /\
   ledger (snd (boot f clk)) = Stored (JList [JDict (genesis (clk 0%nat))])) /\
  (fst (boot NotText clk) = Raise UnicodeDecodeError /\
   ledger (snd (boot NotText clk)) = NotText /\
   chain (node (snd (boot NotText clk))) = [] /\
   fst (Server.start_leader_node NotText clk connections) = Raise UnicodeDecodeError).
Proof.
  intros Hf. split.
  - destruct Hf as [-> | [-> | ->]]; split; reflexivity.
  - repeat split; reflexivity.
Qed.

Lemma undecodable_ledger_starts_afresh_witness :
  (boot Undecodable Scenario.wall_clock = boot NoFile Scenario.wall_clock /\
   ledger (snd (boot Undecodable Scenario.wall_clock)) =
     Stored (JList [JDict (genesis (Scenario.wall_clock 0%nat))])) /\
  (fst (boot NotText Scenario.wall_clock) = Raise UnicodeDecodeError /\
   ledger (snd (boot NotText Scenario.wall_clock)) = NotText /\
   chain (node (snd (boot NotText Scenario.wall_clock))) = [] /\
   fst (Server.start_leader_node NotText Scenario.wall_clock
          [[Server.Document (JDict Client.auth_request_1)]]) =
     Raise UnicodeDecodeError).
Proof.
  apply (undecodable_ledger_starts_afresh Undecodable Scenario.wall_clock
           [[Server.Document (JDict Client.auth_request_1)]]).
  left. reflexivity.
Defined.

(** The documents the constructor can start from. *)
Definition loadable (v : json) : bool :=
  match v with
  | JList items =>
      match last items with
      | None => true
      | Some (JDict b) =>
          match dict_get "current_hash" b with
          | Some _ => true
          | None => false
          end
      | Some _ => false
      end
  | JStr s => String.eqb s EmptyString
  | _ => false
  end.

Lemma start_raises (f : ledger_file) (clk : nat -> float)
      (connections : list (list Server.received)) (e : exn) :
  fst (boot f clk) = Raise e ->
  fst (Server.start_leader_node f clk connections) = Raise e.
Proof.
  unfold Server.start_leader_node.
  destruct (boot f clk) as [[u|e'] w']; cbn [fst]; [discriminate|].
  intros [= ->]. reflexivity.
Qed.

Lemma boot_list_raises (items : list json) (x : json) (clk : nat -> float) :
  last items = Some x ->
  fst (boot (Stored (JList items)) clk) =
    match x with
    | JDict b =>
        match dict_get "current_hash" b with
        | Some _ => Ok tt
        | None => Raise KeyError
        end
    | _ => Raise TypeError
    end.
Proof.
  intros El.
  destruct x as [| b | z | y | s | l | d];
    try (unfold boot, init; unfold bind at 1, set_node at 1, modify at 1;
         unfold bind at 1, load_chain, except_index;
         unfold bind at 1, gets at 1; cbn [ledger with_node];
         unfold bind at 1, adopt; unfold bind at 1, set_chain at 1, modify at 1;
         unfold last_current_hash, bind at 1, gets at 1;
         cbn [node chain with_chain with_node]; rewrite El; reflexivity).
  destruct (dict_get "current_hash" d) as [h|] eqn:Eh.
  - rewrite (boot_adopts items d h clk El Eh). reflexivity.
  - unfold boot, init. unfold bind at 1, set_node at 1, modify at 1.
    unfold bind at 1, load_chain, except_index.
    unfold bind at 1, gets at 1. cbn [ledger with_node].
    unfold bind at 1, adopt. unfold bind at 1, set_chain at 1, modify at 1.
    unfold last_current_hash, bind at 1, gets at 1.
    cbn [node chain with_chain with_node]. rewrite El, Eh. reflexivity.
Qed.

(** X9. Any other stored document makes the constructor raise, and with
    it [start_leader_node], before a single connection is accepted: a
    [KeyError] for an object or for a last block without ['current_hash'],
    a [TypeError] otherwise.  Only [IndexError] is caught. *)
Theorem foreign_ledger_stops_the_server
        (v : json) (clk : nat -> float) (connections : list (list Server.received)) :
  loadable v = false ->
  exists e : exn,
    fst (Server.start_leader_node (Stored v) clk connections) = Raise e /\
    (e = KeyError \/ e = TypeError) /\
    (e = KeyError <->
       (exists d, v = JDict d) \/
       (exists items b, v = JList items /\ last items = Some (JDict b))).
Proof.
  intros Hv.
  assert (Hno : forall e, e <> KeyError ->
            (forall d, v <> JDict d) ->
            (forall items b, v = JList items -> last items <> Some (JDict b)) ->
            e = KeyError <->
            (exists d, v = JDict d) \/
            (exists items b, v = JList items /\ last items = Some (JDict b))).
  { intros e He Hd Hl. split; [intros H; contradiction|].
    intros [[d H] | (items & b & H & Hb)]; [destruct (Hd d H) | destruct (Hl items b H Hb)]. }
  destruct v as [| b | z | x | s | items | d]; cbn [loadable] in Hv.
  - exists TypeError. split; [apply start_raises; reflexivity|]. split; [auto|].
    apply Hno; [discriminate | discriminate | discriminate].
  - exists TypeError. split; [apply start_raises; reflexivity|]. split; [auto|].
    apply Hno; [discriminate | discriminate | discriminate].
  - exists TypeError. split; [apply start_raises; reflexivity|]. split; [auto|].
    apply Hno; [discriminate | discriminate | discriminate].
  - exists TypeError. split; [apply start_raises; reflexivity|]. split; [auto|].
    apply Hno; [discriminate | discriminate | discriminate].
  - exists TypeError. split.
    + apply start_raises.
      unfold boot, init, bind, set_node, modify, load_chain, except_index, bind, gets, adopt.
      cbn [ledger with_node]. rewrite Hv. reflexivity.
    + split; [auto|]. apply Hno; [discriminate | discriminate | discriminate].
  - destruct (last items) as [x|] eqn:El; [|discriminate Hv].
    pose proof (boot_list_raises items x clk El) as Hb.
    destruct x as [| b | z | y | s | l | d];
      try (exists TypeError; split; [apply start_raises; exact Hb|]; split; [auto|];
           apply Hno; [discriminate | discriminate |];
           intros items' b' [= <-] Hb'; rewrite El in Hb'; discriminate Hb').
    destruct (dict_get "current_hash" d) as [h|] eqn:Eh; [discriminate Hv|].
    exists KeyError. split; [apply start_raises; exact Hb|]. split; [auto|].
    split; [|reflexivity]. intros _. right. exists items, d. auto.
  - exists KeyError. split; [apply start_raises; reflexivity|]. split; [auto|].
    split; [|reflexivity]. intros _. left. eauto.
Qed.

Lemma foreign_ledger_stops_the_server_witness :
  let v := JList [JDict [("index", JInt 0)]] in
  loadable v = false /\
  exists e : exn,
    fst (Server.start_leader_node (Stored v) Scenario.wall_clock
           [[Server.Document (JDict Client.auth_request_1)]]) = Raise e /\
    (e = KeyError \/ e = TypeError) /\
    (e = KeyError <->
       (exists d, v = JDict d) \/
       (exists items b, v = JList items /\ last items = Some (JDict b))).
Proof.
  intros v. split; [reflexivity|].
  apply (foreign_ledger_stops_the_server v Scenario.wall_clock). reflexivity.
Defined.

End RunFacts.

(** ** Blocks and the engine *)

Module BlockFacts.

Import Json Leader EngineFacts NodeFacts.

(** The event log that [create_block] writes from digest [h] at clock
    position [t]: one entry per transaction, each with the digest reached
    after embedding it. *)
Fixpoint event_log_from (d : nat) (h : string) (clk : nat -> float) (t : nat)
         (txs : list pydict) : list json :=
  match txs with
  | [] => []
  | tx :: rest =>
      let h' := embed (Nat.iter d advance h) (serialize tx) in
      JDict [("event_type", JStr "TRANSACTION_EMBEDDED");
             ("timestamp", JFloat (clk t));
             ("hash_at_event", JStr h');
             ("tx_id", get "tx_id" tx)]
        :: event_log_from d h' clk (S t) rest
  end.

Lemma embed_all_log (txs : list pydict) :
  forall (log : list json) (w : world) (s : string),
    engine_hash w = JStr s ->
    fst (embed_all txs log w) =
      Ok (log ++ event_log_from (engine_difficulty w) s (clock w) (ticks w) txs)%list.
Proof.
  induction txs as [|tx rest IH]; intros log w s Hs.
  - cbn. rewrite app_nil_r. reflexivity.
  - cbn [embed_all event_log_from]. unfold bind at 1. unfold gets at 1.
    unfold bind at 1.
    rewrite (repeat_advance _ w s Hs).
    set (w1 := with_sequence_count _ (with_latest_hash _ w)).
    unfold bind at 1.
    rewrite (embed_transaction_str tx w1 (Nat.iter (difficulty (epoh (node w))) advance s))
      by reflexivity.
    set (w2 := tick _).
    cbn [fst snd].
    rewrite (IH _ w2 (embed (Nat.iter (difficulty (epoh (node w))) advance s) (serialize tx))
               eq_refl).
    rewrite <- app_assoc. reflexivity.
Qed.

Lemma create_block_events (txs : list pydict) (h : string) (n : Z) (w : world) :
  fst (create_block txs (JStr h) n w) =
    Ok [("index", JInt (n + 1));
        ("timestamp", JFloat (clock w (ticks w + List.length txs)%nat));
        ("previous_hash", JStr h);
        ("event_log", JList (event_log_from (engine_difficulty w) h (clock w) (ticks w) txs));
        ("transactions", JList (List.map JDict txs));
        ("current_hash", JStr (poh (engine_difficulty w) h (List.map serialize txs)))].
Proof.
  unfold create_block. unfold bind at 1. unfold set_latest_hash at 1, modify at 1.
  unfold bind at 1. unfold set_sequence_count at 1, modify at 1.
  set (w1 := with_sequence_count 0 (with_latest_hash (JStr h) w)).
  destruct (embed_all_str txs [] w1 h eq_refl)
    as (log & w2 & Hrun & Hlen & Hhash & Hsame & Hticks).
  pose proof (embed_all_log txs [] w1 h eq_refl) as Hlog.
  rewrite Hrun in Hlog. cbn [fst app] in Hlog. injection Hlog as ->.
  unfold bind at 1. rewrite Hrun. cbn [app].
  unfold bind, time_time, gets. cbn [fst snd].
  destruct Hsame as (a1 & a2 & a3 & a4 & a5 & a6).
  unfold engine_hash in Hhash.
  replace (latest_hash (epoh (node (tick w2)))) with (latest_hash (epoh (node w2)))
    by reflexivity.
  rewrite Hhash, a5, Hticks. reflexivity.
Qed.

Lemma poh_cons (d : nat) (h p : string) (rest : list string) :
  poh d h (p :: rest) = poh d (embed (Nat.iter d advance h) p) rest.
Proof. reflexivity. Qed.

Lemma poh_app (d : nat) (h : string) (a b : list string) :
  poh d h (a ++ b) = poh d (poh d h a) b.
Proof. unfold poh. apply fold_left_app. Qed.

Lemma event_log_entry (d : nat) (clk : nat -> float) (txs : list pydict) :
  forall (h : string) (t k : nat) (tx : pydict),
    txs !! k = Some tx ->
    event_log_from d h clk t txs !! k =
      Some (JDict [("event_type", JStr "TRANSACTION_EMBEDDED");
                   ("timestamp", JFloat (clk (t + k)%nat));
                   ("hash_at_event",
                    JStr (poh d h (List.map serialize (take (S k) txs))));
                   ("tx_id", get "tx_id" tx)]).
Proof.
  induction txs as [|tx0 rest IH]; intros h t k tx Hk; [discriminate Hk|].
  destruct k as [|k].
  - injection Hk as <-. cbn. rewrite Nat.add_0_r. reflexivity.
  - cbn [event_log_from lookup list_lookup].
    change ((tx0 :: rest) !! S k) with (rest !! k) in Hk.
    change ((?x :: ?l) !! S k) with (l !! k).
    rewrite (IH _ (S t) k tx Hk).
    replace (S t + k)%nat with (t + S k)%nat by lia.
    reflexivity.
Qed.

Lemma event_log_length (d : nat) (clk : nat -> float) (txs : list pydict) :
  forall (h : string) (t : nat),
    List.length (event_log_from d h clk t txs) = List.length txs.
Proof.
  induction txs as [|tx rest IH]; intros h t; [reflexivity|].
  cbn. rewrite IH. reflexivity.
Qed.

(** X10. The block that [create_block] returns on a string previous hash
    logs one event per transaction, in order: the event at position [k]
    names the transaction at position [k], is stamped with the clock
    reading taken after embedding it, and carries the digest reached after
    the first [k + 1] transactions; the block's ['current_hash'] is the
    digest after all of them, so with at least one transaction it is the
    ['hash_at_event'] of the last event. *)
Theorem event_log_follows_transactions
        (txs : list pydict) (h : string) (n : Z) (w : world) :
  exists (block : pydict) (log : list json),
    fst (create_block txs (JStr h) n w) = Ok block /\
    dict_get "event_log" block = Some (JList log) /\
    List.length log = List.length txs /\
    dict_get "current_hash" block =
      Some (JStr (poh (engine_difficulty w) h (List.map serialize txs))) /\
    forall (k : nat) (tx : pydict),
      txs !! k = Some tx ->
      exists event : pydict,
        log !! k = Some (JDict event) /\
        dict_get "tx_id" event = Some (get "tx_id" tx) /\
        dict_get "timestamp" event = Some (JFloat (clock w (ticks w + k)%nat)) /\
        dict_get "hash_at_event" event =
          Some (JStr (poh (engine_difficulty w) h
                          (List.map serialize (take (S k) txs)))).
Proof.
  do 2 eexists. split; [apply create_block_events|].
  split; [reflexivity|]. split; [apply event_log_length|]. split; [reflexivity|].
  intros k tx Hk. eexists. split; [apply event_log_entry; exact Hk|].
  repeat split.
Qed.

(** *** The last hash and the whole history *)

(** The serialized transactions of a block, and of all blocks after the
    genesis block, in order. *)
Definition block_payloads (b : json) : list string :=
  match VerifierFacts.field "transactions" b with
  | JList items => List.map dumps_sorted items
  | _ => []
  end.

Definition history (c : list json) : list string :=
  concat (List.map block_payloads (tl c)).

Lemma tip_unique (w : world) (h1 h2 : string) : tip w h1 -> tip w h2 -> h1 = h2.
Proof.
  intros (b1 & Hl1 & Hb1) (b2 & Hl2 & Hb2).
  rewrite Hl1 in Hl2. injection Hl2 as <-. rewrite Hb1 in Hb2. congruence.
Qed.

Lemma history_snoc (c : list json) (b : json) :
  c <> [] -> history (c ++ [b]) = (history c ++ block_payloads b)%list.
Proof.
  intros Hc. unfold history. destruct c as [|x c']; [contradiction|].
  cbn [tl app]. rewrite List.map_app, concat_app. cbn. rewrite app_nil_r. reflexivity.
Qed.

Lemma mined_history (w w' : world) (h : string) (pool : list pydict) (t : nat) :
  sound w ->
  engine_difficulty w = 2%nat ->
  tip w (poh 2 (advance (Py.zeros 64)) (history (chain (node w)))) ->
  tip w h ->
  mined w w' h pool t ->
  engine_difficulty w' = 2%nat /\
  tip w' (poh 2 (advance (Py.zeros 64)) (history (chain (node w')))).
Proof.
  intros Hs Hd Hhist Htip (log & Hc & _ & _ & _ & _ & _ & _ & Hd').
  split; [congruence|].
  rewrite (tip_unique w _ _ Htip Hhist) in Hc. rewrite Hd in Hc.
  unfold tip. rewrite Hc, last_snoc. eexists. split; [reflexivity|].
  rewrite history_snoc by (apply sound_chain_nonempty; exact Hs).
  rewrite poh_app. unfold block_payloads. cbn [VerifierFacts.field get dict_get String.eqb
    Ascii.eqb Bool.eqb].
  rewrite List.map_map. reflexivity.
Qed.

Lemma reachable_history (w : world) :
  reachable w ->
  engine_difficulty w = 2%nat /\
  tip w (poh 2 (advance (Py.zeros 64)) (history (chain (node w)))).
Proof.
  induction 1 as [clk | w request Hr IH].
  - rewrite boot_without_ledger. split; [reflexivity|].
    eexists. split; reflexivity.
  - pose proof (reachable_sound w Hr) as Hs.
    pose proof (handle_transition request w Hs) as Ht.
    destruct IH as [IHd IHh].
    destruct Ht as [E | E | uav key r Hreq Hreg E
                    | uav key c secs h Hreq Hreg Hpend Hmatch Htip Hmined Hdel
                    | uav key secs Hreq Hreg Hlen E
                    | uav key secs h Hreq Hreg Hlen Htip Hmined Hsame].
    + rewrite E. auto.
    + rewrite E. auto.
    + rewrite E. auto.
    + exact (mined_history w _ h _ _ Hs IHd IHh Htip Hmined).
    + rewrite E. auto.
    + exact (mined_history w _ h _ _ Hs IHd IHh Htip Hmined).
Qed.

(** X11. The ['current_hash'] of the last block is the digest reached from
    the genesis hash by two advances and one embedding for each
    transaction ever mined, in order: it commits to the whole history and
    depends neither on how the transactions were batched into blocks nor on
    any timestamp or index. *)
Theorem last_hash_commits_to_history (w : world) :
  reachable w ->
  exists block : pydict,
    last (chain (node w)) = Some (JDict block) /\
    dict_get "current_hash" block =
      Some (JStr (poh 2 (SHA256.hex_of_str (Py.zeros 64)) (history (chain (node w))))).
Proof. intros Hr. exact (proj2 (reachable_history w Hr)). Qed.

Lemma last_hash_commits_to_history_witness :
  let w := Scenario.authenticated in
  reachable w /\
  exists block : pydict,
    last (chain (node w)) = Some (JDict block) /\
    dict_get "current_hash" block =
      Some (JStr (poh 2 (SHA256.hex_of_str (Py.zeros 64)) (history (chain (node w))))).
Proof.
  intros w. split; [exact reachable_authenticated|].
  apply (last_hash_commits_to_history w). exact reachable_authenticated.
Defined.

(** *** Widths of the derived values *)

Lemma length_append (a b : string) :
  String.length (a ++ b) = (String.length a + String.length b)%nat.
Proof.
  induction a as [|c a IH]; [reflexivity|].
  change (S (String.length (a ++ b)) = S (String.length a + String.length b)).
  f_equal. exact IH.
Qed.

Lemma length_hex_fixed (n : nat) (x : Z) : String.length (Py.hex_fixed n x) = n.
Proof.
  revert x. induction n as [|n IH]; intros x; [reflexivity|].
  cbn [Py.hex_fixed]. rewrite length_append, IH. cbn. lia.
Qed.

Lemma length_hexdigest (msg : list Z) : String.length (SHA256.hexdigest msg) = 64%nat.
Proof.
  unfold SHA256.hexdigest. cbv zeta.
  rewrite !length_append, !length_hex_fixed. reflexivity.
Qed.

Lemma length_prefix (n : nat) (s : string) :
  String.length (Py.prefix n s) = Nat.min n (String.length s).
Proof.
  revert s. induction n as [|n IH]; intros s; [reflexivity|].
  destruct s as [|c s]; [reflexivity|]. cbn. rewrite IH. reflexivity.
Qed.

(** X12. Whatever the key, the identity and the clock, the authentication
    vector the server generates has a 64-character token [AUTN], a
    16-character session key and an expected response [XRES*] of only 10
    characters (40 bits of the digest); the last two are the values
    [UAV_Client.py] computes from the same key and challenge. *)
Theorem derived_values_have_fixed_width
        (uav key : string) (w : world) (rand : Z) (autn xres ktx : string) :
  fst (generate_auth_vector_simulated uav key w) = Ok (rand, autn, xres, ktx) ->
  String.length autn = 64%nat /\
  String.length xres = 10%nat /\
  String.length ktx = 16%nat /\
  xres = Client.calculate_res_star_simulated key rand /\
  ktx = Client.calculate_session_key_simulated key rand.
Proof.
  unfold generate_auth_vector_simulated, bind, time_time.
  destruct (PyFloat.to_int (PrimFloat.mul (clock w (ticks w)) 1000)) as [r|] eqn:Er.
  - rewrite (int_of_float_some _ r) by exact Er. cbn [fst ret].
    intros [= <- <- <- <-].
    unfold calculate_res_star_simulated, calculate_session_key_simulated, SHA256.hex_of_str.
    rewrite !length_prefix, !length_hexdigest. repeat split.
  - destruct (int_of_float_none _ (tick w) Er) as [e He]. rewrite He. discriminate.
Qed.

Lemma derived_values_have_fixed_width_witness :
  exists (rand : Z) (autn xres ktx : string),
    fst (generate_auth_vector_simulated "UAV_A1" "K_LongTerm_A1" Scenario.fresh) =
      Ok (rand, autn, xres, ktx) /\
    (String.length autn = 64%nat /\
     String.length xres = 10%nat /\
     String.length ktx = 16%nat /\
     xres = Client.calculate_res_star_simulated "K_LongTerm_A1" rand /\
     ktx = Client.calculate_session_key_simulated "K_LongTerm_A1" rand).
Proof.
  do 4 eexists.
  assert (H : fst (generate_auth_vector_simulated "UAV_A1" "K_LongTerm_A1" Scenario.fresh) =
              Ok (1700000001500,
                  SHA256.hex_of_str ("K_LongTerm_A1" ++ "UAV_A1" ++ "1700000001500"),
                  Client.calculate_res_star_simulated "K_LongTerm_A1" 1700000001500,
                  Client.calculate_session_key_simulated "K_LongTerm_A1" 1700000001500))
    by (vm_compute; reflexivity).
  split; [exact H|].
  exact (derived_values_have_fixed_width "UAV_A1" "K_LongTerm_A1" Scenario.fresh _ _ _ _ H).
Defined.

(** *** Timestamps *)

(** The block at each position is stamped with the clock reading at the
    position recorded in [ts]; the positions increase along the chain and
    all lie in the past. *)
Definition stamped (w : world) (ts : list nat) : Prop :=
  Forall2 (fun b t => VerifierFacts.field "timestamp" b = JFloat (clock w t))
          (chain (node w)) ts /\
  (forall i j ti tj, ts !! i = Some ti -> ts !! j = Some tj -> (i < j)%nat -> (ti < tj)%nat) /\
  Forall (fun t => (t < ticks w)%nat) ts.

Lemma stamped_later (w w' : world) (ts : list nat) :
  stamped w ts ->
  chain (node w') = chain (node w) ->
  clock w' = clock w ->
  (ticks w <= ticks w')%nat ->
  stamped w' ts.
Proof.
  intros (Hf & Hs & Hb) Hc Hk Ht. unfold stamped. rewrite Hc, Hk.
  split; [exact Hf|]. split; [exact Hs|].
  eapply Forall_impl; [exact Hb|]. cbn. intros t H. lia.
Qed.

Lemma stamped_mined (w w' : world) (ts : list nat) (h : string)
      (pool : list pydict) (t : nat) :
  stamped w ts ->
  (ticks w <= t)%nat ->
  mined w w' h pool t ->
  stamped w' (ts ++ [(t + List.length pool)%nat]).
Proof.
  intros (Hf & Hs & Hb) Ht (log & Hc & _ & _ & _ & Hk & Hticks & _).
  unfold stamped. rewrite Hc, Hk, Hticks. split; [|split].
  - apply Forall2_app; [exact Hf|]. constructor; [reflexivity | constructor].
  - intros i j ti tj Hi Hj Hij.
    apply lookup_app_Some in Hj as [Hj | [Hle Hj]].
    + apply lookup_app_Some in Hi as [Hi | [Hle Hi]].
      * exact (Hs i j ti tj Hi Hj Hij).
      * apply lookup_lt_Some in Hj. lia.
    + destruct (j - List.length ts)%nat as [|k] eqn:Ek; [|destruct k; discriminate Hj].
      injection Hj as <-.
      apply lookup_app_Some in Hi as [Hi | [Hle' Hi]].
      * rewrite Forall_lookup in Hb. specialize (Hb i ti Hi). cbn in Hb. lia.
      * destruct (i - List.length ts)%nat as [|k'] eqn:Ek'; [lia | destruct k'; discriminate Hi].
  - apply Forall_app. split.
    + eapply Forall_impl; [exact Hb|]. cbn. intros x H. lia.
    + constructor; [lia | constructor].
Qed.

Lemma reachable_stamped (w : world) : reachable w -> exists ts, stamped w ts.
Proof.
  induction 1 as [clk | w request Hr IH].
  - rewrite boot_without_ledger. exists [0%nat]. split; [|split].
    + constructor; [reflexivity | constructor].
    + intros i j ti tj Hi Hj Hij. destruct i; destruct j; try lia; discriminate Hj.
    + constructor; [cbn; lia | constructor].
  - pose proof (handle_transition request w (reachable_sound w Hr)) as Ht.
    destruct IH as [ts IH].
    destruct Ht as [E | E | uav key r Hreq Hreg E
                    | uav key c secs h Hreq Hreg Hpend Hmatch Htip Hmined Hdel
                    | uav key secs Hreq Hreg Hlen E
                    | uav key secs h Hreq Hreg Hlen Htip Hmined Hsame].
    + rewrite E. eauto.
    + exists ts. rewrite E. apply (stamped_later w); [exact IH | reflexivity | reflexivity |].
      cbn. lia.
    + exists ts. rewrite E. apply (stamped_later w); [exact IH | reflexivity | reflexivity |].
      cbn. lia.
    + eexists. eapply (stamped_mined w _ ts h); [exact IH | | exact Hmined]. lia.
    + exists ts. rewrite E. apply (stamped_later w); [exact IH | reflexivity | reflexivity |].
      cbn. lia.
    + eexists. eapply (stamped_mined w _ ts h); [exact IH | | exact Hmined]. lia.
Qed.

(** X13. When no reading of the clock so far is below or equal to an
    earlier one, each block of the chain is stamped strictly later than
    the block before it: the chronology test of the verifier finds
    nothing.  The node itself never compares timestamps. *)
Theorem rising_clock_gives_rising_timestamps (w : world) :
  reachable w ->
  (forall i j, (i < j < ticks w)%nat -> PrimFloat.leb (clock w j) (clock w i) = false) ->
  forall i, (1 <= i < List.length (chain (node w)))%nat ->
            VerifierFacts.stale (chain (node w)) i = false.
Proof.
  intros Hr Hclk i Hi.
  destruct (reachable_stamped w Hr) as (ts & Hf & Hs & Hb).
  destruct (lookup_lt_is_Some_2 (chain (node w)) i ltac:(lia)) as [b Eb].
  destruct (lookup_lt_is_Some_2 (chain (node w)) (i - 1) ltac:(lia)) as [b' Eb'].
  pose proof (Forall2_length _ _ _ Hf) as Hlen.
  destruct (lookup_lt_is_Some_2 ts i ltac:(lia)) as [t Et].
  destruct (lookup_lt_is_Some_2 ts (i - 1) ltac:(lia)) as [t' Et'].
  pose proof (Forall2_lookup_lr _ _ _ _ _ _ Hf Eb Et) as Hb1.
  pose proof (Forall2_lookup_lr _ _ _ _ _ _ Hf Eb' Et') as Hb2.
  cbn in Hb1, Hb2.
  unfold VerifierFacts.stale.
  rewrite !nth_lookup, Eb, Eb'. cbn [default from_option id].
  rewrite Hb1, Hb2. cbn [Json.le as_number num_le].
  rewrite Hclk; [reflexivity|].
  split.
  - apply (Hs (i - 1)%nat i t' t Et' Et). lia.
  - rewrite Forall_lookup in Hb. exact (Hb i t Et).
Qed.

Lemma rising_clock_gives_rising_timestamps_witness :
  let w := Scenario.authenticated in
  (reachable w /\
   forall i j, (i < j < ticks w)%nat -> PrimFloat.leb (clock w j) (clock w i) = false) /\
  forall i, (1 <= i < List.length (chain (node w)))%nat ->
            VerifierFacts.stale (chain (node w)) i = false.
Proof.
  intros w.
  assert (Hclk : forall i j, (i < j < ticks w)%nat ->
                             PrimFloat.leb (clock w j) (clock w i) = false).
  { intros i j [Hij Hj]. change (ticks w) with 6%nat in Hj.
    do 6 (destruct j as [|j];
          [do 6 (destruct i as [|i]; [first [lia | vm_compute; reflexivity]|]); lia|]).
    lia. }
  split; [split; [exact reachable_authenticated | exact Hclk]|].
  apply (rising_clock_gives_rising_timestamps w reachable_authenticated Hclk).
Defined.

(** *** Transaction identifiers *)

(** A clock that advances by a quarter of a second at each reading. *)
Definition quarter_clock (n : nat) : float :=
  PrimFloat.add 1700000000.25
    (PrimFloat.mul 0.25 (PrimFloat.of_uint63 (Uint63.of_Z (Z.of_nat n)))).

(** X14. A ['tx_id'] is the identity and the clock truncated to whole
    seconds: two telemetry requests of one UAV handled within the same
    second are recorded under the same ['tx_id']. *)
Theorem telemetry_ids_repeat_within_a_second
        (w : world) (uav key : string) (r1 r2 : pydict) (secs : Z) :
  reachable w ->
  transaction_pool (node w) = [] ->
  UAV_DB !! uav = Some key ->
  request_of r1 "TELEMETRY_TX" uav ->
  request_of r2 "TELEMETRY_TX" uav ->
  PyFloat.to_int (clock w (ticks w)) = Some secs ->
  PyFloat.to_int (clock w (S (ticks w))) = Some secs ->
  exists t1 t2 : pydict,
    transaction_pool (node (snd (handle_uav_request r2 (snd (handle_uav_request r1 w))))) =
      [t1; t2] /\
    get "data" t1 = get "data" r1 /\
    get "data" t2 = get "data" r2 /\
    get "tx_id" t1 = JStr ("TELEMETRY_" ++ uav ++ "_" ++ Py.str_of_int secs) /\
    get "tx_id" t2 = get "tx_id" t1.
Proof.
  intros Hr Hpool Hreg H1 H2 Hs1 Hs2.
  destruct (reachable_sound w Hr) as [_ [s Hs]].
  pose proof (telemetry_buffered r1 uav key secs s w H1 Hreg Hs1 Hs) as Hrun1.
  rewrite Hpool in Hrun1. specialize (Hrun1 ltac:(cbn; lia)). cbn [app] in Hrun1.
  rewrite Hrun1. cbn [snd].
  set (w1 := with_pool [telemetry_record uav secs (get "data" r1)] (tick w)).
  pose proof (telemetry_buffered r2 uav key secs s w1 H2 Hreg Hs2 Hs) as Hrun2.
  specialize (Hrun2 ltac:(cbn; lia)).
  rewrite Hrun2. cbn [snd].
  do 2 eexists. split; [reflexivity|]. repeat split.
Qed.

Lemma telemetry_ids_repeat_within_a_second_witness :
  let w := snd (boot NoFile quarter_clock) in
  let r1 := Client.telemetry_tx "0123456789abcdef" (Scenario.position 1) in
  let r2 := Client.telemetry_tx "0123456789abcdef" (Scenario.position 2) in
  exists t1 t2 : pydict,
    transaction_pool (node (snd (handle_uav_request r2 (snd (handle_uav_request r1 w))))) =
      [t1; t2] /\
    get "data" t1 = get "data" r1 /\
    get "data" t2 = get "data" r2 /\
    get "tx_id" t1 = JStr ("TELEMETRY_" ++ "UAV_A1" ++ "_" ++ Py.str_of_int 1700000000) /\
    get "tx_id" t2 = get "tx_id" t1.
Proof.
  intros w r1 r2.
  apply (telemetry_ids_repeat_within_a_second w "UAV_A1" "K_LongTerm_A1" r1 r2 1700000000).
  - apply reach_boot.
  - vm_compute. reflexivity.
  - vm_compute. reflexivity.
  - split; reflexivity.
  - split; reflexivity.
  - vm_compute. reflexivity.
  - vm_compute. reflexivity.
Defined.

End BlockFacts.

(** ** The request handler outside the claims *)

Module HandlerFacts.

Import Json Leader EngineFacts NodeFacts.

(** X15. A challenge request of a registered identity draws the challenge
    from the clock in milliseconds and answers with it and with
    [AUTN = SHA-256(key, identity, challenge)]; the pending entry of the
    identity becomes the new challenge whatever was pending before, the
    entries of other identities stay, and neither the pool, the chain nor
    the ledger file is touched. *)
Theorem new_challenge_replaces_old
        (w : world) (request : pydict) (uav key : string) (r : Z) :
  request_of request "AUTH_REQUEST_1" uav ->
  UAV_DB !! uav = Some key ->
  PyFloat.to_int (PrimFloat.mul (clock w (ticks w)) 1000) = Some r ->
  let w' := snd (handle_uav_request request w) in
  fst (handle_uav_request request w) =
    Ok [("status", JStr "CHALLENGE_ISSUED");
        ("rand", JInt r);
        ("autn", JStr (SHA256.hex_of_str (key ++ uav ++ Py.str_of_int r)));
        ("pk_node", JStr "NodePubKey_Sim")] /\
  (exists c, pending_auth_challenges (node w') !! uav = Some c /\
             rand c = r /\
             xres_star c = Client.calculate_res_star_simulated key r /\
             ktx_sim c = Client.calculate_session_key_simulated key r) /\
  (forall other, other <> uav ->
     pending_auth_challenges (node w') !! other =
       pending_auth_challenges (node w) !! other) /\
  transaction_pool (node w') = transaction_pool (node w) /\
  chain (node w') = chain (node w) /\
  ledger w' = ledger w.
Proof.
  intros Hreq Hreg Hr w'. subst w'.
  rewrite (challenge_issued request uav key r w Hreq Hreg Hr). cbn [fst snd].
  split; [reflexivity|]. split; [|split; [|repeat split]].
  - eexists. split; [apply lookup_insert_eq|]. repeat split.
  - intros other Hne. cbn. apply lookup_insert_ne. congruence.
Qed.

Lemma new_challenge_replaces_old_witness :
  let w := Scenario.challenged in
  let request := Client.auth_request_1 in
  let w' := snd (handle_uav_request request w) in
  fst (handle_uav_request request w) =
    Ok [("status", JStr "CHALLENGE_ISSUED");
        ("rand", JInt 1700000003500);
        ("autn", JStr (SHA256.hex_of_str
                         ("K_LongTerm_A1" ++ "UAV_A1" ++ Py.str_of_int 1700000003500)));
        ("pk_node", JStr "NodePubKey_Sim")] /\
  (exists c, pending_auth_challenges (node w') !! "UAV_A1" = Some c /\
             rand c = 1700000003500 /\
             xres_star c = Client.calculate_res_star_simulated "K_LongTerm_A1" 1700000003500 /\
             ktx_sim c = Client.calculate_session_key_simulated "K_LongTerm_A1" 1700000003500) /\
  (forall other, other <> "UAV_A1" ->
     pending_auth_challenges (node w') !! other =
       pending_auth_challenges (node w) !! other) /\
  transaction_pool (node w') = transaction_pool (node w) /\
  chain (node w') = chain (node w) /\
  ledger w' = ledger w.
Proof.
  intros w request.
  apply (new_challenge_replaces_old w request "UAV_A1" "K_LongTerm_A1" 1700000003500).
  - split; reflexivity.
  - vm_compute. reflexivity.
  - vm_compute. reflexivity.
Defined.

(** X16. A response is good for one success only: the request that was
    just answered [AUTH_SUCCESS], sent again, is answered [AUTH_FAILURE]
    and appends nothing. *)
Theorem accepted_response_cannot_be_replayed
        (w : world) (request : pydict) (uav key : string) (c : challenge) (secs : Z) :
  reachable w ->
  request_of request "AUTH_RESPONSE_2" uav ->
  UAV_DB !! uav = Some key ->
  pending_auth_challenges (node w) !! uav = Some c ->
  eq_str (get "res_star" request) (xres_star c) = true ->
  PyFloat.to_int (reading w) = Some secs ->
  let w1 := snd (handle_uav_request request w) in
  fst (handle_uav_request request w) =
    Ok [("status", JStr "AUTH_SUCCESS"); ("session_key", JStr (ktx_sim c))] /\
  handle_uav_request request w1 =
    (Ok [("status", JStr "AUTH_FAILURE");
         ("reason", JStr "RES* mismatch or no pending challenge")], w1).
Proof.
  intros Hr Hreq Hreg Hp Hm Hsecs w1. subst w1.
  destruct (reachable_sound w Hr) as [[h Htip] _].
  destruct (response_accepted request uav key c secs h w Hreq Hreg Hp Hm Hsecs Htip)
    as (w' & Hrun & _ & Hpend).
  rewrite Hrun. cbn [fst snd]. split; [reflexivity|].
  apply (response_refused request uav key w' Hreq Hreg).
  rewrite Hpend, lookup_delete_eq. exact I.
Qed.

Lemma accepted_response_cannot_be_replayed_witness :
  let w := Scenario.challenged in
  let request := Client.auth_response_2 1700000001500 in
  let c := issued_challenge "K_LongTerm_A1" 1700000001500 (Scenario.wall_clock 2) in
  let w1 := snd (handle_uav_request request w) in
  fst (handle_uav_request request w) =
    Ok [("status", JStr "AUTH_SUCCESS"); ("session_key", JStr (ktx_sim c))] /\
  handle_uav_request request w1 =
    (Ok [("status", JStr "AUTH_FAILURE");
         ("reason", JStr "RES* mismatch or no pending challenge")], w1).
Proof.
  intros w request c.
  apply (accepted_response_cannot_be_replayed w request "UAV_A1" "K_LongTerm_A1" c 1700000003).
  - exact reachable_challenged.
  - split; reflexivity.
  - vm_compute. reflexivity.
  - vm_compute. reflexivity.
  - vm_compute. reflexivity.
  - vm_compute. reflexivity.
Defined.

(** X17. Challenges do not survive a restart: on the node rebuilt from the
    ledger the old node has written, every [AUTH_RESPONSE_2] is answered
    [AUTH_FAILURE], also the one that matches a challenge the old node was
    still holding. *)
Theorem restart_forgets_challenges
        (w : world) (clk : nat -> float) (request : pydict) (uav key : string) :
  reachable w ->
  request_of request "AUTH_RESPONSE_2" uav ->
  UAV_DB !! uav = Some key ->
  exists w' : world,
    boot (ledger w) clk = (Ok tt, w') /\
    handle_uav_request request w' =
      (Ok [("status", JStr "AUTH_FAILURE");
           ("reason", JStr "RES* mismatch or no pending challenge")], w').
Proof.
  intros Hr Hreq Hreg.
  destruct (reachable_sound w Hr) as [[h (b & Hl & Hb)] _].
  rewrite (RunFacts.reachable_persisted w Hr).
  eexists. split; [exact (RunFacts.boot_adopts _ b (JStr h) clk Hl Hb)|].
  apply (response_refused request uav key _ Hreq Hreg).
  cbn. rewrite lookup_empty. exact I.
Qed.

Lemma restart_forgets_challenges_witness :
  let w := Scenario.challenged in
  let request := Client.auth_response_2 1700000001500 in
  (reachable w /\
   exists c, pending_auth_challenges (node w) !! "UAV_A1" = Some c /\
             eq_str (get "res_star" request) (xres_star c) = true) /\
  exists w' : world,
    boot (ledger w) Scenario.wall_clock = (Ok tt, w') /\
    handle_uav_request request w' =
      (Ok [("status", JStr "AUTH_FAILURE");
           ("reason", JStr "RES* mismatch or no pending challenge")], w').
Proof.
  intros w request. split.
  - split; [exact reachable_challenged|].
    exists (issued_challenge "K_LongTerm_A1" 1700000001500 (Scenario.wall_clock 2)).
    split; vm_compute; reflexivity.
  - apply (restart_forgets_challenges w Scenario.wall_clock request "UAV_A1" "K_LongTerm_A1").
    + exact reachable_challenged.
    + split; reflexivity.
    + vm_compute. reflexivity.
Defined.

(** The answer to a request that is not one of the three messages of a
    registered identity, when it has one: an identity that is a list or an
    object cannot be looked up, any other unregistered identity is
    unknown, and a registered identity with another type (or none) is an
    invalid request. *)
Definition outside_protocol (request : pydict) : option (outcome pydict) :=
  let unknown := Ok [("status", JStr "AUTH_FAILURE"); ("reason", JStr "Unknown SUPI/UAV ID")] in
  match get "uav_supi" request with
  | JList _ | JDict _ => Some (Raise TypeError)
  | JStr uav =>
      match UAV_DB !! uav with
      | None => Some unknown
      | Some _ =>
          if eq_str (get "type" request) "AUTH_REQUEST_1"
             || eq_str (get "type" request) "AUTH_RESPONSE_2"
             || eq_str (get "type" request) "TELEMETRY_TX"
          then None
          else Some (Ok [("status", JStr "ERROR"); ("reason", JStr "Invalid Request Type")])
      end
  | _ => Some unknown
  end.

(** X18. The identity is checked before the type: a request without a
    registered identity is answered [AUTH_FAILURE] whatever its type, an
    identity that is a list or an object raises [TypeError], and only a
    registered identity with an unknown or missing type is answered
    [ERROR].  None of these requests changes anything in the node, the
    clock included. *)
Theorem requests_outside_the_protocol
        (w : world) (request : pydict) (r : outcome pydict) :
  outside_protocol request = Some r ->
  handle_uav_request request w = (r, w).
Proof.
  unfold outside_protocol, handle_uav_request, bind, lookup_key.
  destruct (get "uav_supi" request) as [| b | z | x | uav | l | d];
    try (intros [= <-]; reflexivity).
  destruct (UAV_DB !! uav) as [key|]; [|intros [= <-]; reflexivity].
  unfold ret.
  destruct (eq_str (get "type" request) "AUTH_REQUEST_1"); [discriminate|].
  destruct (eq_str (get "type" request) "AUTH_RESPONSE_2"); [discriminate|].
  destruct (eq_str (get "type" request) "TELEMETRY_TX"); [discriminate|].
  intros [= <-]. reflexivity.
Qed.

Lemma requests_outside_the_protocol_witness :
  let request := [("type", JStr "TELEMETRY"); ("uav_supi", JStr "UAV_B2"); ("data", JNull)] in
  let r := Ok [("status", JStr "ERROR"); ("reason", JStr "Invalid Request Type")] in
  outside_protocol request = Some r /\
  handle_uav_request request Scenario.buffering = (r, Scenario.buffering).
Proof.
  intros request r. split; [vm_compute; reflexivity|].
  apply (requests_outside_the_protocol Scenario.buffering request r).
  vm_compute. reflexivity.
Defined.

(** X19. The handshake of [UAV_Client.py] against the node, from any state
    of the node: the challenge request is answered [CHALLENGE_ISSUED] with
    the challenge [r]; the response the client computes from its key and
    [r] is answered [AUTH_SUCCESS] with the session key the client has
    computed for itself; one block is appended, holding what waited in the
    pool and then the success record, and no challenge stays pending for
    the client. *)
Theorem client_handshake_succeeds (w : world) (r secs : Z) :
  reachable w ->
  PyFloat.to_int (PrimFloat.mul (clock w (ticks w)) 1000) = Some r ->
  PyFloat.to_int (clock w (S (S (ticks w)))) = Some secs ->
  exists (w1 w2 : world) (autn : string) (block : pydict) (c : challenge),
    handle_uav_request Client.auth_request_1 w =
      (Ok [("status", JStr "CHALLENGE_ISSUED"); ("rand", JInt r); ("autn", JStr autn);
           ("pk_node", JStr "NodePubKey_Sim")], w1) /\
    handle_uav_request (Client.auth_response_2 r) w1 =
      (Ok [("status", JStr "AUTH_SUCCESS");
           ("session_key",
            JStr (Client.calculate_session_key_simulated Client.LONG_TERM_KEY r))], w2) /\
    chain (node w2) = (chain (node w) ++ [JDict block])%list /\
    dict_get "transactions" block =
      Some (JList (List.map JDict
                     (transaction_pool (node w) ++
                        [success_record Client.UAV_SUPI secs c]))) /\
    rand c = r /\
    pending_auth_challenges (node w2) !! Client.UAV_SUPI = None.
Proof.
  intros Hr Hrand Hsecs.
  assert (Hreg : UAV_DB !! Client.UAV_SUPI = Some Client.LONG_TERM_KEY)
    by (vm_compute; reflexivity).
  assert (Hreq1 : request_of Client.auth_request_1 "AUTH_REQUEST_1" Client.UAV_SUPI)
    by (split; reflexivity).
  assert (Hreq2 : request_of (Client.auth_response_2 r) "AUTH_RESPONSE_2" Client.UAV_SUPI)
    by (split; reflexivity).
  pose proof (challenge_issued Client.auth_request_1 _ _ r w Hreq1 Hreg Hrand) as Hrun1.
  set (c := issued_challenge Client.LONG_TERM_KEY r (clock w (S (ticks w)))) in *.
  set (w1 := with_pending _ (tick (tick w))) in *.
  destruct (reachable_sound w Hr) as [[h Htip] _].
  assert (Htip1 : tip w1 h) by (apply (tip_of_chain w); [reflexivity | exact Htip]).
  assert (Hp : pending_auth_challenges (node w1) !! Client.UAV_SUPI = Some c)
    by (cbn; apply lookup_insert_eq).
  assert (Hm : eq_str (get "res_star" (Client.auth_response_2 r)) (xres_star c) = true)
    by (cbn; apply String.eqb_refl).
  destruct (response_accepted (Client.auth_response_2 r) _ _ c secs h w1
              Hreq2 Hreg Hp Hm Hsecs Htip1)
    as (w2 & Hrun2 & (log & Hc & _) & Hpend).
  exists w1, w2. do 2 eexists. exists c.
  split; [exact Hrun1|]. split; [exact Hrun2|].
  split; [exact Hc|]. split; [reflexivity|]. split; [reflexivity|].
  rewrite Hpend. apply lookup_delete_eq.
Qed.

Lemma client_handshake_succeeds_witness :
  let w := Scenario.buffering in
  exists (w1 w2 : world) (autn : string) (block : pydict) (c : challenge),
    handle_uav_request Client.auth_request_1 w =
      (Ok [("status", JStr "CHALLENGE_ISSUED"); ("rand", JInt 1700000007500);
           ("autn", JStr autn); ("pk_node", JStr "NodePubKey_Sim")], w1) /\
    handle_uav_request (Client.auth_response_2 1700000007500) w1 =
      (Ok [("status", JStr "AUTH_SUCCESS");
           ("session_key",
            JStr (Client.calculate_session_key_simulated Client.LONG_TERM_KEY
                    1700000007500))], w2) /\
    chain (node w2) = (chain (node w) ++ [JDict block])%list /\
    dict_get "transactions" block =
      Some (JList (List.map JDict
                     (transaction_pool (node w) ++
                        [success_record Client.UAV_SUPI 1700000009 c]))) /\
    rand c = 1700000007500 /\
    pending_auth_challenges (node w2) !! Client.UAV_SUPI = None.
Proof.
  intros w.
  apply (client_handshake_succeeds w 1700000007500 1700000009).
  - exact reachable_buffering.
  - vm_compute. reflexivity.
  - vm_compute. reflexivity.
Defined.

End HandlerFacts.

(** ** The verifier on arbitrary ledgers *)

Module AuditFacts.

Import Json Verifier VerifierFacts.

(** X20. A ledger of one block passes as soon as that block's
    ['previous_hash'] is ['0']: nothing else of a lone block is looked at.
    So the ledger of a node that has just been started always verifies. *)
Theorem lone_block_passes (path : string) (d : pydict) :
  dict_get "previous_hash" d = Some (JStr "0") ->
  is_valid_chain path (Stored (JList [JDict d])) =
    ([header path], Ok (true, "Chain is fully valid.")).
Proof.
  intros Hd. unfold is_valid_chain. cbn [truthy negb subscript].
  rewrite Hd. reflexivity.
Qed.

Lemma lone_block_passes_witness :
  exists d : pydict,
    Leader.ledger Scenario.fresh = Stored (JList [JDict d]) /\
    dict_get "previous_hash" d = Some (JStr "0") /\
    is_valid_chain "/srv/epoh_ledger.json" (Leader.ledger Scenario.fresh) =
      ([header "/srv/epoh_ledger.json"], Ok (true, "Chain is fully valid.")).
Proof.
  exists (NodeFacts.genesis (Scenario.wall_clock 0)).
  split; [reflexivity|]. split; [reflexivity|].
  apply (lone_block_passes "/srv/epoh_ledger.json" (NodeFacts.genesis (Scenario.wall_clock 0))).
  reflexivity.
Defined.

(** *** What a pass guarantees *)

Lemma check_block_continues (chain : list json) (i : nat) (out : list console) :
  check_block chain i = (out, Ok None) ->
  exists dc dp e t t',
    nth_error chain i = Some (JDict dc) /\
    nth_error chain (i - 1) = Some (JDict dp) /\
    dict_get "previous_hash" dc = Some e /\
    eq_str e (canonical_hash dp) = true /\
    dict_get "timestamp" dc = Some t /\
    dict_get "timestamp" dp = Some t' /\
    Json.le t t' = Some false.
Proof.
  unfold check_block.
  destruct (nth_error chain i) as [cur|]; [|discriminate].
  destruct (nth_error chain (i - 1)) as [prev|]; [|discriminate].
  destruct (hash_block prev) as [rh|] eqn:Eh; [|discriminate].
  destruct (subscript cur "previous_hash") as [e|] eqn:Ee; [|discriminate].
  destruct (eq_str e rh) eqn:Em; cbn [negb]; [|discriminate].
  destruct (subscript cur "timestamp") as [t|] eqn:Et; [|discriminate].
  destruct (subscript prev "timestamp") as [t'|] eqn:Et'; [|discriminate].
  unfold le. destruct (Json.le t t') as [[|]|] eqn:El; try discriminate.
  intros _.
  destruct cur as [| | | | | |dc]; try discriminate Ee.
  destruct prev as [| | | | | |dp]; try discriminate Et'.
  cbn in Ee, Et, Et', Eh. injection Eh as <-.
  destruct (dict_get "previous_hash" dc) as [e0|] eqn:E1; [|discriminate Ee].
  destruct (dict_get "timestamp" dc) as [t0|] eqn:E2; [|discriminate Et].
  destruct (dict_get "timestamp" dp) as [t1|] eqn:E3; [|discriminate Et'].
  injection Ee as ->. injection Et as ->. injection Et' as ->.
  exists dc, dp, e, t, t'. repeat split; assumption.
Qed.

Lemma check_block_returns_failure (chain : list json) (i : nat) (out : list console)
      (v : verdict) :
  check_block chain i = (out, Ok (Some v)) -> fst v = false.
Proof.
  unfold check_block.
  destruct (nth_error chain i) as [cur|]; [|discriminate].
  destruct (nth_error chain (i - 1)) as [prev|]; [|discriminate].
  destruct (hash_block prev) as [rh|]; [|discriminate].
  destruct (subscript cur "previous_hash") as [e|]; [|discriminate].
  destruct (negb (eq_str e rh)); [intros [= _ <-]; reflexivity|].
  destruct (subscript cur "timestamp") as [t|]; [|discriminate].
  destruct (subscript prev "timestamp") as [t'|]; [|discriminate].
  destruct (le t t') as [[|]|]; try discriminate.
  intros [= _ <-]. reflexivity.
Qed.

Lemma check_from_passes (chain : list json) (idxs : list nat) (out : list console)
      (msg : string) :
  check_from chain idxs = (out, Ok (true, msg)) ->
  forall i, In i idxs -> exists o, check_block chain i = (o, Ok None).
Proof.
  revert out. induction idxs as [|j rest IH]; intros out Hrun i Hi; [destruct Hi|].
  cbn [check_from] in Hrun.
  destruct (check_block chain j) as [o [[v|]|e]] eqn:Ej.
  - apply check_block_returns_failure in Ej.
    injection Hrun as _ ->. discriminate Ej.
  - destruct (check_from chain rest) as [o' r'] eqn:Er.
    destruct Hi as [<- | Hi]; [eauto|].
    injection Hrun as _ ->. exact (IH o' eq_refl i Hi).
  - discriminate Hrun.
Qed.

(** X21. Whatever the ledger file holds, a pass means that it holds a
    non-empty list of objects, that the first has ['0'] as previous hash,
    and that every later block's previous hash is [hash_block] of the block
    before it and its timestamp is not lower than or equal to that block's:
    on anything else the verifier fails or raises, it never passes. *)
Theorem pass_means_intact (path : string) (f : ledger_file) (out : list console)
        (msg : string) :
  is_valid_chain path f = (out, Ok (true, msg)) ->
  exists chain : list json,
    f = Stored (JList chain) /\
    chain <> [] /\
    Forall (fun b => exists d, b = JDict d) chain /\
    genesis_bad chain = false /\
    forall i, (1 <= i < List.length chain)%nat ->
              broken chain i = false /\ stale chain i = false.
Proof.
  unfold is_valid_chain.
  destruct f as [| | |v]; [discriminate | discriminate | discriminate|].
  destruct (negb (truthy v)); [discriminate|].
  destruct v as [| | | | |items|]; try discriminate.
  destruct items as [|first rest]; [discriminate|].
  destruct (subscript first "previous_hash") as [p|] eqn:Ep; [|discriminate].
  destruct (eq_str p "0") eqn:E0; cbn [negb]; [|discriminate].
  destruct (check_from (first :: rest) (seq 1 (List.length rest))) as [o r] eqn:Ec.
  intros [= _ ->].
  pose proof (check_from_passes _ _ _ _ Ec) as Hall.
  assert (Hblock : forall i, (1 <= i < List.length (first :: rest))%nat ->
            exists dc dp e t t',
              nth_error (first :: rest) i = Some (JDict dc) /\
              nth_error (first :: rest) (i - 1) = Some (JDict dp) /\
              dict_get "previous_hash" dc = Some e /\
              eq_str e (canonical_hash dp) = true /\
              dict_get "timestamp" dc = Some t /\
              dict_get "timestamp" dp = Some t' /\
              Json.le t t' = Some false).
  { intros i Hi. destruct (Hall i) as [o' Ho'].
    - apply in_seq. cbn [List.length] in Hi. lia.
    - exact (check_block_continues _ _ _ Ho'). }
  destruct first as [| | | | | |d0]; try discriminate Ep.
  cbn in Ep. destruct (dict_get "previous_hash" d0) as [p0|] eqn:Ep0; [|discriminate Ep].
  injection Ep as ->.
  exists (JDict d0 :: rest). split; [reflexivity|]. split; [discriminate|].
  split; [|split].
  - apply List.Forall_forall. intros b Hb.
    apply In_nth_error in Hb as [i Hi].
    destruct i as [|i]; [injection Hi as <-; eauto|].
    destruct (Hblock (S i)) as (dc & _ & _ & _ & _ & Hn & _).
    + split; [lia|]. apply nth_error_Some. rewrite Hi. discriminate.
    + rewrite Hn in Hi. injection Hi as <-. eauto.
  - unfold genesis_bad. cbn [nth field]. unfold get. rewrite Ep0, E0. reflexivity.
  - intros i Hi.
    destruct (Hblock i Hi) as (dc & dp & e & t & t' & Hc & Hp & He & Hm & Ht & Ht' & Hle).
    unfold broken, stale.
    rewrite (nth_error_nth _ _ JNull Hc), (nth_error_nth _ _ JNull Hp).
    cbn [field CanonicalHash]. unfold get. rewrite He, Ht, Ht', Hm, Hle. split; reflexivity.
Qed.

Lemma pass_means_intact_witness :
  let f := Leader.ledger Scenario.fresh in
  let path := "/srv/epoh_ledger.json" in
  is_valid_chain path f = ([header path], Ok (true, "Chain is fully valid.")) /\
  exists chain : list json,
    f = Stored (JList chain) /\
    chain <> [] /\
    Forall (fun b => exists d, b = JDict d) chain /\
    genesis_bad chain = false /\
    forall i, (1 <= i < List.length chain)%nat ->
              broken chain i = false /\ stale chain i = false.
Proof.
  intros f path.
  assert (H : is_valid_chain path f = ([header path], Ok (true, "Chain is fully valid.")))
    by reflexivity.
  split; [exact H|].
  exact (pass_means_intact path f _ _ H).
Defined.

(** *** The verifier and the stored block hashes *)

Lemma dict_get_set_eq (k : string) (v : json) (d : pydict) :
  dict_get k (dict_set k v d) = Some v.
Proof.
  induction d as [|[k' v'] rest IH]; cbn [dict_set dict_get].
  - rewrite String.eqb_refl. reflexivity.
  - destruct (String.eqb k k') eqn:E; cbn [dict_get].
    + rewrite String.eqb_refl. reflexivity.
    + rewrite E. exact IH.
Qed.

Lemma dict_get_set_ne (k k' : string) (v : json) (d : pydict) :
  k' <> k -> dict_get k' (dict_set k v d) = dict_get k' d.
Proof.
  intros Hne. induction d as [|[k0 v0] rest IH]; cbn [dict_set dict_get].
  - apply String.eqb_neq in Hne. rewrite Hne. reflexivity.
  - destruct (String.eqb k k0) eqn:E; cbn [dict_get].
    + apply String.eqb_eq in E. subst k0.
      apply String.eqb_neq in Hne. rewrite Hne. reflexivity.
    + rewrite IH. reflexivity.
Qed.

Lemma dict_del_set (k : string) (v : json) (d : pydict) :
  dict_del k (dict_set k v d) =
    match dict_get k d with
    | Some _ => dict_del k d
    | None => d
    end.
Proof.
  induction d as [|[k' v'] rest IH]; cbn [dict_set dict_get dict_del].
  - rewrite String.eqb_refl. reflexivity.
  - destruct (String.eqb k k') eqn:E; cbn [dict_del].
    + rewrite String.eqb_refl. reflexivity.
    + rewrite E, IH. destruct (dict_get k rest); reflexivity.
Qed.

(** [block['current_hash'] = v] on a block that is an object; any other
    value is left as it is. *)
Definition restamp (v : json) (b : json) : json :=
  match b with
  | JDict d => JDict (dict_set "current_hash" v d)
  | _ => b
  end.

Lemma hash_block_restamp (v b : json) : hash_block (restamp v b) = hash_block b.
Proof.
  destruct b as [| | | | | |d]; try reflexivity.
  cbn [restamp hash_block]. f_equal. unfold canonical_hash.
  rewrite dict_get_set_eq, dict_del_set. reflexivity.
Qed.

Lemma subscript_restamp (v b : json) (k : string) :
  k <> "current_hash" -> subscript (restamp v b) k = subscript b k.
Proof.
  intros Hne. destruct b as [| | | | | |d]; try reflexivity.
  cbn [restamp subscript]. rewrite (dict_get_set_ne _ _ _ _ Hne). reflexivity.
Qed.

Lemma check_block_restamp (g : json -> json) (chain : list json) (i : nat) :
  check_block (List.map (fun b => restamp (g b) b) chain) i = check_block chain i.
Proof.
  unfold check_block. rewrite !nth_error_map.
  destruct (nth_error chain i) as [cur|]; [|reflexivity].
  destruct (nth_error chain (i - 1)) as [prev|]; [|reflexivity].
  cbn [option_map].
  rewrite hash_block_restamp.
  rewrite !subscript_restamp by discriminate.
  reflexivity.
Qed.

Lemma check_from_restamp (g : json -> json) (chain : list json) (idxs : list nat) :
  check_from (List.map (fun b => restamp (g b) b) chain) idxs = check_from chain idxs.
Proof.
  induction idxs as [|i rest IH]; [reflexivity|].
  cbn [check_from]. rewrite check_block_restamp, IH. reflexivity.
Qed.

(** X22. The verifier never reads a block's ['current_hash']: setting that
    field of every block to any values whatever changes neither the verdict
    nor a line of the output. The hash that the assembler put at the end of
    a block's event log is therefore not audited. *)
Theorem verdict_ignores_current_hash (path : string) (g : json -> json)
        (chain : list json) :
  is_valid_chain path (Stored (JList (List.map (fun b => restamp (g b) b) chain))) =
  is_valid_chain path (Stored (JList chain)).
Proof.
  destruct chain as [|first rest]; [reflexivity|].
  unfold is_valid_chain. cbn [List.map truthy negb].
  rewrite subscript_restamp by discriminate.
  destruct (subscript first "previous_hash") as [p|]; [|reflexivity].
  destruct (negb (eq_str p "0")); [reflexivity|].
  rewrite length_map.
  change (restamp (g first) first :: List.map (fun b => restamp (g b) b) rest)
    with (List.map (fun b => restamp (g b) b) (first :: rest)).
  rewrite check_from_restamp. reflexivity.
Qed.

(** *** The canonical hash and the order of a block's fields *)

Lemma nat_of_ascii_inj (x y : ascii) : nat_of_ascii x = nat_of_ascii y -> x = y.
Proof.
  intros H. rewrite <- (ascii_nat_embedding x), <- (ascii_nat_embedding y), H.
  reflexivity.
Qed.

Lemma str_ltb_trans (a b c : string) :
  Py.str_ltb a b = true -> Py.str_ltb b c = true -> Py.str_ltb a c = true.
Proof.
  revert b c. induction a as [|x a IH]; intros [|y b] [|z c]; cbn [Py.str_ltb];
    try discriminate; try reflexivity.
  cbv zeta.
  destruct (Nat.ltb_spec (nat_of_ascii x) (nat_of_ascii y)) as [Hxy|Hxy];
    destruct (Nat.ltb_spec (nat_of_ascii y) (nat_of_ascii z)) as [Hyz|Hyz];
    destruct (Nat.ltb_spec (nat_of_ascii x) (nat_of_ascii z)) as [Hxz|Hxz];
    try reflexivity; try (exfalso; lia);
    destruct (Nat.ltb_spec (nat_of_ascii y) (nat_of_ascii x)) as [Hyx|Hyx];
    destruct (Nat.ltb_spec (nat_of_ascii z) (nat_of_ascii y)) as [Hzy|Hzy];
    destruct (Nat.ltb_spec (nat_of_ascii z) (nat_of_ascii x)) as [Hzx|Hzx];
    try discriminate; try (exfalso; lia).
  apply IH.
Qed.

Lemma str_ltb_asym (a b : string) :
  Py.str_ltb a b = true -> Py.str_ltb b a = false.
Proof.
  revert b. induction a as [|x a IH]; intros [|y b]; cbn [Py.str_ltb];
    try discriminate; try reflexivity.
  cbv zeta.
  destruct (Nat.ltb_spec (nat_of_ascii x) (nat_of_ascii y)) as [Hxy|Hxy];
    destruct (Nat.ltb_spec (nat_of_ascii y) (nat_of_ascii x)) as [Hyx|Hyx];
    try reflexivity; try discriminate; try (exfalso; lia).
  apply IH.
Qed.

Lemma str_ltb_total (a b : string) :
  a <> b -> Py.str_ltb a b = true \/ Py.str_ltb b a = true.
Proof.
  revert b. induction a as [|x a IH]; intros [|y b] Hne; cbn [Py.str_ltb];
    try (left; reflexivity); try (right; reflexivity); [congruence|].
  cbv zeta.
  destruct (Nat.ltb_spec (nat_of_ascii x) (nat_of_ascii y)) as [Hxy|Hxy];
    destruct (Nat.ltb_spec (nat_of_ascii y) (nat_of_ascii x)) as [Hyx|Hyx];
    try (left; reflexivity); try (right; reflexivity).
  assert (x = y) by (apply nat_of_ascii_inj; lia). subst y.
  apply IH. congruence.
Qed.

Section Sorting.

Context {A : Type}.

Lemma insert_sorted_swap_lt (x y : string * A) (l : list (string * A)) :
  Py.str_ltb (fst x) (fst y) = true ->
  insert_sorted x (insert_sorted y l) = insert_sorted y (insert_sorted x l).
Proof.
  intros Hxy. pose proof (str_ltb_asym _ _ Hxy) as Hyx.
  induction l as [|z l IH]; cbn [insert_sorted].
  - rewrite Hxy, Hyx. reflexivity.
  - destruct (Py.str_ltb (fst y) (fst z)) eqn:Hyz.
    + rewrite (str_ltb_trans _ _ _ Hxy Hyz). cbn [insert_sorted].
      rewrite Hxy, Hyx, Hyz. reflexivity.
    + cbn [insert_sorted].
      destruct (Py.str_ltb (fst x) (fst z)) eqn:Hxz; cbn [insert_sorted].
      * rewrite Hyx, Hyz. reflexivity.
      * rewrite Hyz, IH. reflexivity.
Qed.

Lemma insert_sorted_swap (x y : string * A) (l : list (string * A)) :
  fst x <> fst y ->
  insert_sorted x (insert_sorted y l) = insert_sorted y (insert_sorted x l).
Proof.
  intros Hne. destruct (str_ltb_total _ _ Hne) as [H|H].
  - apply insert_sorted_swap_lt. exact H.
  - symmetry. apply insert_sorted_swap_lt. exact H.
Qed.

Lemma sort_items_permutation (l l' : list (string * A)) :
  Permutation l l' -> List.NoDup (List.map fst l) -> sort_items l = sort_items l'.
Proof.
  induction 1 as [|x l l' Hp IH|x y l|l l' l'' Hp1 IH1 Hp2 IH2]; intros Hnd.
  - reflexivity.
  - cbn [sort_items fold_right]. inversion Hnd; subst.
    unfold sort_items in IH. rewrite IH by assumption. reflexivity.
  - cbn [sort_items fold_right]. apply insert_sorted_swap.
    cbn [List.map] in Hnd. inversion Hnd as [|? ? Hin _]; subst.
    intros E. apply Hin. left. symmetry. exact E.
  - rewrite IH1 by exact Hnd. apply IH2.
    eapply Permutation_NoDup; [|exact Hnd]. apply Permutation_map. exact Hp1.
Qed.

End Sorting.

(** The members of an object, each with its serialized value. *)
Definition rendered (d : pydict) : list (string * string) :=
  List.map (fun kv => (fst kv, dumps_sorted (snd kv))) d.

Lemma dumps_sorted_dict (d : pydict) :
  dumps_sorted (JDict d) =
    "{" ++ join ", " (List.map (fun kt => quote (fst kt) ++ ": " ++ snd kt)
                               (sort_items (rendered d))) ++ "}".
Proof.
  cbn [dumps_sorted]. do 5 f_equal.
  induction d as [|[k x] rest IH]; [reflexivity|].
  cbn [rendered List.map fst snd]. f_equal. exact IH.
Qed.

Lemma rendered_keys (d : pydict) : List.map fst (rendered d) = List.map fst d.
Proof.
  unfold rendered. rewrite List.map_map. reflexivity.
Qed.

Lemma dumps_sorted_permutation (d d' : pydict) :
  Permutation d d' -> List.NoDup (List.map fst d) ->
  dumps_sorted (JDict d) = dumps_sorted (JDict d').
Proof.
  intros Hp Hnd. rewrite !dumps_sorted_dict.
  rewrite (sort_items_permutation (rendered d) (rendered d')); [reflexivity| |].
  - apply Permutation_map. exact Hp.
  - rewrite rendered_keys. exact Hnd.
Qed.

Lemma dict_get_none (k : string) (d : pydict) :
  dict_get k d = None <-> ~ In k (List.map fst d).
Proof.
  induction d as [|[k' v] rest IH]; cbn [dict_get List.map fst In].
  - split; [intros _ []|reflexivity].
  - destruct (String.eqb k k') eqn:E.
    + apply String.eqb_eq in E. split; [discriminate|]. intros H. exfalso. apply H. left.
      symmetry. exact E.
    + apply String.eqb_neq in E. rewrite IH. split.
      * intros H [H1|H1]; [apply E; symmetry; exact H1 | exact (H H1)].
      * intros H H1. apply H. right. exact H1.
Qed.

Lemma dict_del_keys (k k0 : string) (d : pydict) :
  In k0 (List.map fst (dict_del k d)) -> In k0 (List.map fst d).
Proof.
  induction d as [|[k' v] rest IH]; cbn [dict_del]; [intros []|].
  destruct (String.eqb k k'); cbn [List.map fst In].
  - intros H. right. exact H.
  - intros [H|H]; [left; exact H | right; exact (IH H)].
Qed.

Lemma dict_del_nodup (k : string) (d : pydict) :
  List.NoDup (List.map fst d) -> List.NoDup (List.map fst (dict_del k d)).
Proof.
  induction d as [|[k' v] rest IH]; cbn [dict_del List.map fst]; [trivial|].
  intros Hnd. inversion Hnd as [|? ? Hin Hrest]; subst.
  destruct (String.eqb k k'); [exact Hrest|].
  cbn [List.map fst]. constructor; [|exact (IH Hrest)].
  intros H. apply Hin. exact (dict_del_keys _ _ _ H).
Qed.

Lemma dict_del_permutation (k : string) (d d' : pydict) :
  Permutation d d' -> List.NoDup (List.map fst d) ->
  Permutation (dict_del k d) (dict_del k d').
Proof.
  induction 1 as [|[kx vx] l l' Hp IH|[kx vx] [ky vy] l|l l' l'' Hp1 IH1 Hp2 IH2];
    intros Hnd.
  - constructor.
  - cbn [dict_del]. cbn [List.map fst] in Hnd. inversion Hnd; subst.
    destruct (String.eqb k kx); [exact Hp|]. constructor. apply IH. assumption.
  - cbn [dict_del]. cbn [List.map fst] in Hnd.
    inversion Hnd as [|? ? Hin _]; subst.
    destruct (String.eqb k ky) eqn:Ey; destruct (String.eqb k kx) eqn:Ex.
    + apply String.eqb_eq in Ey, Ex. subst. exfalso. apply Hin. left. reflexivity.
    + reflexivity.
    + reflexivity.
    + apply perm_swap.
  - etransitivity; [apply IH1; exact Hnd|]. apply IH2.
    eapply Permutation_NoDup; [|exact Hnd]. apply Permutation_map. exact Hp1.
Qed.

(** X23. [hash_block] does not depend on the order in which a block's
    fields are stored: two objects with the same members, in any order,
    have the same canonical hash. *)
Theorem canonical_hash_ignores_field_order (d d' : pydict) :
  Permutation d d' ->
  List.NoDup (List.map fst d) ->
  hash_block (JDict d) = hash_block (JDict d').
Proof.
  intros Hp Hnd. cbn [hash_block]. f_equal. unfold canonical_hash.
  assert (Hget : dict_get "current_hash" d = None <-> dict_get "current_hash" d' = None).
  { rewrite !dict_get_none. split; intros H H1; apply H.
    - eapply Permutation_in; [symmetry; apply Permutation_map; exact Hp | exact H1].
    - eapply Permutation_in; [apply Permutation_map; exact Hp | exact H1]. }
  destruct (dict_get "current_hash" d) as [x|] eqn:E;
    destruct (dict_get "current_hash" d') as [x'|] eqn:E'.
  - f_equal. apply dumps_sorted_permutation.
    + apply dict_del_permutation; assumption.
    + apply dict_del_nodup. exact Hnd.
  - destruct Hget as [_ H]. discriminate (H eq_refl).
  - destruct Hget as [H _]. discriminate (H eq_refl).
  - f_equal. apply dumps_sorted_permutation; assumption.
Qed.

Lemma canonical_hash_ignores_field_order_witness :
  let d := NodeFacts.genesis (Scenario.wall_clock 0) in
  Permutation d (List.rev d) /\
  List.NoDup (List.map fst d) /\
  List.rev d <> d /\
  hash_block (JDict d) = hash_block (JDict (List.rev d)).
Proof.
  intros d.
  assert (Hp : Permutation d (List.rev d)) by apply Permutation_rev.
  assert (Hnd : List.NoDup (List.map fst d))
    by (repeat (constructor; [cbn; intuition discriminate|]); constructor).
  split; [exact Hp|]. split; [exact Hnd|]. split; [discriminate|].
  exact (canonical_hash_ignores_field_order d (List.rev d) Hp Hnd).
Defined.

End AuditFacts.
